(** * Alligator signal engine: crossover detector, lagged smoothers, trend
      tests, entry filter, exits and cooldown

    Shallow embedding of the Python strategy files
    - [ATR1/main.py]: [BelowToLipsCrossover], [SMMAIndicator],
      [ShiftedLine];
    - [Williams2/main.py]: [hurst_exponent], [is_trending_ema],
      [SMMAIndicator] and the methods of [AlligatorStopLossQC] (the entry
      filter of [Clone of Williams2/main.py] has the same text);
    - [WilliamsAlligator/main.py]: [hurst_exponent];
    - [Williams Alligator with ATR Stop Loss/main.py]: the methods of
      [AlligatorStopLossQC].

    Python [float] is IEEE-754 binary64 and is modelled by Rocq's primitive
    [float]; Python [int] is unbounded and is modelled by [Z]; an attribute
    that may hold [None] is an [option]; a call that may raise is a
    [result]. Plotting and logging are left out, except for the order log
    and for the arithmetic inside them that can raise. *)

From Stdlib Require Import ZArith List Bool Lia.
From Stdlib Require Import Floats.
Import ListNotations.

(* Decimal literals denote the nearest binary64 value, as in Python. *)
Set Warnings "-inexact-float".

(** ** Python run-time conventions *)

Inductive exn : Set :=
| TypeError | ValueError | IndexError | ZeroDivisionError | OverflowError.

Inductive result (A : Type) : Type :=
| Ok (a : A)
| Raise (e : exn).
Arguments Ok {A} a.
Arguments Raise {A} e.

Definition bind {A B} (c : result A) (k : A -> result B) : result B :=
  match c with
  | Ok a => k a
  | Raise e => Raise e
  end.

Declare Scope py_scope.
Delimit Scope py_scope with py.
Notation "x <- c ;; k" := (bind c (fun x => k))
  (at level 61, c at next level, right associativity) : py_scope.
Notation "' pat <- c ;; k" := (bind c (fun x => match x with pat => k end))
  (at level 61, pat pattern, c at next level, right associativity) : py_scope.
Open Scope py_scope.

(** [a and b] on truth values: [b] is evaluated only when [a] is true. *)
Definition py_and (a : result bool) (b : result bool) : result bool :=
  x <- a ;; if x then b else Ok false.
Notation "a 'and' b" := (py_and a b) (at level 58, left associativity) : py_scope.

(** Comparison operators on floats: [a > b] is [b < a], [a >= b] is [b <= a]
    (all four are false as soon as one side is NaN). *)
Definition flt (a b : float) : bool := PrimFloat.ltb a b.
Definition fgt (a b : float) : bool := PrimFloat.ltb b a.
Definition fle (a b : float) : bool := PrimFloat.leb a b.
Definition fge (a b : float) : bool := PrimFloat.leb b a.

(** Ordering a float against a value that may be [None] raises [TypeError]. *)
Definition py_lt (a b : option float) : result bool :=
  match a, b with
  | Some x, Some y => Ok (flt x y)
  | _, _ => Raise TypeError
  end.
Definition py_gt (a b : option float) : result bool := py_lt b a.

(** [float(z)] as performed when an [int] meets a [float] in arithmetic:
    round to nearest even, [OverflowError] when the result is not finite.
    [float_cast] is the conversion alone (a numpy cast, which never
    raises). *)
Definition float_max_int : Z := 2 ^ 1024 - 2 ^ 970.

Definition float_cast (z : Z) : float :=
  SF2Prim (binary_normalize prec emax z 0 false).

Definition float_of_int (z : Z) : result float :=
  if (Z.abs z <? float_max_int)%Z then Ok (float_cast z)
  else Raise OverflowError.

(** [seq[-k:]] for a list. *)
Definition slice_last {A} (k : Z) (l : list A) : list A :=
  let n := Z.of_nat (length l) in
  let start := (if 0 <? k then Z.max 0 (n - k) else Z.min n (- k))%Z in
  skipn (Z.to_nat start) l.

Definition last_opt {A} (l : list A) : option A := nth_error (rev l) 0.

Definition len {A} (l : list A) : Z := Z.of_nat (length l).

(** The numpy routines the strategy files call. They are library code; the
    engine is defined over any implementation of them. [np_polyfit1 x y]
    stands for [np.polyfit(x, y, 1)[0]], which raises [TypeError] on an
    empty [x] or on vectors of different lengths. *)
Record Numpy : Type :=
  { np_mean : list float -> float;
    np_std : list float -> float;
    np_log : float -> float;
    np_polyfit1 : list float -> list float -> float }.

Definition polyfit_slope (np : Numpy) (x y : list float) : result float :=
  match x with
  | [] => Raise TypeError
  | _ :: _ =>
      if (len x =? len y)%Z then Ok (np_polyfit1 np x y) else Raise TypeError
  end.

(** ** ATR1/main.py *)

Module ATR1.

(** A line value as the engine passes it around: the pair [(cur, prev)]
    returned by [ShiftedLine.Update]; [cur] is [None] until the shift buffer
    is full, [prev] is [None] on the first update. *)
Definition line : Type := option float * option float.

(** *** class BelowToLipsCrossover *)

(** The string values ever stored in [self.state]. *)
Inductive state_name : Set :=
| unknown | BELOW_ALL | ABOVE_lips | MOUTH_SHUT | ReArmed.

Definition state_eqb (a b : state_name) : bool :=
  match a, b with
  | unknown, unknown | BELOW_ALL, BELOW_ALL | ABOVE_lips, ABOVE_lips
  | MOUTH_SHUT, MOUTH_SHUT | ReArmed, ReArmed => true
  | _, _ => false
  end.

Record BelowToLipsCrossover : Set := { state : state_name }.

(** [__init__] *)
Definition BelowToLipsCrossover_init : BelowToLipsCrossover :=
  {| state := unknown |}.

(** [update_state(self, price, jaw, teeth, lips)]: the new object state and
    the returned flag. *)
Definition update_state (self : BelowToLipsCrossover) (price : float)
    (jaw teeth lips : line) : result (BelowToLipsCrossover * bool) :=
  let p := Some price in
  bellow_all <- py_lt p (fst lips) and py_lt p (fst teeth) and py_lt p (fst jaw) ;;
  on_the_back <- py_lt (fst lips) (fst teeth) and py_lt (fst teeth) (fst jaw) ;;
  open_mouth <- py_gt (fst lips) (fst teeth) and py_gt (fst teeth) (fst jaw) ;;
  (* normal reset *)
  if bellow_all && on_the_back then Ok ({| state := BELOW_ALL |}, false) else
  (* crossover from below all *)
  c1 <- Ok (state_eqb (state self) BELOW_ALL || state_eqb (state self) ReArmed)
        and py_gt p (fst lips) and Ok open_mouth ;;
  if c1 then Ok ({| state := ABOVE_lips |}, true) else
  (* mouth shut case *)
  let self1 :=
    if state_eqb (state self) ABOVE_lips && negb open_mouth
    then {| state := MOUTH_SHUT |} else self in
  (* mouth reopening without below_all *)
  c2 <- Ok (state_eqb (state self1) MOUTH_SHUT)
        and py_gt p (fst lips) and Ok open_mouth ;;
  if c2 then Ok ({| state := ABOVE_lips |}, true) else
  (* fallback rearm *)
  c3 <- Ok (state_eqb (state self1) MOUTH_SHUT) and Ok (negb open_mouth)
        and py_lt p (fst lips) ;;
  let self2 := if c3 then {| state := ReArmed |} else self1 in
  Ok (self2, false).

(** [rearm(self)] *)
Definition rearm (self : BelowToLipsCrossover) : BelowToLipsCrossover :=
  {| state := ReArmed |}.

(** One bar as the detector sees it. *)
Record tick : Type :=
  { price : float; jaw : line; teeth : line; lips : line }.

Definition feed (self : BelowToLipsCrossover) (tk : tick)
    : result (BelowToLipsCrossover * bool) :=
  update_state self (price tk) (jaw tk) (teeth tk) (lips tk).

(** Feeding a sequence of bars, collecting the returned flags. *)
Fixpoint feed_all (self : BelowToLipsCrossover) (tks : list tick)
    : result (BelowToLipsCrossover * list bool) :=
  match tks with
  | [] => Ok (self, [])
  | tk :: rest =>
      '(self1, b) <- feed self tk ;;
      '(self2, bs) <- feed_all self1 rest ;;
      Ok (self2, b :: bs)
  end.

(** The three conditions of [update_state] on a bar whose three line values
    are present ([false] when one is missing). *)
Definition lines3 (tk : tick) : option (float * float * float) :=
  match fst (jaw tk), fst (teeth tk), fst (lips tk) with
  | Some j, Some t, Some l => Some (j, t, l)
  | _, _, _ => None
  end.

Definition below_and_bearish (tk : tick) : bool :=
  match lines3 tk with
  | Some (j, t, l) =>
      (flt (price tk) l && flt (price tk) t && flt (price tk) j)
      && (flt l t && flt t j)
  | None => false
  end.

Definition above_and_bullish (tk : tick) : bool :=
  match lines3 tk with
  | Some (j, t, l) => fgt (price tk) l && (fgt l t && fgt t j)
  | None => false
  end.

(** States from which a bullish bar fires. *)
Definition can_fire (s : state_name) : bool :=
  match s with
  | BELOW_ALL | ReArmed | MOUTH_SHUT => true
  | unknown | ABOVE_lips => false
  end.


(** On a bar whose three line values are present, [update_state] is this
    function of the three conditions and of the state. *)
Definition step_present (s : state_name) (p j t l : float)
    : state_name * bool :=
  let bellow_all := flt p l && flt p t && flt p j in
  let on_the_back := flt l t && flt t j in
  let open_mouth := fgt l t && fgt t j in
  if bellow_all && on_the_back then (BELOW_ALL, false)
  else if (state_eqb s BELOW_ALL || state_eqb s ReArmed) && fgt p l && open_mouth
  then (ABOVE_lips, true)
  else
    let s1 := if state_eqb s ABOVE_lips && negb open_mouth then MOUTH_SHUT else s in
    if state_eqb s1 MOUTH_SHUT && fgt p l && open_mouth then (ABOVE_lips, true)
    else if state_eqb s1 MOUTH_SHUT && negb open_mouth && flt p l
    then (ReArmed, false) else (s1, false).

(** Sample bars: price and the three shifted line values. *)
Definition bar_at (p j t l : float) : tick :=
  {| price := p; jaw := (Some j, None); teeth := (Some t, None);
     lips := (Some l, None) |}.

Definition bearish_bar : tick := bar_at 1 4 3 2.
Definition bullish_bar : tick := bar_at 10 7 8 9.
Definition mouth_shut_bar : tick := bar_at 10 7 9 8.
Definition sideways_bar : tick := bar_at 8 7 8 9.

(** *** class SMMAIndicator *)

Record SMMAIndicator : Set :=
  { length : Z; current : option float; prev : option float; count : Z }.

Definition SMMAIndicator_init (length : Z) : SMMAIndicator :=
  {| length := length; current := None; prev := None; count := 0 |}.

(** [Update(self, price)], returning [(self.current, self.prev)]. The
    division raises [ZeroDivisionError] when [float(self.length)] is zero,
    which is when [self.length] is. *)
Definition SMMA_Update (self : SMMAIndicator) (price : float)
    : result (SMMAIndicator * (float * option float)) :=
  match current self with
  | None =>
      Ok ({| length := length self; current := Some price;
             prev := prev self; count := count self + 1 |},
          (price, prev self))
  | Some c =>
      lm1 <- float_of_int (length self - 1) ;;
      let num := (c * lm1 + price)%float in
      l <- float_of_int (length self) ;;
      if (length self =? 0)%Z then Raise ZeroDivisionError else
      let cur := (num / l)%float in
      Ok ({| length := length self; current := Some cur;
             prev := Some c; count := count self + 1 |},
          (cur, Some c))
  end.

Definition SMMA_IsReady (self : SMMAIndicator) : bool :=
  (length self <=? count self)%Z.

(** *** class ShiftedLine *)

(** [collections.deque(maxlen=n)]: the constructor raises [ValueError] for a
    negative [maxlen] and [OverflowError] beyond the index range of the
    platform (64-bit [ssize_t]). *)
Record deque : Set := { items : list float; maxlen : Z }.

Definition ssize_max : Z := 2 ^ 63 - 1.

Definition deque_init (maxlen : Z) : result deque :=
  if ((ssize_max <? maxlen) || (maxlen <? - ssize_max - 1))%Z
  then Raise OverflowError
  else if (maxlen <? 0)%Z then Raise ValueError
  else Ok {| items := []; maxlen := maxlen |}.

Definition deque_append (d : deque) (x : float) : deque :=
  if (maxlen d =? 0)%Z then d
  else if (len (items d) =? maxlen d)%Z
  then {| items := tl (items d) ++ [x]; maxlen := maxlen d |}
  else {| items := items d ++ [x]; maxlen := maxlen d |}.

Record ShiftedLine : Set :=
  { smma : SMMAIndicator; buf : deque; shift : Z }.

(** [__init__(self, period, shift)] *)
Definition ShiftedLine_init (period shift : Z) : result ShiftedLine :=
  b <- deque_init (shift + 1) ;;
  Ok {| smma := SMMAIndicator_init period; buf := b; shift := shift |}.

(** [Update(self, price)], returning [(shifted, prev)]. *)
Definition ShiftedLine_Update (self : ShiftedLine) (price : float)
    : result (ShiftedLine * line) :=
  '(smma1, (cur, prev)) <- SMMA_Update (smma self) price ;;
  let buf1 := deque_append (buf self) cur in
  shifted <-
    (if (len (items buf1) =? maxlen buf1)%Z
     then match items buf1 with
          | x :: _ => Ok (Some x)
          | [] => Raise IndexError
          end
     else Ok None) ;;
  Ok ({| smma := smma1; buf := buf1; shift := shift self |}, (shifted, prev)).

Definition ShiftedLine_IsReady (self : ShiftedLine) : bool :=
  SMMA_IsReady (smma self) && (len (items (buf self)) =? maxlen (buf self))%Z.

(** Constructing a line and feeding it a sequence of prices. *)
Fixpoint update_all (self : ShiftedLine) (prices : list float)
    : result ShiftedLine :=
  match prices with
  | [] => Ok self
  | x :: rest =>
      '(self1, _) <- ShiftedLine_Update self x ;;
      update_all self1 rest
  end.

Definition after_updates (period shift : Z) (prices : list float)
    : result ShiftedLine :=
  self <- ShiftedLine_init period shift ;;
  update_all self prices.

(** The three lines as [Initialize] builds them. *)
Definition jaw_line : result ShiftedLine := ShiftedLine_init 13 8.
Definition teeth_line : result ShiftedLine := ShiftedLine_init 8 5.
Definition lips_line : result ShiftedLine := ShiftedLine_init 5 3.

End ATR1.

(** ** Williams2/main.py *)

Module Williams2.

(** An element of the line history lists: [Initialize] puts the indicator
    object itself at their head, the later entries are floats. *)
Inductive pyval : Set :=
| PObj
| PFloat (f : float).

Definition as_float (v : pyval) : result float :=
  match v with
  | PFloat f => Ok f
  | PObj => Raise TypeError
  end.

Record TradeBar : Set := { High : float; Low : float; Close : float }.

Inductive reason : Set :=
| startup_trending_condition
| cross_filter
| trailing_stop
| hard_stop
| lips_crossed_below_teeth_buffer
| lips_crossed_below_jaw.

(** What [self.log] records of the decisions. *)
Inductive event : Set :=
| BUY (r : reason) (close : float)
| SELL (r : reason) (close : float).

(** *** Math / trend utilities *)

Fixpoint map2 {A B C} (f : A -> B -> C) (l1 : list A) (l2 : list B) : list C :=
  match l1, l2 with
  | a :: r1, b :: r2 => f a b :: map2 f r1 r2
  | _, _ => []
  end.

(** [np.arange(lo, hi)] on integers, [fuel] bounding the length. *)
Fixpoint arange_from (lo : Z) (fuel : nat) : list Z :=
  match fuel with
  | O => []
  | S k => lo :: arange_from (lo + 1) k
  end.
Definition arange (lo hi : Z) : list Z := arange_from lo (Z.to_nat (hi - lo)).

Fixpoint select {A} (mask : list bool) (l : list A) : list A :=
  match mask, l with
  | m :: ms, x :: xs => if m then x :: select ms xs else select ms xs
  | _, _ => []
  end.

Section Engine.

Variable np : Numpy.

(** [hurst_exponent(ts, max_lag=None)], in three steps: the bound on the
    lags ([None] when the function returns the neutral value early), the
    [tau] list, and the mask that guards the regression. *)
Definition hurst_max_lag (n : Z) (max_lag : option Z) : option Z :=
  if (n <? 10)%Z then None else
  let max_lag0 :=
    match max_lag with None => Z.max 2 (n / 2) | Some m => m end in
  let max_lag1 := Z.min max_lag0 (n - 2) in
  if (n <? max_lag1 + 2)%Z
  then let m := Z.max 2 (n / 3) in
       if (n <? m + 2)%Z then None else Some m
  else Some max_lag1.

Definition hurst_tau (ts : list float) (lags : list Z) : list float :=
  map (fun lag =>
         let diff := map2 PrimFloat.sub
                          (skipn (Z.to_nat lag) ts)
                          (firstn (Z.to_nat (len ts - lag)) ts) in
         PrimFloat.sqrt (np_std np diff)) lags.

(* Guard against zeros *)
Definition hurst_mask (lags tau : list float) : list bool :=
  map2 (fun l t => fgt l 0 && fgt t 0) lags tau.

Definition mask_sum (mask : list bool) : Z := len (filter (fun b => b) mask).

Definition hurst_exponent (ts : list float) (max_lag : option Z)
    : result float :=
  match hurst_max_lag (len ts) max_lag with
  | None => Ok 0.5%float
  | Some max_lag2 =>
      let lags := arange 2 max_lag2 in
      let tau := hurst_tau ts lags in
      let lagsf := map float_cast lags in
      let mask := hurst_mask lagsf tau in
      if (mask_sum mask <? 2)%Z then Ok 0.5%float else
      polyfit_slope np (map (np_log np) (select mask lagsf))
                       (map (np_log np) (select mask tau))
  end.

(** [is_trending(ts, threshold=0.5)] *)
Definition is_trending (ts : list float) (threshold : float) : result bool :=
  H <- hurst_exponent ts None ;;
  Ok (fgt H threshold).

(** [a / b] on two [int]s with [b] nonzero: the exact quotient rounded once
    to the nearest float, ties to even. The quotient is taken with enough
    bits below the float precision, and a sticky last bit stands for a
    nonzero remainder. *)
Definition int_truediv_rounded (a b : Z) : float :=
  let k := (Z.log2 (Z.abs b) + 56)%Z in
  let n := (Z.abs a * 2 ^ k)%Z in
  let q := (n / Z.abs b)%Z in
  let sticky := if (n mod Z.abs b =? 0)%Z then 0%Z else 1%Z in
  let m := (2 * q + sticky)%Z in
  let neg := xorb (a <? 0)%Z (b <? 0)%Z in
  SF2Prim (binary_normalize prec emax (if neg then - m else m) (- k - 1) neg).

(** [alpha = 2/(period+1)] with [period] an [int]: true division of
    integers. It raises [ZeroDivisionError] for [period = -1]; the
    quotient is at most 2 in absolute value, so the [OverflowError] of
    integer division cannot occur. *)
Definition alpha_of (period : Z) : result float :=
  if (period + 1 =? 0)%Z then Raise ZeroDivisionError else
  Ok (int_truediv_rounded 2 (period + 1)).

(** The loop of [ema] over [arr[1:]]; [last] is [out[-1]], and the values
    appended to [out] are returned in order. *)
Fixpoint ema_loop (alpha : float) (last : pyval) (rest : list pyval)
    : result (list pyval) :=
  match rest with
  | [] => Ok []
  | price :: rest' =>
      p <- as_float price ;;
      o <- as_float last ;;
      let v := PFloat (alpha * p + (1 - alpha) * o)%float in
      tl <- ema_loop alpha v rest' ;;
      Ok (v :: tl)
  end.

Definition ema (arr : list pyval) (period : Z) : result (list pyval) :=
  alpha <- alpha_of period ;;
  match arr with
  | [] => Raise IndexError
  | a0 :: rest =>
      tl <- ema_loop alpha a0 rest ;;
      Ok (a0 :: tl)
  end.

Definition item_first (l : list pyval) : result float :=
  match l with
  | x :: _ => as_float x
  | [] => Raise IndexError
  end.

Definition item_last (l : list pyval) : result float :=
  match last_opt l with
  | Some x => as_float x
  | None => Raise IndexError
  end.

Definition ema_with_slope (ts : list pyval) (short long : Z)
    : result (bool * float) :=
  s <- ema (slice_last long ts) short ;;
  l <- ema (slice_last long ts) long ;;
  s_last <- item_last s ;;
  s_first <- item_first s ;;
  let slope := ((s_last - s_first) / s_first)%float in
  l_last <- item_last l ;;
  Ok (fgt s_last l_last, slope).

(** [is_trending_ema(ts1, ts2, ts3, short=5, long=20, slope_threshold=0.01)] *)
Definition is_trending_ema (ts1 ts2 ts3 : list pyval) (short long : Z)
    (slope_threshold : float) : result bool :=
  if (len ts1 <? long)%Z then Ok false else
  '(test1, slope1) <- ema_with_slope ts1 short long ;;
  '(test2, slope2) <- ema_with_slope ts2 short long ;;
  '(test3, slope3) <- ema_with_slope ts3 short long ;;
  Ok ((test1 && fgt slope1 slope_threshold)
      && (test2 && fgt slope2 slope_threshold)
      && (test3 && fgt slope3 slope_threshold)).

(** *** class SMMAIndicator *)

Record SMMAIndicator : Set :=
  { length : Z; current : option float; count : Z }.

Definition SMMAIndicator_init (length : Z) : SMMAIndicator :=
  {| length := length; current := None; count := 0 |}.

Definition SMMA_Update (self : SMMAIndicator) (price : float)
    : result (SMMAIndicator * float) :=
  match current self with
  | None =>
      Ok ({| length := length self; current := Some price;
             count := count self + 1 |}, price)
  | Some c =>
      lm1 <- float_of_int (length self - 1) ;;
      let num := (c * lm1 + price)%float in
      l <- float_of_int (length self) ;;
      if (length self =? 0)%Z then Raise ZeroDivisionError else
      let cur := (num / l)%float in
      Ok ({| length := length self; current := Some cur;
             count := count self + 1 |}, cur)
  end.

(** *** class AlligatorStopLossQC *)

(** The values [Initialize] assigns under "Params (tune here)" and never
    changes afterwards. *)
Record Params : Set :=
  { window_size : Z;
    hurst_threshold : float;
    check_Hurst_exponent : bool;
    use_entry_price_filter : bool;
    price_filter_lookback : Z;
    price_filter_k : float;
    max_peak_days : Z;
    lips_price_gap_pct : float;
    cooldown_days : Z;
    stopLossPct : float;
    trailingStopPct : float;
    jawLength : Z;
    teethLength : Z;
    lipsLength : Z }.

(** The mutable attributes the decisions read. [highs], [lows], [closes]
    and [jaws_list] are only appended to and are left out; [invested] is
    [self.portfolio.invested], set by [set_holdings] and cleared by
    [liquidate]. *)
Record Algo : Type :=
  { cfg : Params;
    hl2s : list float;
    lips_list : list pyval;
    teeth_list : list pyval;
    wait_peak_check : bool;
    peak_day_hl2 : option float;
    peak_check_days : Z;
    cooldown_days_remaining : Z;
    entryPrice : option float;
    highestPrice : option float;
    startup_check : bool;
    jaw : SMMAIndicator;
    teeth : SMMAIndicator;
    lips : SMMAIndicator;
    jaw_prev : option float;
    teeth_prev : option float;
    lips_prev : option float;
    invested : bool;
    initial_symbol_price : option float;
    log : list event }.

Definition set_wait_peak_check (v : bool) (a : Algo) : Algo :=
  {| cfg := cfg a; hl2s := hl2s a; lips_list := lips_list a;
     teeth_list := teeth_list a; wait_peak_check := v;
     peak_day_hl2 := peak_day_hl2 a; peak_check_days := peak_check_days a;
     cooldown_days_remaining := cooldown_days_remaining a;
     entryPrice := entryPrice a; highestPrice := highestPrice a;
     startup_check := startup_check a; jaw := jaw a; teeth := teeth a;
     lips := lips a; jaw_prev := jaw_prev a; teeth_prev := teeth_prev a;
     lips_prev := lips_prev a; invested := invested a;
     initial_symbol_price := initial_symbol_price a; log := log a |}.

Definition set_peak (w : bool) (p : option float) (d : Z) (a : Algo) : Algo :=
  {| cfg := cfg a; hl2s := hl2s a; lips_list := lips_list a;
     teeth_list := teeth_list a; wait_peak_check := w;
     peak_day_hl2 := p; peak_check_days := d;
     cooldown_days_remaining := cooldown_days_remaining a;
     entryPrice := entryPrice a; highestPrice := highestPrice a;
     startup_check := startup_check a; jaw := jaw a; teeth := teeth a;
     lips := lips a; jaw_prev := jaw_prev a; teeth_prev := teeth_prev a;
     lips_prev := lips_prev a; invested := invested a;
     initial_symbol_price := initial_symbol_price a; log := log a |}.

Definition set_peak_check_days (d : Z) (a : Algo) : Algo :=
  set_peak (wait_peak_check a) (peak_day_hl2 a) d a.

Definition set_cooldown_days_remaining (c : Z) (a : Algo) : Algo :=
  {| cfg := cfg a; hl2s := hl2s a; lips_list := lips_list a;
     teeth_list := teeth_list a; wait_peak_check := wait_peak_check a;
     peak_day_hl2 := peak_day_hl2 a; peak_check_days := peak_check_days a;
     cooldown_days_remaining := c;
     entryPrice := entryPrice a; highestPrice := highestPrice a;
     startup_check := startup_check a; jaw := jaw a; teeth := teeth a;
     lips := lips a; jaw_prev := jaw_prev a; teeth_prev := teeth_prev a;
     lips_prev := lips_prev a; invested := invested a;
     initial_symbol_price := initial_symbol_price a; log := log a |}.

Definition set_highestPrice (h : option float) (a : Algo) : Algo :=
  {| cfg := cfg a; hl2s := hl2s a; lips_list := lips_list a;
     teeth_list := teeth_list a; wait_peak_check := wait_peak_check a;
     peak_day_hl2 := peak_day_hl2 a; peak_check_days := peak_check_days a;
     cooldown_days_remaining := cooldown_days_remaining a;
     entryPrice := entryPrice a; highestPrice := h;
     startup_check := startup_check a; jaw := jaw a; teeth := teeth a;
     lips := lips a; jaw_prev := jaw_prev a; teeth_prev := teeth_prev a;
     lips_prev := lips_prev a; invested := invested a;
     initial_symbol_price := initial_symbol_price a; log := log a |}.

(** The position attributes written together by [buy] and [sell]. *)
Definition set_position (inv : bool) (e h : option float) (ev : event)
    (a : Algo) : Algo :=
  {| cfg := cfg a; hl2s := hl2s a; lips_list := lips_list a;
     teeth_list := teeth_list a; wait_peak_check := wait_peak_check a;
     peak_day_hl2 := peak_day_hl2 a; peak_check_days := peak_check_days a;
     cooldown_days_remaining := cooldown_days_remaining a;
     entryPrice := e; highestPrice := h;
     startup_check := startup_check a; jaw := jaw a; teeth := teeth a;
     lips := lips a; jaw_prev := jaw_prev a; teeth_prev := teeth_prev a;
     lips_prev := lips_prev a; invested := inv;
     initial_symbol_price := initial_symbol_price a;
     log := log a ++ [ev] |}.

Definition set_series (h : list float) (j t l : SMMAIndicator)
    (ll tl : list pyval) (a : Algo) : Algo :=
  {| cfg := cfg a; hl2s := h; lips_list := ll;
     teeth_list := tl; wait_peak_check := wait_peak_check a;
     peak_day_hl2 := peak_day_hl2 a; peak_check_days := peak_check_days a;
     cooldown_days_remaining := cooldown_days_remaining a;
     entryPrice := entryPrice a; highestPrice := highestPrice a;
     startup_check := startup_check a; jaw := j; teeth := t;
     lips := l; jaw_prev := jaw_prev a; teeth_prev := teeth_prev a;
     lips_prev := lips_prev a; invested := invested a;
     initial_symbol_price := initial_symbol_price a; log := log a |}.

Definition set_prev_and_baseline (j t l : option float) (isp : option float)
    (a : Algo) : Algo :=
  {| cfg := cfg a; hl2s := hl2s a; lips_list := lips_list a;
     teeth_list := teeth_list a; wait_peak_check := wait_peak_check a;
     peak_day_hl2 := peak_day_hl2 a; peak_check_days := peak_check_days a;
     cooldown_days_remaining := cooldown_days_remaining a;
     entryPrice := entryPrice a; highestPrice := highestPrice a;
     startup_check := startup_check a; jaw := jaw a; teeth := teeth a;
     lips := lips a; jaw_prev := j; teeth_prev := t;
     lips_prev := l; invested := invested a;
     initial_symbol_price := isp; log := log a |}.

Definition set_prev (j t l : option float) (a : Algo) : Algo :=
  set_prev_and_baseline j t l (initial_symbol_price a) a.

Definition set_initial_symbol_price (isp : option float) (a : Algo) : Algo :=
  set_prev_and_baseline (jaw_prev a) (teeth_prev a) (lips_prev a) isp a.

(** Two views of the state: the position the orchestrator owns, and the
    state of the entry filter. *)
Definition position (a : Algo)
    : bool * option float * option float * Z * list event :=
  (invested a, entryPrice a, highestPrice a, cooldown_days_remaining a, log a).

Definition peak_state (a : Algo) : bool * option float * Z :=
  (wait_peak_check a, peak_day_hl2 a, peak_check_days a).

(** [buy(self, bar, reason)] *)
Definition buy (self : Algo) (bar : TradeBar) (r : reason) : Algo :=
  let self1 :=
    set_position true (Some (Close bar)) (Some (Close bar))
                 (BUY r (Close bar)) self in
  set_cooldown_days_remaining (cooldown_days (cfg self)) self1.

(** [sell(self, bar, reason)] *)
Definition sell (self : Algo) (bar : TradeBar) (r : reason) : Algo :=
  set_position false None None (SELL r (Close bar)) self.

(** [update_performance(self, bar)]: the first call records the baseline;
    later calls divide [bar.Close] by it, for plotting only. *)
Definition update_performance (self : Algo) (bar : TradeBar) : result Algo :=
  match initial_symbol_price self with
  | None =>
      Ok (set_initial_symbol_price (Some (Close bar)) self)
  | Some p0 =>
      if PrimFloat.eqb p0 0 then Raise ZeroDivisionError else Ok self
  end.

(** Need at least one full period of the longest SMMA. *)
Definition min_len (p : Params) : Z :=
  (Z.max (Z.max (jawLength p) (teethLength p)) (lipsLength p) + 1)%Z.

(** [update_indicators(self, bar)] *)
Definition update_indicators (self : Algo) (bar : TradeBar)
    : result (Algo * option (float * float * float * float)) :=
  let hl2 := ((High bar + Low bar) / 2.0)%float in
  let hl2s1 := hl2s self ++ [hl2] in
  if (len hl2s1 <? min_len (cfg self))%Z
  then Ok (set_series hl2s1 (jaw self) (teeth self) (lips self)
                      (lips_list self) (teeth_list self) self, None)
  else
    '(jaw1, jaw_v) <- SMMA_Update (jaw self) hl2 ;;
    '(teeth1, teeth_v) <- SMMA_Update (teeth self) hl2 ;;
    '(lips1, lips_v) <- SMMA_Update (lips self) hl2 ;;
    Ok (set_series hl2s1 jaw1 teeth1 lips1
                   (lips_list self ++ [PFloat lips_v])
                   (teeth_list self ++ [PFloat teeth_v]) self,
        Some (hl2, jaw_v, teeth_v, lips_v)).

(** [compute_trend_flag(self)] *)
Definition compute_trend_flag (self : Algo) : result bool :=
  if check_Hurst_exponent (cfg self) then
    if (len (hl2s self) <? window_size (cfg self))%Z then Ok false
    else is_trending (slice_last (window_size (cfg self)) (hl2s self))
                     (hurst_threshold (cfg self))
  else
    is_trending_ema (map PFloat (slice_last 20 (hl2s self)))
                    (slice_last 20 (lips_list self))
                    (slice_last 20 (teeth_list self)) 5 20 0.01%float.

(** [lips_price_gap_ok(self, lips_val, hl2)] *)
Definition lips_price_gap_ok (self : Algo) (lips_val hl2 : float) : bool :=
  if flt (lips_price_gap_pct (cfg self)) 0 then true else
  let gap := (1.0 + 0.01 * lips_price_gap_pct (cfg self))%float in
  negb (flt (lips_val * gap) hl2).

(** [entry_price_filter(self, bar, hl2)]: the new state and the verdict. *)
Definition entry_price_filter (self : Algo) (bar : TradeBar) (hl2 : float)
    : Algo * bool :=
  if negb (use_entry_price_filter (cfg self)) then (self, true) else
  let lb := price_filter_lookback (cfg self) in
  if (len (hl2s self) <? lb)%Z then (self, false) else
  let window := slice_last lb (hl2s self) in
  let sma := np_mean np window in
  let std := np_std np window in
  if PrimFloat.eqb std 0.0 then (self, true) else
  let z := ((hl2 - sma) / std)%float in
  let cheap := flt z (- price_filter_k (cfg self)) in
  let expensive := fgt z (price_filter_k (cfg self)) in
  (* Cheap => allow now *)
  if cheap then (self, true) else
  (* Start peak-check mode on first expensive *)
  if expensive && negb (wait_peak_check self)
  then (set_peak true (Some hl2) 0 self, false) else
  (* Already waiting: strict rollover check *)
  if wait_peak_check self then
    let self1 := set_peak_check_days (peak_check_days self + 1) self in
    (* Rollover (reversal) confirmed *)
    if match peak_day_hl2 self1 with
       | Some pk => flt hl2 pk
       | None => false
       end
    then (set_peak false None 0 self1, false) else
    (* If max days pass with no rollover => allow entry *)
    if (max_peak_days (cfg self1) <=? peak_check_days self1)%Z
    then (set_peak false None 0 self1, true) else
    (* Still waiting *)
    (self1, false)
  else
  (* Neutral *)
  (self, true).

(** [check_entry(self, bar, hl2, jaw, teeth, lips)]. The three line values
    are the floats returned by [SMMAIndicator.Update], so the [is not None]
    tests of the startup rule hold. *)
Definition check_entry (self : Algo) (bar : TradeBar)
    (hl2 jaw_v teeth_v lips_v : float) : result Algo :=
  trend_ok <- compute_trend_flag self ;;
  if negb trend_ok then Ok self else
  (* fixed Startup catch-up: only checking trend up *)
  let self1 :=
    if startup_check self then
      if negb (invested self)
      then set_wait_peak_check false (buy self bar startup_trending_condition)
      else self
    else self in
  (* Normal cross entry: Lips cross above Teeth (from below) *)
  let lips_cross_up :=
    match lips_prev self1, teeth_prev self1 with
    | Some lp, Some tp => fle lp tp && fgt lips_v teeth_v
    | _, _ => false
    end in
  if lips_cross_up then
    if lips_price_gap_ok self1 lips_v hl2 then
      let '(self2, pass) := entry_price_filter self1 bar hl2 in
      if pass
      then Ok (set_wait_peak_check false (buy self2 bar cross_filter))
      else Ok self2
    else Ok self1
  else Ok self1.

(** [int(x)] inside the reason strings of the stops: it raises on a NaN or
    an infinite [x]; its value is only printed. *)
Definition int_for_message (x : float) : result unit :=
  if PrimFloat.is_nan x then Raise ValueError
  else if PrimFloat.is_infinity x then Raise OverflowError
  else Ok tt.

(** The trailing high update at the head of [check_exit]:
    [if self.highestPrice is None or price > self.highestPrice]. *)
Definition running_high (highest : option float) (price : float) : float :=
  match highest with
  | None => price
  | Some h => if fgt price h then price else h
  end.

(** [check_exit(self, bar, jaw, teeth, lips)] *)
Definition check_exit (self : Algo) (bar : TradeBar)
    (jaw_v teeth_v lips_v : float) : result Algo :=
  match entryPrice self with
  | None => Ok self
  | Some entry =>
      let price := Close bar in
      (* Trailing high update *)
      let highest := running_high (highestPrice self) price in
      let self1 := set_highestPrice (Some highest) self in
      (* 1) Trailing stop *)
      if fle price (highest * (1 - trailingStopPct (cfg self1)))%float then
        _ <- int_for_message (trailingStopPct (cfg self1) * 100)%float ;;
        Ok (set_wait_peak_check true (sell self1 bar trailing_stop))
      else
      (* 2) Hard stop from entry *)
      if fle price (entry * (1 - stopLossPct (cfg self1)))%float then
        _ <- int_for_message (stopLossPct (cfg self1) * 100)%float ;;
        Ok (set_wait_peak_check true (sell self1 bar hard_stop))
      else
      (* 3) Lips cross below Teeth with buffer *)
      let lips_cross_down_with_buffer :=
        match lips_prev self1, teeth_prev self1 with
        | Some lp, Some tp => fge lp tp && flt (1.05 * lips_v)%float teeth_v
        | _, _ => false
        end in
      if lips_cross_down_with_buffer
      then Ok (set_wait_peak_check true
                 (sell self1 bar lips_crossed_below_teeth_buffer))
      else
      (* 4) Lips cross below Jaw *)
      let lips_below_jaw :=
        match lips_prev self1, jaw_prev self1 with
        | Some lp, Some jp => fge lp jp && flt lips_v jaw_v
        | _, _ => false
        end in
      if lips_below_jaw
      then Ok (set_wait_peak_check true (sell self1 bar lips_crossed_below_jaw))
      else Ok self1
  end.

(** What one call of [OnData] did. *)
Inductive pass : Type :=
| Skipped (self : Algo)       (* returned at a guard or during warm-up *)
| Processed (self : Algo).    (* ran to the end of the handler *)

Definition state_of (p : pass) : Algo :=
  match p with Skipped a | Processed a => a end.

(** The counter after one cooldown step. *)
Definition tick_down (c : Z) : Z := if (0 <? c)%Z then (c - 1)%Z else c.

(** The cooldown step that ends the handler. *)
Definition decrement_cooldown (self : Algo) : Algo :=
  if (0 <? cooldown_days_remaining self)%Z
  then set_cooldown_days_remaining (cooldown_days_remaining self - 1) self
  else self.

(** [OnData(self, data)]; [data] is [None] when the slice has no bar for the
    symbol. The z-score diagnostic inside [try] changes nothing and is left
    out. *)
Definition OnData (self : Algo) (data : option TradeBar) : result pass :=
  match data with
  | None => Ok (Skipped self)
  | Some bar =>
      '(self1, ind) <- update_indicators self bar ;;
      match ind with
      | None => Ok (Skipped self1)
      | Some (hl2, jaw_v, teeth_v, lips_v) =>
          (* Entry / Exit decision *)
          self2 <-
            (if negb (invested self1)
             then check_entry self1 bar hl2 jaw_v teeth_v lips_v
             else if (cooldown_days_remaining self1 =? 0)%Z
                  then check_exit self1 bar jaw_v teeth_v lips_v
                  else Ok self1) ;;
          self3 <- update_performance self2 bar ;;
          let self4 :=
            set_prev (Some jaw_v) (Some teeth_v) (Some lips_v) self3 in
          (* Decrement cooldown if active *)
          Ok (Processed (decrement_cooldown self4))
      end
  end.

(** The handler over a stream of slices; a raise ends the run. *)
Fixpoint run (self : Algo) (stream : list (option TradeBar)) : result Algo :=
  match stream with
  | [] => Ok self
  | d :: rest =>
      p <- OnData self d ;;
      run (state_of p) rest
  end.

(** The warm-up loop of [Initialize] over the history bars. *)
Fixpoint warm_up (self : Algo) (history : list TradeBar) : result Algo :=
  match history with
  | [] => Ok self
  | bar :: rest =>
      let hl2 := ((High bar + Low bar) / 2.0)%float in
      '(jaw1, jaw_v) <- SMMA_Update (jaw self) hl2 ;;
      '(teeth1, teeth_v) <- SMMA_Update (teeth self) hl2 ;;
      '(lips1, lips_v) <- SMMA_Update (lips self) hl2 ;;
      warm_up (set_series (hl2s self) jaw1 teeth1 lips1
                          (lips_list self ++ [PFloat lips_v])
                          (teeth_list self ++ [PFloat teeth_v]) self) rest
  end.

Definition source_params : Params :=
  {| window_size := 40;
     hurst_threshold := 0.5;
     check_Hurst_exponent := false;
     use_entry_price_filter := true;
     price_filter_lookback := 20;
     price_filter_k := 1.5;
     max_peak_days := 2;
     lips_price_gap_pct := 6.00;
     cooldown_days := 3;
     stopLossPct := 0.003;
     trailingStopPct := 0.003;
     jawLength := 20;
     teethLength := 12;
     lipsLength := 8 |}.

(** The attributes as [Initialize] sets them before the warm-up loop. *)
Definition initial_state (p : Params) : Algo :=
  {| cfg := p; hl2s := [];
     lips_list := [PObj]; teeth_list := [PObj];
     wait_peak_check := false; peak_day_hl2 := None; peak_check_days := 0;
     cooldown_days_remaining := 0;
     entryPrice := None; highestPrice := None; startup_check := true;
     jaw := SMMAIndicator_init (jawLength p);
     teeth := SMMAIndicator_init (teethLength p);
     lips := SMMAIndicator_init (lipsLength p);
     jaw_prev := None; teeth_prev := None; lips_prev := None;
     invested := false; initial_symbol_price := None; log := [] |}.

(** [Initialize(self)], for parameters [p] and the bars [self.history]
    returns. *)
Definition Initialize (p : Params) (history : list TradeBar) : result Algo :=
  self1 <- warm_up (initial_state p) history ;;
  Ok (set_prev (current (jaw self1)) (current (teeth self1))
               (current (lips self1)) self1).

End Engine.

End Williams2.

(** ** WilliamsAlligator/main.py *)

Module WilliamsAlligator.

Section Trend.

Variable np : Numpy.

(** [hurst_exponent(ts, max_lag=None)] of this file: it raises on a short
    series instead of returning a neutral value. *)
Definition hurst_exponent (ts : list float) (max_lag : option Z)
    : result float :=
  let n := len ts in
  let max_lag1 :=
    match max_lag with None => Z.max 2 (n / 2) | Some m => m end in
  if (n <? max_lag1 + 2)%Z then Raise ValueError else
  let lags := Williams2.arange 2 (Z.min max_lag1 (n - 1)) in
  let tau :=
    map (fun lag =>
           let diff := Williams2.map2 PrimFloat.sub
                            (skipn (Z.to_nat lag) ts)
                            (firstn (Z.to_nat (n - lag)) ts) in
           PrimFloat.sqrt (np_std np diff)) lags in
  polyfit_slope np (map (np_log np) (map float_cast lags))
                   (map (np_log np) tau).

Definition is_trending (ts : list float) (threshold : float) : result bool :=
  H <- hurst_exponent ts None ;;
  Ok (fgt H threshold).

End Trend.

End WilliamsAlligator.

(** ** Williams Alligator with ATR Stop Loss/main.py *)

Module AlligatorATR.

(** [is_trending_ema] and [SMMAIndicator] of this file have the text of the
    ones in Williams2/main.py and are shared with it. *)
Definition SMMAIndicator := Williams2.SMMAIndicator.
Definition TradeBar := Williams2.TradeBar.

Inductive reason : Set :=
| startup_trending_condition
| Lips_cross_up
| ATR_stop
| Lips_crossed_below_Teeth
| Lips_crossed_below_Jaw.

Inductive event : Set :=
| BUY (r : reason) (close : float)
| SELL (r : reason) (close : float).

Record Algo : Type :=
  { cooldown_days : Z;
    atr_multiplier : float;
    hl2s : list float;
    lips_list : list float;
    teeth_list : list float;
    entryPrice : option float;
    highestPrice : option float;
    startup_check : bool;
    cooldown_days_remaining : Z;
    jaw : SMMAIndicator;
    teeth : SMMAIndicator;
    lips : SMMAIndicator;
    jaw_prev : option float;
    teeth_prev : option float;
    lips_prev : option float;
    invested : bool;
    initial_symbol_price : option float;
    log : list event }.

(** One slice as the handler sees it: the bar, if any, and the reading of
    the platform's ATR indicator. *)
Record Slice : Set :=
  { bar_of : option TradeBar; atr_ready : bool; atr_value : float }.

Definition set_series (h : list float) (j t l : SMMAIndicator)
    (ll tl : list float) (a : Algo) : Algo :=
  {| cooldown_days := cooldown_days a; atr_multiplier := atr_multiplier a;
     hl2s := h; lips_list := ll; teeth_list := tl;
     entryPrice := entryPrice a; highestPrice := highestPrice a;
     startup_check := startup_check a;
     cooldown_days_remaining := cooldown_days_remaining a;
     jaw := j; teeth := t; lips := l;
     jaw_prev := jaw_prev a; teeth_prev := teeth_prev a;
     lips_prev := lips_prev a; invested := invested a;
     initial_symbol_price := initial_symbol_price a; log := log a |}.

Definition set_position (inv : bool) (e h : option float) (c : Z)
    (ev : event) (a : Algo) : Algo :=
  {| cooldown_days := cooldown_days a; atr_multiplier := atr_multiplier a;
     hl2s := hl2s a; lips_list := lips_list a; teeth_list := teeth_list a;
     entryPrice := e; highestPrice := h;
     startup_check := startup_check a;
     cooldown_days_remaining := c;
     jaw := jaw a; teeth := teeth a; lips := lips a;
     jaw_prev := jaw_prev a; teeth_prev := teeth_prev a;
     lips_prev := lips_prev a; invested := inv;
     initial_symbol_price := initial_symbol_price a;
     log := log a ++ [ev] |}.

Definition set_flags (sc : bool) (c : Z) (a : Algo) : Algo :=
  {| cooldown_days := cooldown_days a; atr_multiplier := atr_multiplier a;
     hl2s := hl2s a; lips_list := lips_list a; teeth_list := teeth_list a;
     entryPrice := entryPrice a; highestPrice := highestPrice a;
     startup_check := sc;
     cooldown_days_remaining := c;
     jaw := jaw a; teeth := teeth a; lips := lips a;
     jaw_prev := jaw_prev a; teeth_prev := teeth_prev a;
     lips_prev := lips_prev a; invested := invested a;
     initial_symbol_price := initial_symbol_price a; log := log a |}.

Definition set_startup_check (sc : bool) (a : Algo) : Algo :=
  set_flags sc (cooldown_days_remaining a) a.

Definition set_cooldown_days_remaining (c : Z) (a : Algo) : Algo :=
  set_flags (startup_check a) c a.

Definition set_prev_and_baseline (j t l isp : option float) (a : Algo)
    : Algo :=
  {| cooldown_days := cooldown_days a; atr_multiplier := atr_multiplier a;
     hl2s := hl2s a; lips_list := lips_list a; teeth_list := teeth_list a;
     entryPrice := entryPrice a; highestPrice := highestPrice a;
     startup_check := startup_check a;
     cooldown_days_remaining := cooldown_days_remaining a;
     jaw := jaw a; teeth := teeth a; lips := lips a;
     jaw_prev := j; teeth_prev := t; lips_prev := l;
     invested := invested a;
     initial_symbol_price := isp; log := log a |}.

(** [buy(self, bar, reason)] *)
Definition buy (self : Algo) (bar : TradeBar) (r : reason) : Algo :=
  if negb (invested self)
  then set_position true (Some (Williams2.Close bar))
                    (Some (Williams2.Close bar)) (cooldown_days self)
                    (BUY r (Williams2.Close bar)) self
  else self.

(** [sell(self, bar, reason)] *)
Definition sell (self : Algo) (bar : TradeBar) (r : reason) : Algo :=
  set_position false None None (cooldown_days self)
               (SELL r (Williams2.Close bar)) self.

Definition update_performance (self : Algo) (bar : TradeBar) : result Algo :=
  match initial_symbol_price self with
  | None =>
      Ok (set_prev_and_baseline (jaw_prev self) (teeth_prev self)
                                (lips_prev self)
                                (Some (Williams2.Close bar)) self)
  | Some p0 =>
      if PrimFloat.eqb p0 0 then Raise ZeroDivisionError else Ok self
  end.

(** [check_entry(self, bar, jaw, teeth, lips)] *)
Definition check_entry (self : Algo) (bar : TradeBar)
    (jaw_v teeth_v lips_v : float) : result Algo :=
  if (len (hl2s self) <? 20)%Z then Ok self else
  trend_ok <-
    Williams2.is_trending_ema
      (map Williams2.PFloat (slice_last 20 (hl2s self)))
      (map Williams2.PFloat (slice_last 20 (lips_list self)))
      (map Williams2.PFloat (slice_last 20 (teeth_list self)))
      5 20 0.01%float ;;
  if negb trend_ok then Ok self else
  let lips_cross_up :=
    match lips_prev self, teeth_prev self with
    | Some lp, Some tp => fle lp tp && fgt lips_v teeth_v
    | _, _ => false
    end in
  (* A one-time-ever startup entry to catch existing trends *)
  if startup_check self then
    if negb (invested self)
    then Ok (set_startup_check false
               (buy self bar startup_trending_condition))
    else Ok self
  else
  if lips_cross_up then Ok (buy self bar Lips_cross_up) else Ok self.

(** [check_exit(self, bar, jaw, teeth, lips)], with the ATR reading of the
    slice. *)
Definition check_exit (self : Algo) (bar : TradeBar) (atr : float)
    (jaw_v teeth_v lips_v : float) : Algo :=
  match entryPrice self with
  | None => self
  | Some entry =>
      let price := Williams2.Close bar in
      let atr_stop := (entry - atr_multiplier self * atr)%float in
      if fle price atr_stop then sell self bar ATR_stop else
      let lips_cross_down_with_buffer :=
        match lips_prev self, teeth_prev self with
        | Some lp, Some tp => fge lp tp && flt lips_v teeth_v
        | _, _ => false
        end in
      if lips_cross_down_with_buffer
      then sell self bar Lips_crossed_below_Teeth else
      let lips_below_jaw :=
        match lips_prev self, jaw_prev self with
        | Some lp, Some jp => fge lp jp && flt lips_v jaw_v
        | _, _ => false
        end in
      if lips_below_jaw then sell self bar Lips_crossed_below_Jaw else self
  end.

Definition SMMA_IsReady (s : SMMAIndicator) : bool :=
  (Williams2.length s <=? Williams2.count s)%Z.

(** [OnData(self, data)] *)
Definition OnData (self : Algo) (data : Slice) : result Algo :=
  match bar_of data with
  | None => Ok self
  | Some bar =>
      if negb (SMMA_IsReady (jaw self)) || negb (SMMA_IsReady (teeth self))
         || negb (SMMA_IsReady (lips self)) || negb (atr_ready data)
      then Ok self else
      let hl2 := ((Williams2.High bar + Williams2.Low bar) / 2.0)%float in
      '(jaw1, jaw_v) <- Williams2.SMMA_Update (jaw self) hl2 ;;
      '(teeth1, teeth_v) <- Williams2.SMMA_Update (teeth self) hl2 ;;
      '(lips1, lips_v) <- Williams2.SMMA_Update (lips self) hl2 ;;
      let self1 :=
        set_series (hl2s self ++ [hl2]) jaw1 teeth1 lips1
                   (lips_list self ++ [lips_v])
                   (teeth_list self ++ [teeth_v]) self in
      self2 <- update_performance self1 bar ;;
      (* Trading Logic *)
      self3 <-
        (if invested self2 then
           if (cooldown_days_remaining self2 =? 0)%Z
           then Ok (check_exit self2 bar (atr_value data) jaw_v teeth_v lips_v)
           else Ok self2
         else
           if (0 <? cooldown_days_remaining self2)%Z
           then Ok (set_cooldown_days_remaining
                      (cooldown_days_remaining self2 - 1) self2)
           else check_entry self2 bar jaw_v teeth_v lips_v) ;;
      Ok (set_prev_and_baseline (Some jaw_v) (Some teeth_v) (Some lips_v)
                                (initial_symbol_price self3) self3)
  end.

Fixpoint run (self : Algo) (stream : list Slice) : result Algo :=
  match stream with
  | [] => Ok self
  | d :: rest =>
      self1 <- OnData self d ;;
      run self1 rest
  end.

(** Number of BUY decisions logged with the startup reason. *)
Fixpoint startup_buys (l : list event) : nat :=
  match l with
  | [] => 0
  | BUY startup_trending_condition _ :: rest => S (startup_buys rest)
  | _ :: rest => startup_buys rest
  end.

(** Startup buys still possible: 1 while [startup_check] is set. *)
Definition armed (a : Algo) : nat := if startup_check a then 1 else 0.

End AlligatorATR.

(** ** Sample data *)

Module Samples.

(** A stand-in for numpy on the sample runs: mean and standard deviation by
    left-to-right summation, which is exact on the sample windows; the
    logarithm and the regression are not reached by the samples. *)
Definition fsum (l : list float) : float := fold_left PrimFloat.add l 0%float.

Definition seq_mean (l : list float) : float :=
  (fsum l / float_cast (len l))%float.

Definition seq_std (l : list float) : float :=
  let m := seq_mean l in
  PrimFloat.sqrt
    (seq_mean (map (fun x => (abs (x - m) * abs (x - m))%float) l)).

Definition plain_numpy : Numpy :=
  {| np_mean := seq_mean; np_std := seq_std;
     np_log := fun _ => nan; np_polyfit1 := fun _ _ => nan |}.

(** A bar with high = low = [level], closing at [close]. *)
Definition level_bar (level close : float) : Williams2.TradeBar :=
  {| Williams2.High := level; Williams2.Low := level;
     Williams2.Close := close |}.

(** [n] bars rising by one per bar from [start], closing at their level. *)
Definition rising (start : Z) (n : nat) : list Williams2.TradeBar :=
  map (fun i => level_bar (float_cast i) (float_cast i))
      (Williams2.arange_from start n).

(** Twenty bars of history, twenty bars swallowed by the warm-up guard of
    [update_indicators], then: the first processed bar (level 140), two
    bars inside the cooldown (closing at 200 and 150), a bar closing at
    145, a bar closing at 130, and one more rising bar. *)
Definition history : list Williams2.TradeBar := rising 100 20.

Definition stream : list (option Williams2.TradeBar) :=
  map Some (rising 120 21
            ++ [level_bar 141 200; level_bar 142 150; level_bar 143 145;
                level_bar 144 130; level_bar 145 145]).

(** The Williams2 engine after the first [k] slices of [stream]. *)
Definition after (k : nat) : result Williams2.Algo :=
  self <- Williams2.Initialize Williams2.source_params history ;;
  Williams2.run plain_numpy self (firstn k stream).

(** The attributes [Initialize] starts from, with the parameters of the
    source. *)
Definition fresh : Williams2.Algo :=
  Williams2.initial_state Williams2.source_params.

(** The state a run ended in ([fresh] if it raised; the sample runs do
    not). *)
Definition state_after (k : nat) : Williams2.Algo :=
  match after k with
  | Ok a => a
  | Raise _ => fresh
  end.

(** The [k]-th slice of the stream, counted from 1. *)
Definition slice (k : nat) : option Williams2.TradeBar :=
  nth (k - 1) stream None.

(** An engine of the ATR stop-loss variant after a warm-up over twenty
    rising bars, with the cooldown length of the source, and three further
    rising slices with a ready ATR reading. *)
Definition warm_line (length : Z) (value : float) : Williams2.SMMAIndicator :=
  {| Williams2.length := length; Williams2.current := Some value;
     Williams2.count := 20 |}.

Definition atr_start : AlligatorATR.Algo :=
  {| AlligatorATR.cooldown_days := 1;
     AlligatorATR.atr_multiplier := 0.2;
     AlligatorATR.hl2s := map float_cast (Williams2.arange_from 100 20);
     AlligatorATR.lips_list := map float_cast (Williams2.arange_from 98 20);
     AlligatorATR.teeth_list := map float_cast (Williams2.arange_from 96 20);
     AlligatorATR.entryPrice := None;
     AlligatorATR.highestPrice := None;
     AlligatorATR.startup_check := true;
     AlligatorATR.cooldown_days_remaining := 0;
     AlligatorATR.jaw := warm_line 13 113;
     AlligatorATR.teeth := warm_line 8 115;
     AlligatorATR.lips := warm_line 5 117;
     AlligatorATR.jaw_prev := Some 113%float;
     AlligatorATR.teeth_prev := Some 115%float;
     AlligatorATR.lips_prev := Some 117%float;
     AlligatorATR.invested := false;
     AlligatorATR.initial_symbol_price := None;
     AlligatorATR.log := [] |}.

Definition atr_stream : list AlligatorATR.Slice :=
  map (fun b => {| AlligatorATR.bar_of := Some b;
                   AlligatorATR.atr_ready := true;
                   AlligatorATR.atr_value := 2 |})
      [level_bar 120 120; level_bar 121 60; level_bar 122 50].

Definition atr_end : AlligatorATR.Algo :=
  match AlligatorATR.run atr_start atr_stream with
  | Ok a => a
  | Raise _ => atr_start
  end.

End Samples.

(** ** Sequences of calls *)

Module ATR1_Runs.
Import ATR1.

(** The pairs [(cur, prev)] that successive calls of
    [SMMAIndicator.Update] return. *)
Fixpoint smma_outputs (self : SMMAIndicator) (prices : list float)
    : result (list (float * option float)) :=
  match prices with
  | [] => Ok []
  | x :: rest =>
      '(self1, out) <- SMMA_Update self x ;;
      outs <- smma_outputs self1 rest ;;
      Ok (out :: outs)
  end.

(** The pairs [(shifted, prev)] that successive calls of
    [ShiftedLine.Update] return. *)
Fixpoint shifted_outputs (self : ShiftedLine) (prices : list float)
    : result (list line) :=
  match prices with
  | [] => Ok []
  | x :: rest =>
      '(self1, out) <- ShiftedLine_Update self x ;;
      outs <- shifted_outputs self1 rest ;;
      Ok (out :: outs)
  end.

(** The pair the [k]-th call (from 0) of a line with shift [s] returns,
    read off the smoothed values [curs] of the calls so far: the value of
    [s] calls ago, and the value of the call before. *)
Definition lagged_pair (s : nat) (curs : list float) (k : nat) : line :=
  ((if (k <? s)%nat then None else nth_error curs (k - s)),
   (match k with O => None | S k' => nth_error curs k' end)).

(** Lines in bullish order on a bar whose three line values are present. *)
Definition bullish_order (tk : tick) : bool :=
  match lines3 tk with
  | Some (j, t, l) => fgt l t && fgt t j
  | None => false
  end.

End ATR1_Runs.

Module Williams2_Runs.
Import Williams2.

(** The position attributes agree: a position is open exactly when an
    entry price and a running high are recorded. *)
Definition position_consistent (a : Algo) : bool :=
  Bool.eqb (invested a)
           (match entryPrice a with Some _ => true | None => false end)
  && Bool.eqb (invested a)
              (match highestPrice a with Some _ => true | None => false end).

(** One evaluation of the entry filter as [check_entry] makes it:
    [self.hl2s] as [update_indicators] left it, the bar and its hl2. *)
Record observation : Set :=
  { series : list float; obs_bar : TradeBar; obs_hl2 : float }.

Definition set_hl2s (h : list float) (a : Algo) : Algo :=
  set_series h (jaw a) (teeth a) (lips a) (lips_list a) (teeth_list a) a.

Section Filter.

Variable np : Numpy.

(** The filter evaluated on successive observations, with its verdicts. *)
Fixpoint filter_all (self : Algo) (obs : list observation)
    : Algo * list bool :=
  match obs with
  | [] => (self, [])
  | o :: rest =>
      let '(self1, b) :=
        entry_price_filter np (set_hl2s (series o) self)
                           (obs_bar o) (obs_hl2 o) in
      let '(self2, bs) := filter_all self1 rest in
      (self2, b :: bs)
  end.

(** The local values of [entry_price_filter] on an observation. *)
Definition window_of (p : Params) (o : observation) : list float :=
  slice_last (price_filter_lookback p) (series o).

Definition z_of (p : Params) (o : observation) : float :=
  ((obs_hl2 o - np_mean np (window_of p o)) / np_std np (window_of p o))%float.

(** The z-score is computed: enough history and a nonzero deviation. *)
Definition scored (p : Params) (o : observation) : bool :=
  (price_filter_lookback p <=? len (series o))%Z
  && negb (PrimFloat.eqb (np_std np (window_of p o)) 0).

Definition cheap (p : Params) (o : observation) : bool :=
  flt (z_of p o) (- price_filter_k p).

Definition expensive (p : Params) (o : observation) : bool :=
  fgt (z_of p o) (price_filter_k p).

End Filter.

End Williams2_Runs.

Module Samples_More.
Import Samples.

(** The Williams2 engine initialised over five bars of history only, after
    the twenty bars its warm-up guard discards. *)
Definition short_history_state : Williams2.Algo :=
  match (self <- Williams2.Initialize Williams2.source_params (rising 100 5) ;;
         Williams2.run plain_numpy self (map Some (rising 120 20))) with
  | Ok a => a
  | Raise _ => fresh
  end.





(** Three bars with a daily range, fed after the BUY of the sample run:
    they close at 200, 150 and 145, with the midpoints 141, 142 and 143 of
    the bars of [stream] they stand for. *)
Definition range_bar (high low close : float) : Williams2.TradeBar :=
  {| Williams2.High := high; Williams2.Low := low;
     Williams2.Close := close |}.

Definition spike_bars : list (option Williams2.TradeBar) :=
  [Some (range_bar 202 80 200); Some (range_bar 160 124 150);
   Some (range_bar 146 140 145)].

(** The engine after the BUY on slice 21 and the first [k] of those bars. *)
Definition spike_after (k : nat) : Williams2.Algo :=
  match Williams2.run plain_numpy (state_after 21) (firstn k spike_bars) with
  | Ok a => a
  | Raise _ => fresh
  end.

End Samples_More.

Module Samples_ATR.
Import Samples.

(** The ATR variant's sample state after its first slice. *)
Definition atr_bought : AlligatorATR.Algo :=
  match AlligatorATR.run atr_start (firstn 1 atr_stream) with
  | Ok a => a
  | Raise _ => atr_start
  end.

End Samples_ATR.

Module AlligatorATR_Runs.
Import AlligatorATR.

(** The counter holds [cooldown_days] on an open position and 0 while
    flat. *)
Definition counter_follows_position (a : Algo) : bool :=
  (cooldown_days_remaining a
   =? (if invested a then cooldown_days a else 0))%Z.

End AlligatorATR_Runs.

Module Williams2_Filter.
Import Williams2 Williams2_Runs.

Section Wait.

Variable np : Numpy.

(** An observation on which the filter starts waiting: scored, not cheap,
    and expensive. *)
Definition starts_wait (p : Params) (o : observation) : bool :=
  scored np p o && negb (cheap np p o) && expensive np p o.

(** An observation that gets past the cheap test. *)
Definition past_cheap (p : Params) (o : observation) : bool :=
  scored np p o && negb (cheap np p o).

(** An observation that gets past the cheap test without falling below the
    reference price [pk]. *)
Definition holds_above (p : Params) (pk : float) (o : observation) : bool :=
  past_cheap p o && negb (flt (obs_hl2 o) pk).

End Wait.

End Williams2_Filter.

Module Samples_Filter.
Import Samples.

(** An expensive observation at 120 against nineteen values of 100, and
    one at 121 that stays above it. *)
Definition obs_at (v : Z) : Williams2_Runs.observation :=
  {| Williams2_Runs.series :=
       map float_cast (repeat 100%Z 19) ++ [float_cast v];
     Williams2_Runs.obs_bar := level_bar (float_cast v) (float_cast v);
     Williams2_Runs.obs_hl2 := float_cast v |}.

End Samples_Filter.

Module Williams2_Orders.
Import Williams2.

(** Reading a list of orders from a position that is open or not: a BUY
    opens it (or leaves it open), a SELL needs it open and closes it. The
    result is the position the list ends with, or [None] if some SELL
    found no open position. *)
Fixpoint track (open : bool) (l : list event) : option bool :=
  match l with
  | [] => Some open
  | BUY _ _ :: rest => track true rest
  | SELL _ _ :: rest => if open then track false rest else None
  end.

End Williams2_Orders.

(** ** ATR1/main.py: [BuyAlligator] and the methods of [AlligatorStopLossQC]

    The reading [self.atr_sl_ind.current.value] of the platform's ATR
    indicator is an input of the methods that use it. [highs], [lows],
    [jaws_list], the ATR band lists and [price_prev] are only written and
    are left out. *)

Module ATR1_Engine.

Definition line : Type := ATR1.line.
Definition TradeBar : Set := Williams2.TradeBar.

(** [a or b] on truth values: [b] is evaluated only when [a] is false. *)
Definition py_or (a : result bool) (b : result bool) : result bool :=
  x <- a ;; if x then Ok true else b.

(** [a - b] on values that may be [None]. *)
Definition py_sub (a b : option float) : result float :=
  match a, b with
  | Some x, Some y => Ok (x - y)%float
  | _, _ => Raise TypeError
  end.

(** [seq[-k]] for [k >= 1]. *)
Definition from_end {A} (k : nat) (l : list A) : result A :=
  match nth_error (rev l) (k - 1) with
  | Some x => Ok x
  | None => Raise IndexError
  end.

(** [_has_prev], applied to a list of [(cur, prev)] pairs. *)
Definition _has_prev (pairs : list line) : bool :=
  forallb (fun pr => match snd pr with Some _ => true | None => false end)
          pairs.

(** [BuyAlligator.buy_condition(self, price, jaw, teeth, lips)] *)
Definition buy_condition (price : float) (jaw teeth lips : line)
    : result bool :=
  if negb (_has_prev [lips; teeth; jaw]) then Ok false else
  let p := Some price in
  is_trend_up <-
    py_gt (fst lips) (snd lips) and py_gt (fst teeth) (snd teeth)
    and py_gt (fst jaw) (snd jaw) ;;
  is_price_above_all_lines <-
    py_gt p (fst teeth) and py_gt p (fst jaw) ;;
  c <- py_gt p (fst lips) and Ok is_price_above_all_lines
       and Ok is_trend_up ;;
  if c then Ok true else Ok false.

Inductive reason : Set :=
| Early_trend_following_entry
| Alligator_shows_signs_of_trend_up
| bullish_price_crossing_lips
| lips_are_trending_down
| close_below_lips
| close_below_teeth
| lips_crossed_teeth_line.

Inductive event : Set :=
| BUY (r : reason) (close : float)
| SELL (r : reason) (close : float).

Record Algo : Type :=
  { closes : list float;
    hl2s : list float;
    lips_list : list (option float);
    teeth_list : list (option float);
    warm_up_period : Z;
    cooldown_days_remaining : Z;
    cooldown_days : Z;
    jawLength : Z;
    teethLength : Z;
    lipsLength : Z;
    start_climb : ATR1.BelowToLipsCrossover;
    entryPrice : option float;
    highestPrice : option float;
    highestLips : option float;
    startup_check : bool;
    threshold_pct : float;
    jaw : ATR1.ShiftedLine;
    teeth : ATR1.ShiftedLine;
    lips : ATR1.ShiftedLine;
    initial_symbol_price : option float;
    invested : bool;
    log : list event }.

Definition set_position (inv : bool) (e h hl : option float) (c : Z)
    (sc : ATR1.BelowToLipsCrossover) (l : list event) (a : Algo) : Algo :=
  {| closes := closes a; hl2s := hl2s a; lips_list := lips_list a;
     teeth_list := teeth_list a; warm_up_period := warm_up_period a;
     cooldown_days_remaining := c; cooldown_days := cooldown_days a;
     jawLength := jawLength a; teethLength := teethLength a;
     lipsLength := lipsLength a; start_climb := sc;
     entryPrice := e; highestPrice := h; highestLips := hl;
     startup_check := startup_check a; threshold_pct := threshold_pct a;
     jaw := jaw a; teeth := teeth a; lips := lips a;
     initial_symbol_price := initial_symbol_price a;
     invested := inv; log := l |}.

Definition set_start_climb (sc : ATR1.BelowToLipsCrossover) (a : Algo)
    : Algo :=
  set_position (invested a) (entryPrice a) (highestPrice a) (highestLips a)
               (cooldown_days_remaining a) sc (log a) a.

Definition set_cooldown_days_remaining (c : Z) (a : Algo) : Algo :=
  set_position (invested a) (entryPrice a) (highestPrice a) (highestLips a)
               c (start_climb a) (log a) a.

Definition set_series (cl h : list float) (ll tl : list (option float))
    (j t l : ATR1.ShiftedLine) (a : Algo) : Algo :=
  {| closes := cl; hl2s := h; lips_list := ll;
     teeth_list := tl; warm_up_period := warm_up_period a;
     cooldown_days_remaining := cooldown_days_remaining a;
     cooldown_days := cooldown_days a;
     jawLength := jawLength a; teethLength := teethLength a;
     lipsLength := lipsLength a; start_climb := start_climb a;
     entryPrice := entryPrice a; highestPrice := highestPrice a;
     highestLips := highestLips a;
     startup_check := startup_check a; threshold_pct := threshold_pct a;
     jaw := j; teeth := t; lips := l;
     initial_symbol_price := initial_symbol_price a;
     invested := invested a; log := log a |}.

Definition set_initial_symbol_price (p : option float) (a : Algo) : Algo :=
  {| closes := closes a; hl2s := hl2s a; lips_list := lips_list a;
     teeth_list := teeth_list a; warm_up_period := warm_up_period a;
     cooldown_days_remaining := cooldown_days_remaining a;
     cooldown_days := cooldown_days a;
     jawLength := jawLength a; teethLength := teethLength a;
     lipsLength := lipsLength a; start_climb := start_climb a;
     entryPrice := entryPrice a; highestPrice := highestPrice a;
     highestLips := highestLips a;
     startup_check := startup_check a; threshold_pct := threshold_pct a;
     jaw := jaw a; teeth := teeth a; lips := lips a;
     initial_symbol_price := p;
     invested := invested a; log := log a |}.

(** [buy_act(self, bar, reason)] *)
Definition buy_act (self : Algo) (bar : TradeBar) (r : reason) : Algo :=
  set_position true (Some (Williams2.Close bar)) (Some (Williams2.Close bar))
               (highestLips self) (cooldown_days self) (start_climb self)
               (log self ++ [BUY r (Williams2.Close bar)]) self.

(** [sell_act(self, bar, reason)]; the detector is re-armed at its end. *)
Definition sell_act (self : Algo) (bar : TradeBar) (r : reason) : Algo :=
  set_position false None None None (cooldown_days_remaining self)
               (ATR1.rearm (start_climb self))
               (log self ++ [SELL r (Williams2.Close bar)]) self.

(** [update_performance(self, bar)]: the division by the baseline price
    raises when that price is zero. *)
Definition update_performance (self : Algo) (bar : TradeBar) : result Algo :=
  let self1 :=
    match initial_symbol_price self with
    | None => set_initial_symbol_price (Some (Williams2.Close bar)) self
    | Some _ => self
    end in
  match initial_symbol_price self1 with
  | Some p0 =>
      if PrimFloat.eqb p0 0 then Raise ZeroDivisionError else Ok self1
  | None => Ok self1
  end.

(** [update_indicators(self, bar)]: the new state and [(hl2, jaw, teeth,
    lips)], or [None] while fewer than [min_len] values are recorded. *)
Definition update_indicators (self : Algo) (bar : TradeBar)
    : result (Algo * option (float * line * line * line)) :=
  let hl2 := ((Williams2.High bar + Williams2.Low bar) / 2.0)%float in
  let self1 :=
    set_series (closes self ++ [Williams2.Close bar]) (hl2s self ++ [hl2])
               (lips_list self) (teeth_list self)
               (jaw self) (teeth self) (lips self) self in
  (* Need at least one full period of the longest SMMA *)
  let min_len :=
    (Z.max (Z.max (jawLength self1) (teethLength self1)) (lipsLength self1)
     + 1)%Z in
  if (len (hl2s self1) <? min_len)%Z then Ok (self1, None) else
  '(jaw1, jaw_v) <- ATR1.ShiftedLine_Update (jaw self1) hl2 ;;
  '(teeth1, teeth_v) <- ATR1.ShiftedLine_Update (teeth self1) hl2 ;;
  '(lips1, lips_v) <- ATR1.ShiftedLine_Update (lips self1) hl2 ;;
  let self2 :=
    set_series (closes self1) (hl2s self1)
               (lips_list self1 ++ [fst lips_v])
               (teeth_list self1 ++ [fst teeth_v])
               jaw1 teeth1 lips1 self1 in
  Ok (self2, Some (hl2, jaw_v, teeth_v, lips_v)).

(** [mouth_open(self, bar, lips, teeth, jaw)] *)
Definition mouth_open (self : Algo) (bar : TradeBar) (lips teeth jaw : line)
    : result bool :=
  match fst jaw, fst teeth, fst lips with
  | Some j, Some t, Some l =>
      (* threshold percentage of the Jaw line. *)
      let distance_threshold := (j * threshold_pct self)%float in
      let jaw_teeth_diff := PrimFloat.abs (j - t) in
      let jaw_lips_diff := PrimFloat.abs (j - l) in
      let teeth_lips_diff := PrimFloat.abs (t - l) in
      Ok (fgt jaw_teeth_diff distance_threshold
          && fgt jaw_lips_diff distance_threshold
          && fgt teeth_lips_diff distance_threshold)
  | _, _, _ => Raise TypeError
  end.

(** [check_entry(self, bar, hl2, jaw, teeth, lips)]: the new state and the
    returned value ([True], [False], or [None] after a buy by one of the
    two later rules). *)
Definition check_entry (self : Algo) (bar : TradeBar) (atr : float)
    (hl2 : float) (jaw_v teeth_v lips_v : line)
    : result (Algo * option bool) :=
  let close := Williams2.Close bar in
  (* simple startup buy on trend *)
  startup <-
    (if (20 <=? len (closes self))%Z
        && (len (closes self) <? warm_up_period self)%Z
     then py_gt (fst lips_v) (fst teeth_v)
          and py_gt (fst teeth_v) (fst jaw_v)
          and py_gt (Some close) (fst lips_v)
     else Ok false) ;;
  if startup
  then Ok (buy_act self bar Early_trend_following_entry, Some true) else
  price_trend <-
    (if (3 <=? len (closes self))%Z
     then (c2 <- from_end 2 (closes self) ;; Ok (fgt close c2))
          and (c2 <- from_end 2 (closes self) ;;
               c3 <- from_end 3 (closes self) ;;
               Ok (fgt c2 c3))
     else Ok true) ;;
  mouth_open_v <- mouth_open self bar lips_v teeth_v jaw_v ;;
  buy_alligator_detected <- buy_condition close jaw_v teeth_v lips_v ;;
  '(climb1, price_crossing_lips_up) <-
    ATR1.update_state (start_climb self) close jaw_v teeth_v lips_v ;;
  let self1 := set_start_climb climb1 self in
  d <- py_sub (fst lips_v) (fst teeth_v) ;;
  let min_lips_teeth_distance := fgt d atr in
  lips_and_teeth_trending_down <-
    (if (3 <? len (lips_list self1))%Z
     then py_or (a <- from_end 2 (lips_list self1) ;;
                 b <- from_end 1 (lips_list self1) ;;
                 py_gt a b)
                (a <- from_end 3 (lips_list self1) ;;
                 b <- from_end 2 (lips_list self1) ;;
                 py_gt a b)
     else Ok false) ;;
  if buy_alligator_detected && price_trend && mouth_open_v
     && min_lips_teeth_distance
  then Ok (buy_act self1 bar Alligator_shows_signs_of_trend_up, None)
  else if price_crossing_lips_up && negb lips_and_teeth_trending_down
  then Ok (buy_act self1 bar bullish_price_crossing_lips, None)
  else Ok (self1, Some false).

(** [check_exit(self, bar, jaw, teeth, lips)] *)
Definition check_exit (self : Algo) (bar : TradeBar) (atr : float)
    (jaw_v teeth_v lips_v : line) : result Algo :=
  match entryPrice self with
  | None => Ok self
  | Some _ =>
      let price := Williams2.Close bar in
      (* lips trend exit *)
      trend_exit <-
        (if (4 <? len (lips_list self))%Z
         then
           down <-
             (a <- from_end 2 (lips_list self) ;;
              b <- from_end 1 (lips_list self) ;;
              py_gt a b)
             and (a <- from_end 3 (lips_list self) ;;
                  b <- from_end 2 (lips_list self) ;;
                  py_gt a b) ;;
           if down then
             let threshold := atr in
             (d <- py_sub (fst lips_v) (fst teeth_v) ;;
              Ok (flt d threshold))
             and (l1 <- from_end 1 (lips_list self) ;;
                  t1 <- from_end 1 (teeth_list self) ;;
                  d <- py_sub l1 t1 ;;
                  Ok (flt d threshold))
           else Ok false
         else Ok false) ;;
      if trend_exit then Ok (sell_act self bar lips_are_trending_down) else
      (* cross exits *)
      c1 <- py_lt (Some price) (fst lips_v) ;;
      if c1 then Ok (sell_act self bar close_below_lips) else
      c2 <- py_lt (Some price) (fst teeth_v) ;;
      if c2 then Ok (sell_act self bar close_below_teeth) else
      c3 <- py_lt (fst lips_v) (fst teeth_v) ;;
      if c3 then Ok (sell_act self bar lips_crossed_teeth_line) else
      Ok self
  end.

(** One slice as the handler sees it: the bar, if any, whether the ATR
    indicator is ready, and its reading once the bar has been fed to it. *)
Record Slice : Set :=
  { bar_of : option TradeBar; atr_ready : bool; atr_value : float }.

(** [OnData(self, data)] *)
Definition OnData (self : Algo) (data : Slice) : result Algo :=
  match bar_of data with
  | None => Ok self
  | Some bar =>
      if negb (atr_ready data) then Ok self else
      (* update indicators & rolling series *)
      '(self1, ind) <- update_indicators self bar ;;
      match ind with
      | None => Ok self1
      | Some (hl2, jaw_v, teeth_v, lips_v) =>
          let self2 :=
            match initial_symbol_price self1 with
            | None =>
                set_initial_symbol_price (Some (Williams2.Close bar)) self1
            | Some _ => self1
            end in
          (* Entry / Exit decision *)
          self3 <-
            (if negb (invested self2)
             then '(s, _) <- check_entry self2 bar (atr_value data) hl2
                                         jaw_v teeth_v lips_v ;;
                  Ok s
             else if (cooldown_days_remaining self2 =? 0)%Z
                  then check_exit self2 bar (atr_value data)
                                  jaw_v teeth_v lips_v
                  else Ok self2) ;;
          (* update performance plot & prev values *)
          self4 <- update_performance self3 bar ;;
          if (0 <? cooldown_days_remaining self4)%Z
          then Ok (set_cooldown_days_remaining
                     (cooldown_days_remaining self4 - 1) self4)
          else Ok self4
      end
  end.

Fixpoint run (self : Algo) (stream : list Slice) : result Algo :=
  match stream with
  | [] => Ok self
  | d :: rest =>
      self1 <- OnData self d ;;
      run self1 rest
  end.

(** The attributes as [Initialize] sets them before the warm-up loop. *)
Definition initial_state : result Algo :=
  jaw0 <- ATR1.jaw_line ;;
  teeth0 <- ATR1.teeth_line ;;
  lips0 <- ATR1.lips_line ;;
  Ok {| closes := []; hl2s := []; lips_list := []; teeth_list := [];
        warm_up_period := 50;
        cooldown_days_remaining := 0; cooldown_days := 0;
        jawLength := 13; teethLength := 8; lipsLength := 5;
        start_climb := ATR1.BelowToLipsCrossover_init;
        entryPrice := None; highestPrice := None; highestLips := None;
        startup_check := true; threshold_pct := 0.02;
        jaw := jaw0; teeth := teeth0; lips := lips0;
        initial_symbol_price := None;
        invested := false; log := [] |}.

(** The warm-up loop of [Initialize] over the history bars. *)
Fixpoint warm_up (self : Algo) (history : list TradeBar) : result Algo :=
  match history with
  | [] => Ok self
  | bar :: rest =>
      let hl2 := ((Williams2.High bar + Williams2.Low bar) / 2.0)%float in
      '(jaw1, _) <- ATR1.ShiftedLine_Update (jaw self) hl2 ;;
      '(teeth1, _) <- ATR1.ShiftedLine_Update (teeth self) hl2 ;;
      '(lips1, _) <- ATR1.ShiftedLine_Update (lips self) hl2 ;;
      warm_up (set_series (closes self) (hl2s self) (lips_list self)
                          (teeth_list self) jaw1 teeth1 lips1 self) rest
  end.

Definition Initialize (history : list TradeBar) : result Algo :=
  self <- initial_state ;;
  warm_up self history.

(** The attributes agree: a position is open exactly when an entry price
    is recorded, the recorded high is the entry price, and no high of the
    lips line is recorded. *)
Definition no_running_high (a : Algo) : Prop :=
  (invested a = true <-> entryPrice a <> None) /\
  highestPrice a = entryPrice a /\ highestLips a = None.

(** A state in which, besides, no cool-down is configured or running. *)
Definition settled (a : Algo) : Prop :=
  no_running_high a /\ cooldown_days a = 0%Z /\
  cooldown_days_remaining a = 0%Z.

(** A slice the handler does not return on at once. *)
Definition ready (d : Slice) : bool :=
  match bar_of d with
  | Some _ => atr_ready d
  | None => false
  end.

(** A line of the given period and buffer size that has been updated [n]
    times. *)
Definition fed (period size n : Z) (sl : ATR1.ShiftedLine) : Prop :=
  ATR1.length (ATR1.smma sl) = period /\
  ATR1.maxlen (ATR1.buf sl) = size /\
  ATR1.count (ATR1.smma sl) = n /\
  len (ATR1.items (ATR1.buf sl)) = Z.min n size.

(** A flat engine with the lines of [Initialize], each updated [h]
    times. *)
Definition awaiting (h : Z) (a : Algo) : Prop :=
  jawLength a = 13%Z /\ teethLength a = 8%Z /\ lipsLength a = 5%Z /\
  invested a = false /\ len (closes a) = len (hl2s a) /\
  fed 13 9 h (jaw a) /\ fed 8 6 h (teeth a) /\ fed 5 4 h (lips a).

(** The detector's view of a bar. *)
Definition tick_of (close : float) (jaw_v teeth_v lips_v : line)
    : ATR1.tick :=
  {| ATR1.price := close; ATR1.jaw := jaw_v; ATR1.teeth := teeth_v;
     ATR1.lips := lips_v |}.

End ATR1_Engine.

Module Samples_ATR1.
Import Samples.

(** The ATR1 engine after [Initialize] over twenty rising bars ([fresh]
    state of the constructor if it raised; it does not). *)
Definition bare : ATR1_Engine.Algo :=
  {| ATR1_Engine.closes := []; ATR1_Engine.hl2s := [];
     ATR1_Engine.lips_list := []; ATR1_Engine.teeth_list := [];
     ATR1_Engine.warm_up_period := 50;
     ATR1_Engine.cooldown_days_remaining := 0;
     ATR1_Engine.cooldown_days := 0;
     ATR1_Engine.jawLength := 13; ATR1_Engine.teethLength := 8;
     ATR1_Engine.lipsLength := 5;
     ATR1_Engine.start_climb := ATR1.BelowToLipsCrossover_init;
     ATR1_Engine.entryPrice := None; ATR1_Engine.highestPrice := None;
     ATR1_Engine.highestLips := None;
     ATR1_Engine.startup_check := true;
     ATR1_Engine.threshold_pct := 0.02;
     ATR1_Engine.jaw := {| ATR1.smma := ATR1.SMMAIndicator_init 13;
                           ATR1.buf := {| ATR1.items := [];
                                          ATR1.maxlen := 9 |};
                           ATR1.shift := 8 |};
     ATR1_Engine.teeth := {| ATR1.smma := ATR1.SMMAIndicator_init 8;
                             ATR1.buf := {| ATR1.items := [];
                                            ATR1.maxlen := 6 |};
                             ATR1.shift := 5 |};
     ATR1_Engine.lips := {| ATR1.smma := ATR1.SMMAIndicator_init 5;
                            ATR1.buf := {| ATR1.items := [];
                                           ATR1.maxlen := 4 |};
                            ATR1.shift := 3 |};
     ATR1_Engine.initial_symbol_price := None;
     ATR1_Engine.invested := false; ATR1_Engine.log := [] |}.

Definition engine_start : ATR1_Engine.Algo :=
  match ATR1_Engine.Initialize (rising 100 20) with
  | Ok a => a
  | Raise _ => bare
  end.

(** Slices with the ATR indicator ready and reading 2. *)
Definition ready_slices (bars : list Williams2.TradeBar)
    : list ATR1_Engine.Slice :=
  map (fun b => {| ATR1_Engine.bar_of := Some b;
                   ATR1_Engine.atr_ready := true;
                   ATR1_Engine.atr_value := 2 |}) bars.

(** Twenty-two rising bars, then three falling ones. *)
Definition engine_stream : list ATR1_Engine.Slice :=
  ready_slices (rising 120 22
                ++ [level_bar 130 130; level_bar 120 120; level_bar 110 110]).

Definition engine_after (k : nat) : ATR1_Engine.Algo :=
  match ATR1_Engine.run engine_start (firstn k engine_stream) with
  | Ok a => a
  | Raise _ => bare
  end.

(** The state after the sale that [check_exit] makes on the close at
    130. *)
Definition sold : ATR1_Engine.Algo :=
  ATR1_Engine.sell_act (engine_after 22) (level_bar 130 130)
                       ATR1_Engine.close_below_lips.

End Samples_ATR1.

(** * Properties *)

(** ** Float comparison *)

Lemma SFcompare_Lt_swap x y :
  SFcompare x y = Some Lt -> SFcompare y x = Some Gt.
Proof.
  destruct x as [sx|sx| |sx mx ex], y as [sy|sy| |sy my ey]; simpl;
    try destruct sx; try destruct sy; try discriminate; try reflexivity.
  all: rewrite (Z.compare_antisym ex ey);
    change (PosDef.Pos.compare_cont Eq my mx) with (Pos.compare my mx);
    change (PosDef.Pos.compare_cont Eq mx my) with (Pos.compare mx my);
    rewrite (Pos.compare_antisym mx my);
    destruct (ex ?= ey)%Z; simpl; try discriminate; try reflexivity;
    destruct (mx ?= my)%positive; simpl; try discriminate; reflexivity.
Qed.

Lemma flt_asym a b : flt a b = true -> flt b a = false.
Proof.
  unfold flt. rewrite !ltb_spec. unfold SFltb.
  destruct (SFcompare (Prim2SF a) (Prim2SF b)) as [[| |]|] eqn:E;
    try discriminate.
  intros _. rewrite (SFcompare_Lt_swap _ _ E). reflexivity.
Qed.

(** ** The crossover detector of ATR1 *)

Module ATR1_Crossover.
Import ATR1.

Lemma feed_present self tk j t l :
  lines3 tk = Some (j, t, l) ->
  feed self tk =
    Ok ({| state := fst (step_present (state self) (price tk) j t l) |},
        snd (step_present (state self) (price tk) j t l)).
Proof.
  destruct tk as [p [j0 pj] [t0 pt] [l0 pl]], self as [s].
  unfold lines3; simpl.
  destruct j0, t0, l0; try discriminate.
  intros H; injection H as -> -> ->.
  unfold feed, update_state, step_present, py_gt, py_and, py_lt, bind,
    fgt, flt; simpl.
  destruct (PrimFloat.ltb p l), (PrimFloat.ltb p t), (PrimFloat.ltb p j),
    (PrimFloat.ltb l t), (PrimFloat.ltb t j), (PrimFloat.ltb t l),
    (PrimFloat.ltb j t), (PrimFloat.ltb l p), s; reflexivity.
Qed.

Lemma step_fires s p j t l :
  snd (step_present s p j t l) = true <->
  can_fire s = true /\ fgt p l && (fgt l t && fgt t j) = true.
Proof.
  unfold step_present.
  destruct (flt p l) eqn:Hpl.
  - (* price below lips: no crossing *)
    assert (Hlp : fgt p l = false) by (unfold fgt; apply flt_asym; exact Hpl).
    rewrite Hlp.
    destruct (flt p t), (flt p j), (flt l t), (flt t j), (fgt l t), (fgt t j), s;
      simpl; split; intros H; try discriminate; destruct H; discriminate.
  - destruct (fgt p l), (flt p t), (flt p j), (flt l t), (flt t j),
      (fgt l t), (fgt t j), s;
      simpl; split; intros H; try discriminate; try (split; reflexivity);
      destruct H; discriminate.
Qed.

Lemma step_fires_state s p j t l :
  snd (step_present s p j t l) = true ->
  fst (step_present s p j t l) = ABOVE_lips.
Proof.
  unfold step_present.
  destruct (flt p l), (fgt p l), (flt p t), (flt p j), (flt l t), (flt t j),
    (fgt l t), (fgt t j), s; simpl; intros H; try discriminate; reflexivity.
Qed.





End ATR1_Crossover.

Module ATR1_Silence.
Import ATR1 ATR1_Runs.

Lemma step_open_mouth p j t l :
  fgt l t && fgt t j = true ->
  step_present ABOVE_lips p j t l = (ABOVE_lips, false).
Proof.
  intros H. apply andb_prop in H. destruct H as [Hlt Htj].
  unfold step_present. rewrite Hlt, Htj.
  assert (Hback : flt l t = false) by (apply flt_asym; exact Hlt).
  rewrite Hback. simpl.
  destruct (flt p l && flt p t && flt p j); reflexivity.
Qed.

Lemma step_unknown p j t l :
  (flt p l && flt p t && flt p j) && (flt l t && flt t j) = false ->
  step_present unknown p j t l = (unknown, false).
Proof.
  intros H. unfold step_present. rewrite H. reflexivity.
Qed.



(** From "unknown" a call that returns has returned false, and the state
    is still "unknown" unless the bar is a reset bar. *)
Lemma feed_unknown self tk self' b :
  state self = unknown ->
  feed self tk = Ok (self', b) ->
  b = false /\
  state self' = (if below_and_bearish tk then BELOW_ALL else unknown).
Proof.
  destruct self as [s]. cbn [state]. intros ->.
  destruct tk as [p [j pj] [t pt] [l pl]].
  unfold feed, update_state, below_and_bearish, lines3.
  cbn [price jaw teeth lips fst snd state].
  destruct j as [jv|], t as [tv|], l as [lv|];
    unfold py_gt, py_lt, py_and, bind, fgt, flt; cbn [state_eqb orb andb];
    repeat match goal with
           | |- context [PrimFloat.ltb ?a ?b] =>
               destruct (PrimFloat.ltb a b)
           end;
    cbn [andb orb negb state state_eqb];
    intros H; simpl in H; try discriminate H; injection H as <- <-;
    split; reflexivity.
Qed.

End ATR1_Silence.

Section Crossover.
Import ATR1.




(** C7 (amended): a freshly constructed detector is in the state
    "unknown", and no bar fires from "unknown": whenever [update_state]
    returns there it returns false, and the state is still "unknown"
    unless the bar has the price below all three lines and the lines in
    bearish order; such a bar puts the detector in BELOW_ALL from any state
    and returns false. *)
Theorem fresh_unknown_and_reset_to_BELOW_ALL
    (self : BelowToLipsCrossover) (tk : tick) :
  state BelowToLipsCrossover_init = unknown /\
  (forall fresh self' b,
      state fresh = unknown ->
      feed fresh tk = Ok (self', b) ->
      b = false /\
      state self' = (if below_and_bearish tk then BELOW_ALL else unknown)) /\
  (below_and_bearish tk = true ->
   feed self tk = Ok ({| state := BELOW_ALL |}, false)).
Proof.
  split; [reflexivity |]. split.
  - intros fresh self' b. apply ATR1_Silence.feed_unknown.
  - unfold below_and_bearish.
    destruct (lines3 tk) as [[[j t] l]|] eqn:E; [| discriminate].
    intros H. rewrite (ATR1_Crossover.feed_present self tk j t l E).
    unfold step_present. rewrite H. reflexivity.
Qed.

Lemma fresh_unknown_and_reset_to_BELOW_ALL_witness :
  (forall self' b,
      feed BelowToLipsCrossover_init bullish_bar = Ok (self', b) ->
      b = false /\ state self' = unknown)
  /\ feed {| state := MOUTH_SHUT |} bearish_bar
     = Ok ({| state := BELOW_ALL |}, false).
Proof.
  split.
  - intros self' b H.
    exact (proj1 (proj2 (fresh_unknown_and_reset_to_BELOW_ALL
                           BelowToLipsCrossover_init bullish_bar))
             BelowToLipsCrossover_init self' b eq_refl H).
  - apply (proj2 (proj2 (fresh_unknown_and_reset_to_BELOW_ALL
                           {| state := MOUTH_SHUT |} bearish_bar))).
    reflexivity.
Defined.

(** C7 (as stated) fails: the constructor does not leave the detector in
    BELOW_ALL, and the difference shows on the first bar: a bullish
    crossing fires from BELOW_ALL and not from a fresh detector. *)
Lemma fresh_detector_not_BELOW_ALL :
  state BelowToLipsCrossover_init <> BELOW_ALL
  /\ feed BelowToLipsCrossover_init bullish_bar
     = Ok ({| state := unknown |}, false)
  /\ feed {| state := BELOW_ALL |} bullish_bar
     = Ok ({| state := ABOVE_lips |}, true).
Proof. repeat split. discriminate. Qed.

End Crossover.

(** ** The lagged smoother of ATR1 *)

Module ATR1_Smoother.
Import ATR1.

Lemma float_of_int_ok z :
  (Z.abs z < float_max_int)%Z -> float_of_int z = Ok (float_cast z).
Proof.
  intros H. unfold float_of_int.
  destruct (Z.ltb_spec (Z.abs z) float_max_int) as [_|Hge]; [reflexivity | lia].
Qed.

(** One update of the smoother succeeds for a convertible positive period
    and advances the counter by one. *)
Lemma SMMA_Update_ok self x :
  (1 <= length self < float_max_int)%Z ->
  exists self' out,
    SMMA_Update self x = Ok (self', out) /\
    length self' = length self /\
    count self' = (count self + 1)%Z.
Proof.
  intros Hp. unfold SMMA_Update.
  destruct (current self) as [c|].
  - rewrite (float_of_int_ok (length self - 1)) by lia.
    rewrite (float_of_int_ok (length self)) by lia.
    simpl.
    destruct (Z.eqb_spec (length self) 0) as [H0|_]; [lia |].
    eexists _, _. split; [reflexivity |]. split; reflexivity.
  - eexists _, _. split; [reflexivity |]. split; reflexivity.
Qed.

Lemma len_app_one (l : list float) x : len (l ++ [x]) = (len l + 1)%Z.
Proof. unfold len. rewrite length_app. simpl. lia. Qed.

Lemma len_tl_app_one (l : list float) x :
  (0 < len l)%Z -> len (tl l ++ [x]) = len l.
Proof.
  unfold len. destruct l as [|y l]; simpl; [lia |].
  rewrite length_app. simpl. lia.
Qed.

(** The buffer holds [min(updates, maxlen)] values. *)
Lemma deque_append_len d x n :
  (0 < maxlen d)%Z -> (0 <= n)%Z ->
  len (items d) = Z.min n (maxlen d) ->
  maxlen (deque_append d x) = maxlen d /\
  len (items (deque_append d x)) = Z.min (n + 1) (maxlen d).
Proof.
  intros Hm Hn Hlen. unfold deque_append.
  destruct (Z.eqb_spec (maxlen d) 0) as [H0|_]; [lia |].
  destruct (Z.eqb_spec (len (items d)) (maxlen d)) as [Hfull|Hnot]; simpl.
  - split; [reflexivity |]. rewrite len_tl_app_one by lia. lia.
  - split; [reflexivity |]. rewrite len_app_one. lia.
Qed.

Lemma ShiftedLine_Update_ok self x n :
  (1 <= length (smma self) < float_max_int)%Z ->
  (0 < maxlen (buf self))%Z ->
  count (smma self) = n -> (0 <= n)%Z ->
  len (items (buf self)) = Z.min n (maxlen (buf self)) ->
  exists self' out,
    ShiftedLine_Update self x = Ok (self', out) /\
    length (smma self') = length (smma self) /\
    maxlen (buf self') = maxlen (buf self) /\
    count (smma self') = (n + 1)%Z /\
    len (items (buf self')) = Z.min (n + 1) (maxlen (buf self)).
Proof.
  intros Hp Hm Hc Hn Hlen. unfold ShiftedLine_Update.
  destruct (SMMA_Update_ok (smma self) x Hp) as [s1 [[cur pv] [HU [HL HC]]]].
  rewrite HU. simpl.
  destruct (deque_append_len (buf self) cur n Hm Hn Hlen) as [Hm1 Hl1].
  destruct (Z.eqb_spec (len (items (deque_append (buf self) cur)))
                       (maxlen (deque_append (buf self) cur))) as [Hfull|_].
  - destruct (items (deque_append (buf self) cur)) as [|y r] eqn:Hit.
    + unfold len in Hfull. simpl in Hfull. lia.
    + simpl. eexists _, _. split; [reflexivity |]. simpl.
      repeat split; try assumption; try lia.
      rewrite Hit. exact Hl1.
  - simpl. eexists _, _. split; [reflexivity |]. simpl.
    repeat split; try assumption; lia.
Qed.

Lemma update_all_ok xs : forall self n,
  (1 <= length (smma self) < float_max_int)%Z ->
  (0 < maxlen (buf self))%Z ->
  count (smma self) = n -> (0 <= n)%Z ->
  len (items (buf self)) = Z.min n (maxlen (buf self)) ->
  exists self',
    update_all self xs = Ok self' /\
    length (smma self') = length (smma self) /\
    maxlen (buf self') = maxlen (buf self) /\
    count (smma self') = (n + len xs)%Z /\
    len (items (buf self')) = Z.min (n + len xs) (maxlen (buf self)).
Proof.
  induction xs as [|x rest IH]; intros self n Hp Hm Hc Hn Hlen.
  - exists self. unfold len at 1 3. simpl. rewrite !Z.add_0_r. auto.
  - destruct (ShiftedLine_Update_ok self x n Hp Hm Hc Hn Hlen)
      as [s1 [out [HU [HL [HM [HC HB]]]]]].
    simpl. rewrite HU. simpl.
    destruct (IH s1 (n + 1)%Z) as [s2 [HR [HL2 [HM2 [HC2 HB2]]]]].
    { rewrite HL. exact Hp. }
    { rewrite HM. exact Hm. }
    { exact HC. }
    { lia. }
    { rewrite HM. exact HB. }
    exists s2. split; [exact HR |].
    assert (Hlen' : len (x :: rest) = (1 + len rest)%Z)
      by (unfold len; cbn [List.length]; lia).
    rewrite Hlen'. repeat split; try congruence.
    + rewrite HC2. lia.
    + rewrite HB2, HM. f_equal. lia.
Qed.

End ATR1_Smoother.

Section Smoother.
Import ATR1.

(** C2 (amended): for a period p >= 1 and a shift s >= 0 (within the range
    of the float conversion and of the buffer capacity) every sequence of
    updates succeeds, and after n updates [IsReady] holds exactly when
    n >= p and n >= s + 1: it is false before the max(p, s+1)-th update and
    true from it onward, whatever the input values. *)
Theorem ShiftedLine_IsReady_after_updates
    (p s : Z) (xs : list float) :
  (1 <= p < float_max_int)%Z ->
  (0 <= s < ssize_max)%Z ->
  exists self,
    after_updates p s xs = Ok self /\
    ShiftedLine_IsReady self = ((p <=? len xs) && (s + 1 <=? len xs))%Z.
Proof.
  intros Hp Hs. unfold after_updates, ShiftedLine_init, deque_init.
  destruct (Z.ltb_spec ssize_max (s + 1)) as [Hbig|_]; [lia |].
  destruct (Z.ltb_spec (s + 1) (- ssize_max - 1)) as [Hneg|_];
    [unfold ssize_max in *; lia |].
  destruct (Z.ltb_spec (s + 1) 0) as [Hneg|_]; [lia |].
  simpl.
  destruct (ATR1_Smoother.update_all_ok xs
              {| smma := SMMAIndicator_init p;
                 buf := {| items := []; maxlen := s + 1 |};
                 shift := s |} 0)
    as [self [HR [HL [HM [HC HB]]]]].
  { simpl. lia. }
  { simpl. lia. }
  { reflexivity. }
  { lia. }
  { simpl. unfold len. simpl. lia. }
  exists self. split; [exact HR |].
  unfold ShiftedLine_IsReady, SMMA_IsReady.
  simpl in HL, HM, HC, HB. rewrite HL, HC, HB, HM. simpl.
  f_equal.
  assert (0 <= len xs)%Z by (unfold len; lia).
  destruct (Z.leb_spec (s + 1) (len xs)); destruct (Z.eqb_spec (Z.min (len xs) (s + 1)) (s + 1)); lia.
Qed.

Lemma ShiftedLine_IsReady_after_updates_witness :
  exists self,
    after_updates 5 3 [1; 2; 3; 4]%float = Ok self /\
    ShiftedLine_IsReady self = false.
Proof.
  apply (ShiftedLine_IsReady_after_updates 5 3 [1; 2; 3; 4]%float).
  - vm_compute. split; [discriminate | reflexivity].
  - vm_compute. split; [discriminate | reflexivity].
Defined.

(** C2 (as stated) fails: the lips line has period 5 and shift 3, and it is
    ready after its 5th update, not only after the 9th. *)
Lemma lips_line_ready_after_five_updates :
  exists self,
    after_updates 5 3 [1; 2; 3; 4; 5]%float = Ok self /\
    ShiftedLine_IsReady self = true /\
    (len [1; 2; 3; 4; 5]%float <= 5 + 3)%Z.
Proof. eexists. split; [vm_compute; reflexivity |]. split; [reflexivity |]. vm_compute. discriminate. Qed.

(** C9 (amended): the constructors validate nothing about the period, and
    about the shift only what the bounded buffer requires: [SMMAIndicator]
    stores any length, [ShiftedLine] stores any period with any shift
    >= -1 (within the index range) unchanged, and raises for shift <= -2. *)
Theorem ShiftedLine_init_accepts (p s : Z) :
  length (SMMAIndicator_init p) = p /\
  ((-1 <= s < ssize_max)%Z ->
   ShiftedLine_init p s
   = Ok {| smma := SMMAIndicator_init p;
           buf := {| items := []; maxlen := s + 1 |};
           shift := s |}) /\
  ((s < -1)%Z -> exists e, ShiftedLine_init p s = Raise e).
Proof.
  split; [reflexivity |].
  unfold ShiftedLine_init, deque_init. split; intros Hs.
  - destruct (Z.ltb_spec ssize_max (s + 1)) as [Hbig|_]; [lia |].
    destruct (Z.ltb_spec (s + 1) (- ssize_max - 1)) as [Hneg|_];
      [unfold ssize_max in *; lia |].
    destruct (Z.ltb_spec (s + 1) 0) as [Hneg|_]; [lia |].
    reflexivity.
  - destruct ((ssize_max <? s + 1)%Z || (s + 1 <? - ssize_max - 1)%Z);
      simpl; [eexists; reflexivity |].
    destruct (Z.ltb_spec (s + 1) 0) as [_|Hge]; [| lia].
    eexists; reflexivity.
Qed.

Lemma ShiftedLine_init_accepts_witness :
  exists e, ShiftedLine_init 13 (-2) = Raise e.
Proof.
  apply (ShiftedLine_init_accepts 13 (-2)). reflexivity.
Defined.

(** C9 (as stated) fails: a line with period 0 and shift -1 is
    constructed without error. *)
Lemma zero_period_negative_shift_accepted :
  exists self,
    ShiftedLine_init 0 (-1) = Ok self /\
    (length (smma self) < 1)%Z /\ (shift self < 0)%Z.
Proof. eexists. split; [reflexivity |]. split; reflexivity. Qed.

End Smoother.

(** ** The Williams2 engine: what each method leaves untouched *)

Module Williams2_Facts.
Import Williams2.

Ltac break_hyp H :=
  repeat match type of H with
         | context [if ?c then _ else _] => destruct c eqn:?
         | context [match ?c with _ => _ end] => destruct c eqn:?
         end.

Ltac ok_inv H :=
  first [ discriminate H
        | injection H as H; subst ].

Lemma tick_down_spec s :
  cooldown_days_remaining (decrement_cooldown s)
  = tick_down (cooldown_days_remaining s).
Proof.
  unfold decrement_cooldown, tick_down.
  destruct (0 <? cooldown_days_remaining s)%Z; reflexivity.
Qed.

Lemma decrement_cooldown_frame s :
  cfg (decrement_cooldown s) = cfg s /\
  startup_check (decrement_cooldown s) = startup_check s /\
  hl2s (decrement_cooldown s) = hl2s s /\
  log (decrement_cooldown s) = log s /\
  invested (decrement_cooldown s) = invested s /\
  entryPrice (decrement_cooldown s) = entryPrice s /\
  highestPrice (decrement_cooldown s) = highestPrice s /\
  peak_state (decrement_cooldown s) = peak_state s.
Proof.
  unfold decrement_cooldown.
  destruct (0 <? cooldown_days_remaining s)%Z; repeat split; reflexivity.
Qed.

Lemma update_performance_frame s bar s' :
  update_performance s bar = Ok s' ->
  cfg s' = cfg s /\ startup_check s' = startup_check s /\
  hl2s s' = hl2s s /\ position s' = position s /\
  peak_state s' = peak_state s.
Proof.
  unfold update_performance. intros H. break_hyp H; ok_inv H;
    repeat split; reflexivity.
Qed.

Lemma update_indicators_frame s bar s1 ind :
  update_indicators s bar = Ok (s1, ind) ->
  cfg s1 = cfg s /\ startup_check s1 = startup_check s /\
  position s1 = position s /\ peak_state s1 = peak_state s /\
  len (hl2s s1) = (len (hl2s s) + 1)%Z /\
  (ind = None -> (len (hl2s s1) < min_len (cfg s))%Z) /\
  (ind <> None -> (min_len (cfg s) <= len (hl2s s1))%Z).
Proof.
  unfold update_indicators. intros H.
  destruct (Z.ltb_spec (len (hl2s s ++ [((High bar + Low bar) / 2)%float]))
                       (min_len (cfg s))) as [Hlt|Hge].
  - ok_inv H. simpl. repeat split; try reflexivity.
    + unfold len. rewrite length_app. simpl. lia.
    + intros _. exact Hlt.
    + intros Hn. contradiction.
  - destruct (SMMA_Update (jaw s) _) as [[j1 jv]|]; simpl in H; [|discriminate].
    destruct (SMMA_Update (teeth s) _) as [[t1 tv]|]; simpl in H; [|discriminate].
    destruct (SMMA_Update (lips s) _) as [[l1 lv]|]; simpl in H; [|discriminate].
    ok_inv H. simpl. repeat split; try reflexivity.
    + unfold len. rewrite length_app. simpl. lia.
    + intros Hn. discriminate.
    + intros _. exact Hge.
Qed.

Section WithNumpy.

Variable np : Numpy.

(** The entry filter writes its own three attributes and nothing else. *)
Lemma entry_price_filter_frame s bar hl2 :
  let r := entry_price_filter np s bar hl2 in
  cfg (fst r) = cfg s /\ startup_check (fst r) = startup_check s /\
  hl2s (fst r) = hl2s s /\ position (fst r) = position s /\
  lips_prev (fst r) = lips_prev s /\ teeth_prev (fst r) = teeth_prev s.
Proof.
  unfold entry_price_filter.
  repeat match goal with
         | |- context [if ?c then _ else _] => destruct c
         end; simpl; repeat split; reflexivity.
Qed.

(** [check_exit] either leaves the position open, having raised the
    running high, or sells. *)
Lemma check_exit_cases s bar j t l s' :
  check_exit s bar j t l = Ok s' ->
  cfg s' = cfg s /\ startup_check s' = startup_check s /\
  hl2s s' = hl2s s /\
  cooldown_days_remaining s' = cooldown_days_remaining s /\
  ((log s' = log s /\ invested s' = invested s /\
    entryPrice s' = entryPrice s /\ peak_state s' = peak_state s /\
    highestPrice s' =
      match entryPrice s with
      | None => highestPrice s
      | Some _ => Some (running_high (highestPrice s) (Close bar))
      end)
   \/
   (exists r, log s' = log s ++ [SELL r (Close bar)] /\
      invested s' = false /\ entryPrice s' = None /\
      highestPrice s' = None /\ wait_peak_check s' = true /\
      peak_day_hl2 s' = peak_day_hl2 s /\
      peak_check_days s' = peak_check_days s /\
      entryPrice s <> None)).
Proof.
  unfold check_exit. intros H.
  destruct (entryPrice s) as [entry|] eqn:He.
  - cbv zeta in H.
    destruct (fle (Close bar) _) eqn:Htrail in H.
    { destruct (int_for_message _); simpl in H; ok_inv H.
      simpl. repeat split; try reflexivity. right.
      exists trailing_stop. repeat split; try reflexivity. discriminate. }
    destruct (fle (Close bar) _) eqn:Hhard in H.
    { destruct (int_for_message _); simpl in H; ok_inv H.
      simpl. repeat split; try reflexivity. right.
      exists hard_stop. repeat split; try reflexivity. discriminate. }
    match type of H with
    | (if ?c then _ else _) = _ => destruct c
    end.
    { ok_inv H. simpl. repeat split; try reflexivity. right.
      exists lips_crossed_below_teeth_buffer.
      repeat split; try reflexivity. discriminate. }
    match type of H with
    | (if ?c then _ else _) = _ => destruct c
    end.
    { ok_inv H. simpl. repeat split; try reflexivity. right.
      exists lips_crossed_below_jaw.
      repeat split; try reflexivity. discriminate. }
    ok_inv H. simpl. repeat split; try reflexivity. left.
    repeat split; try reflexivity. exact He.
  - ok_inv H. repeat split; try reflexivity. left.
    rewrite He. repeat split; reflexivity.
Qed.

(** [check_entry] either leaves the position as it was or ends on a BUY,
    with the cooldown counter set to the configured length. *)
Lemma check_entry_cases s bar hl2 j t l s' :
  check_entry np s bar hl2 j t l = Ok s' ->
  cfg s' = cfg s /\ startup_check s' = startup_check s /\
  hl2s s' = hl2s s /\
  (position s' = position s
   \/
   (exists evs, evs <> [] /\ log s' = log s ++ evs /\
      invested s' = true /\
      cooldown_days_remaining s' = cooldown_days (cfg s) /\
      entryPrice s' = Some (Close bar) /\
      highestPrice s' = Some (Close bar))).
Proof.
  unfold check_entry. intros H.
  destruct (compute_trend_flag np s) as [[|]|]; simpl in H;
    try discriminate.
  2: { ok_inv H. repeat split; try reflexivity. left; reflexivity. }
  remember (if startup_check s
            then if negb (invested s)
                 then set_wait_peak_check false
                        (buy s bar startup_trending_condition)
                 else s
            else s) as s1 eqn:Hs1.
  assert (F1 : cfg s1 = cfg s /\ startup_check s1 = startup_check s /\
               hl2s s1 = hl2s s /\
               (position s1 = position s \/
                (log s1 = log s ++ [BUY startup_trending_condition (Close bar)]
                 /\ invested s1 = true /\
                 cooldown_days_remaining s1 = cooldown_days (cfg s) /\
                 entryPrice s1 = Some (Close bar) /\
                 highestPrice s1 = Some (Close bar)))).
  { subst s1. destruct (startup_check s) eqn:Hsc, (invested s); simpl;
      repeat split; auto; try (left; reflexivity).
    right. repeat split; reflexivity. }
  clear Hs1. destruct F1 as [C1 [S1 [H1 P1]]].
  match type of H with
  | (if ?c then _ else _) = _ => destruct c
  end.
  2: { ok_inv H. repeat split; auto.
       destruct P1 as [P1 | [L1 P1]]; [left; exact P1 | right].
       eexists. split; [| split; [exact L1 | exact P1]]. discriminate. }
  destruct (lips_price_gap_ok s1 l hl2).
  2: { ok_inv H. repeat split; auto.
       destruct P1 as [P1 | [L1 P1]]; [left; exact P1 | right].
       eexists. split; [| split; [exact L1 | exact P1]]. discriminate. }
  pose proof (entry_price_filter_frame s1 bar hl2) as F2. cbv zeta in F2.
  destruct (entry_price_filter np s1 bar hl2) as [s2 pass].
  simpl in F2. destruct F2 as [C2 [S2 [H2 [P2 _]]]].
  destruct pass; ok_inv H; simpl.
  - repeat split; try congruence. right.
    unfold position in P2. injection P2 as I2 E2 Hi2 Cd2 L2.
    destruct P1 as [P1 | [L1 P1]].
    + unfold position in P1. injection P1 as I1 E1 Hi1 Cd1 L1.
      exists [BUY cross_filter (Close bar)].
      repeat split; try congruence; try discriminate.
    + exists [BUY startup_trending_condition (Close bar);
              BUY cross_filter (Close bar)].
      repeat split; try congruence; try discriminate.
      rewrite L2, L1, <- app_assoc. reflexivity.
  - repeat split; try congruence.
    unfold position in P2. injection P2 as I2 E2 Hi2 Cd2 L2.
    destruct P1 as [P1 | [L1 [I1 [Cd1 [E1 Hi1]]]]].
    + left. unfold position in *. congruence.
    + right. exists [BUY startup_trending_condition (Close bar)].
      repeat split; try congruence; try discriminate.
Qed.

(** With the startup flag set and the trend check passing, a flat engine
    buys for the startup reason, and the flag stays set. *)
Lemma check_entry_startup s bar hl2 j t l :
  startup_check s = true -> invested s = false ->
  compute_trend_flag np s = Ok true ->
  exists s' rest,
    check_entry np s bar hl2 j t l = Ok s' /\
    log s' = log s ++ BUY startup_trending_condition (Close bar) :: rest /\
    startup_check s' = true /\ invested s' = true.
Proof.
  intros Hsc Hinv Htr. unfold check_entry. rewrite Htr, Hsc, Hinv. simpl.
  match goal with
  | |- context [if ?c then _ else _] => destruct c
  end.
  2: { eexists _, []. split; [reflexivity |]. simpl. rewrite Hsc. auto. }
  match goal with
  | |- context [if ?c then _ else _] => destruct c
  end.
  2: { eexists _, []. split; [reflexivity |]. simpl. rewrite Hsc. auto. }
  match goal with
  | |- context [entry_price_filter np ?x bar hl2] =>
      pose proof (entry_price_filter_frame x bar hl2) as F;
      destruct (entry_price_filter np x bar hl2) as [s2 pass]
  end.
  cbv zeta in F. simpl in F. destruct F as [C2 [S2 [H2 [P2 _]]]].
  unfold position in P2. injection P2 as I2 E2 Hi2 Cd2 L2.
  destruct pass.
  - eexists _, [BUY cross_filter (Close bar)]. split; [reflexivity |].
    simpl. rewrite L2, <- app_assoc. simpl. split; [reflexivity |].
    split; [congruence | reflexivity].
  - eexists _, []. split; [reflexivity |].
    split; [exact L2 |]. split; congruence.
Qed.

(** One call of the handler on an open position. *)
Lemma OnData_invested s bar p :
  invested s = true ->
  OnData np s (Some bar) = Ok p ->
  cfg (state_of p) = cfg s /\
  startup_check (state_of p) = startup_check s /\
  len (hl2s (state_of p)) = (len (hl2s s) + 1)%Z /\
  match p with
  | Skipped s' =>
      position s' = position s /\ (len (hl2s s') < min_len (cfg s))%Z
  | Processed s' =>
      cooldown_days_remaining s' = tick_down (cooldown_days_remaining s) /\
      ((log s' = log s /\ invested s' = true /\
        entryPrice s' = entryPrice s /\
        highestPrice s' =
          if (cooldown_days_remaining s =? 0)%Z
          then match entryPrice s with
               | None => highestPrice s
               | Some _ => Some (running_high (highestPrice s) (Close bar))
               end
          else highestPrice s)
       \/
       (exists r, log s' = log s ++ [SELL r (Close bar)] /\
          invested s' = false /\ cooldown_days_remaining s = 0%Z /\
          wait_peak_check s' = true /\ peak_day_hl2 s' = peak_day_hl2 s))
  end.
Proof.
  intros Hinv H. unfold OnData in H.
  destruct (update_indicators s bar) as [[s1 ind]|] eqn:HU; simpl in H;
    [|discriminate].
  destruct (update_indicators_frame s bar s1 ind HU)
    as [C1 [S1 [P1 [K1 [L1 [N1 _]]]]]].
  unfold position in P1. injection P1 as I1 E1 Hi1 Cd1 Lg1.
  unfold peak_state in K1. injection K1 as W1 Pk1 Dy1.
  destruct ind as [[[[hl2 jv] tv] lv]|].
  2: { ok_inv H. simpl. repeat split; try assumption.
       - unfold position. congruence.
       - apply N1. reflexivity. }
  rewrite I1, Hinv in H. simpl in H.
  destruct (Z.eqb_spec (cooldown_days_remaining s1) 0) as [Hz|Hnz].
  - destruct (check_exit s1 bar jv tv lv) as [s2|] eqn:HX; simpl in H;
      [|discriminate].
    destruct (check_exit_cases s1 bar jv tv lv s2 HX)
      as [C2 [S2 [H2 [Cd2 Cases]]]].
    destruct (update_performance s2 bar) as [s3|] eqn:HP; simpl in H;
      [|discriminate].
    destruct (update_performance_frame s2 bar s3 HP)
      as [C3 [S3 [H3 [P3 K3]]]].
    unfold position in P3. injection P3 as I3 E3 Hi3 Cd3 Lg3.
    unfold peak_state in K3. injection K3 as W3 Pk3 Dy3.
    ok_inv H. simpl.
    match goal with
    | |- context [decrement_cooldown ?x] =>
        pose proof (decrement_cooldown_frame x) as F;
        pose proof (tick_down_spec x) as T
    end.
    simpl in F, T.
    destruct F as [C4 [S4 [H4 [Lg4 [I4 [E4 [Hi4 K4]]]]]]].
    unfold peak_state in K4. simpl in K4. injection K4 as W4 Pk4 Dy4.
    split; [congruence |]. split; [congruence |].
    split; [rewrite H4, H3, H2; exact L1 |]. split; [congruence |].
    assert (Hz' : (cooldown_days_remaining s =? 0)%Z = true)
      by (apply Z.eqb_eq; congruence).
    rewrite Hz'.
    destruct Cases
      as [[Lg2 [I2 [E2 [K2 Hi2]]]]
         | [r [Lg2 [I2 [E2 [Hi2 [W2 [Pk2 [Dy2 Ne]]]]]]]]].
    + left. repeat split; try congruence.
      rewrite Hi4, Hi3, Hi2, E1, Hi1. reflexivity.
    + right. exists r. repeat split; congruence.
  - simpl in H.
    destruct (update_performance s1 bar) as [s3|] eqn:HP; simpl in H;
      [|discriminate].
    destruct (update_performance_frame s1 bar s3 HP)
      as [C3 [S3 [H3 [P3 K3]]]].
    unfold position in P3. injection P3 as I3 E3 Hi3 Cd3 Lg3.
    ok_inv H. simpl.
    match goal with
    | |- context [decrement_cooldown ?x] =>
        pose proof (decrement_cooldown_frame x) as F;
        pose proof (tick_down_spec x) as T
    end.
    simpl in F, T.
    destruct F as [C4 [S4 [H4 [Lg4 [I4 [E4 [Hi4 K4]]]]]]].
    split; [congruence |]. split; [congruence |].
    split; [rewrite H4, H3; exact L1 |]. split; [congruence |].
    assert (Hz' : (cooldown_days_remaining s =? 0)%Z = false)
      by (apply Z.eqb_neq; congruence).
    rewrite Hz'. left. repeat split; congruence.
Qed.

(** One call of the handler on a flat engine. *)
Lemma OnData_flat s bar p :
  invested s = false ->
  OnData np s (Some bar) = Ok p ->
  cfg (state_of p) = cfg s /\
  startup_check (state_of p) = startup_check s /\
  len (hl2s (state_of p)) = (len (hl2s s) + 1)%Z /\
  match p with
  | Skipped s' =>
      position s' = position s /\ (len (hl2s s') < min_len (cfg s))%Z
  | Processed s' =>
      (min_len (cfg s) <= len (hl2s s'))%Z /\
      ((log s' = log s /\ invested s' = false /\
        cooldown_days_remaining s' = tick_down (cooldown_days_remaining s))
       \/
       (exists evs, evs <> [] /\ log s' = log s ++ evs /\
          invested s' = true /\
          cooldown_days_remaining s' = tick_down (cooldown_days (cfg s)) /\
          highestPrice s' = Some (Close bar)))
  end.
Proof.
  intros Hinv H. unfold OnData in H.
  destruct (update_indicators s bar) as [[s1 ind]|] eqn:HU; simpl in H;
    [|discriminate].
  destruct (update_indicators_frame s bar s1 ind HU)
    as [C1 [S1 [P1 [K1 [L1 [N1 M1]]]]]].
  unfold position in P1. injection P1 as I1 E1 Hi1 Cd1 Lg1.
  destruct ind as [[[[hl2 jv] tv] lv]|].
  2: { ok_inv H. simpl. repeat split; try assumption.
       - unfold position. congruence.
       - apply N1. reflexivity. }
  assert (M2 : (min_len (cfg s) <= len (hl2s s1))%Z)
    by (apply M1; discriminate).
  rewrite I1, Hinv in H. simpl in H.
  destruct (check_entry np s1 bar hl2 jv tv lv) as [s2|] eqn:HE; simpl in H;
    [|discriminate].
  destruct (check_entry_cases s1 bar hl2 jv tv lv s2 HE)
    as [C2 [S2 [H2 Cases]]].
  destruct (update_performance s2 bar) as [s3|] eqn:HP; simpl in H;
    [|discriminate].
  destruct (update_performance_frame s2 bar s3 HP)
    as [C3 [S3 [H3 [P3 K3]]]].
  unfold position in P3. injection P3 as I3 E3 Hi3 Cd3 Lg3.
  ok_inv H. simpl.
  match goal with
  | |- context [decrement_cooldown ?x] =>
      pose proof (decrement_cooldown_frame x) as F;
      pose proof (tick_down_spec x) as T
  end.
  simpl in F, T.
  destruct F as [C4 [S4 [H4 [Lg4 [I4 [E4 [Hi4 K4]]]]]]].
  split; [congruence |]. split; [congruence |].
  split; [rewrite H4, H3, H2; exact L1 |].
  split; [rewrite H4, H3, H2; exact M2 |].
  destruct Cases as [P2 | [evs [Ne [Lg2 [I2 [Cd2 [E2 Hi2]]]]]]].
  - unfold position in P2. injection P2 as I2 E2 Hi2 Cd2 Lg2.
    left. repeat split; congruence.
  - right. exists evs. repeat split; congruence.
Qed.

(** Whatever the position, a processed bar ends with one cooldown step,
    taken from the old counter or, after a BUY, from the configured
    length. *)
Lemma OnData_ticks_down s bar s' :
  OnData np s (Some bar) = Ok (Processed s') ->
  cooldown_days_remaining s' = tick_down (cooldown_days_remaining s) \/
  cooldown_days_remaining s' = tick_down (cooldown_days (cfg s)).
Proof.
  intros H. destruct (invested s) eqn:Hinv.
  - destruct (OnData_invested s bar (Processed s') Hinv H)
      as [_ [_ [_ [Cd _]]]].
    left. exact Cd.
  - destruct (OnData_flat s bar (Processed s') Hinv H)
      as [_ [_ [_ [_ [[_ [_ Cd]] | [evs [_ [_ [_ [Cd _]]]]]]]]]].
    + left. exact Cd.
    + right. exact Cd.
Qed.

(** The log only grows. *)
Lemma OnData_log_grows s d p :
  OnData np s d = Ok p ->
  exists evs, log (state_of p) = log s ++ evs.
Proof.
  intros H. destruct d as [bar|].
  2: { simpl in H. ok_inv H. exists []. simpl. rewrite app_nil_r. reflexivity. }
  destruct (invested s) eqn:Hinv.
  - destruct (OnData_invested s bar p Hinv H) as [_ [_ [_ Hp]]].
    destruct p as [s'|s']; simpl.
    + destruct Hp as [P _]. unfold position in P. injection P as _ _ _ _ L.
      exists []. rewrite app_nil_r. exact L.
    + destruct Hp as [_ [[L _] | [r [L _]]]].
      * exists []. rewrite app_nil_r. exact L.
      * eexists. exact L.
  - destruct (OnData_flat s bar p Hinv H) as [_ [_ [_ Hp]]].
    destruct p as [s'|s']; simpl.
    + destruct Hp as [P _]. unfold position in P. injection P as _ _ _ _ L.
      exists []. rewrite app_nil_r. exact L.
    + destruct Hp as [_ [[L _] | [evs [_ [L _]]]]].
      * exists []. rewrite app_nil_r. exact L.
      * eexists. exact L.
Qed.

Lemma run_log_grows stream : forall s s',
  run np s stream = Ok s' -> exists evs, log s' = log s ++ evs.
Proof.
  induction stream as [|d rest IH]; intros s s' H; simpl in H.
  - ok_inv H. exists []. rewrite app_nil_r. reflexivity.
  - destruct (OnData np s d) as [p|] eqn:HD; simpl in H; [|discriminate].
    destruct (OnData_log_grows s d p HD) as [e1 L1].
    destruct (IH _ _ H) as [e2 L2].
    exists (e1 ++ e2). rewrite L2, L1, app_assoc. reflexivity.
Qed.

(** While no order is logged, an open position stays open and the counter
    runs down by one per bar, stopping at 0. *)
Lemma run_open_position next : forall s s',
  invested s = true ->
  (min_len (cfg s) <= len (hl2s s))%Z ->
  (0 <= cooldown_days_remaining s)%Z ->
  run np s (map Some next) = Ok s' ->
  log s' = log s ->
  invested s' = true /\ cfg s' = cfg s /\
  cooldown_days_remaining s'
  = Z.max 0 (cooldown_days_remaining s - len next).
Proof.
  induction next as [|bar rest IH]; intros s s' Hinv Hlen Hc H Hlog.
  - simpl in H. ok_inv H. unfold len. simpl. repeat split; auto. lia.
  - change (run np s (map Some (bar :: rest)))
      with (p <- OnData np s (Some bar) ;;
            run np (state_of p) (map Some rest)) in H.
    destruct (OnData np s (Some bar)) as [p|] eqn:HD; simpl in H;
      [|discriminate].
    destruct (OnData_invested s bar p Hinv HD) as [C [_ [L Hp]]].
    destruct (OnData_log_grows s (Some bar) p HD) as [e1 L1].
    destruct (run_log_grows _ _ _ H) as [e2 L2].
    assert (He : e1 = [] /\ e2 = []).
    { rewrite L1, <- app_assoc in L2. rewrite Hlog in L2.
      rewrite <- (app_nil_r (log s)) in L2 at 1.
      apply app_inv_head in L2. symmetry in L2.
      apply app_eq_nil in L2. exact L2. }
    destruct He as [-> ->]. rewrite app_nil_r in L1.
    destruct p as [sm|sm]; simpl in *.
    + destruct Hp as [_ Hlt]. lia.
    + destruct Hp as [Cd [[_ [Im _]] | [r [Lr _]]]].
      2: { rewrite L1 in Lr. rewrite <- (app_nil_r (log s)) in Lr at 1.
           apply app_inv_head in Lr. discriminate. }
      destruct (IH sm s' Im) as [I' [C' Cd']]; try congruence.
      * rewrite C, L. lia.
      * rewrite Cd. unfold tick_down.
        destruct (Z.ltb_spec 0 (cooldown_days_remaining s)); lia.
      * repeat split; try congruence.
        rewrite Cd', Cd. unfold tick_down.
        assert (Hl : len (bar :: rest) = (1 + len rest)%Z)
          by (unfold len; cbn [List.length]; lia).
        rewrite Hl.
        assert (0 <= len rest)%Z by (unfold len; lia).
        destruct (Z.ltb_spec 0 (cooldown_days_remaining s)); lia.
Qed.

End WithNumpy.

End Williams2_Facts.

(** ** Invariants of the Williams2 handler *)

Module Williams2_Invariants.
Import Williams2 Williams2_Runs.

Lemma consistent_ext a b :
  invested a = invested b -> entryPrice a = entryPrice b ->
  highestPrice a = highestPrice b ->
  position_consistent a = position_consistent b.
Proof.
  intros H1 H2 H3. unfold position_consistent. rewrite H1, H2, H3.
  reflexivity.
Qed.

Lemma consistent_position a b :
  position a = position b ->
  position_consistent a = position_consistent b.
Proof.
  unfold position. intros H. injection H as H1 H2 H3 _ _.
  apply consistent_ext; assumption.
Qed.

Lemma warm_up_frame history : forall s s',
  warm_up s history = Ok s' ->
  cfg s' = cfg s /\ startup_check s' = startup_check s /\
  position s' = position s /\ hl2s s' = hl2s s.
Proof.
  induction history as [|bar rest IH]; intros s s' H; simpl in H.
  - injection H as <-. repeat split; reflexivity.
  - destruct (SMMA_Update (jaw s) _) as [[j1 jv]|]; simpl in H;
      [| discriminate].
    destruct (SMMA_Update (teeth s) _) as [[t1 tv]|]; simpl in H;
      [| discriminate].
    destruct (SMMA_Update (lips s) _) as [[l1 lv]|]; simpl in H;
      [| discriminate].
    destruct (IH _ _ H) as [C [S [P Hh]]]. simpl in C, S, P, Hh.
    repeat split; assumption.
Qed.

Section WithNumpy.

Variable np : Numpy.

Lemma OnData_consistent s d p :
  position_consistent s = true ->
  OnData np s d = Ok p ->
  position_consistent (state_of p) = true /\
  cfg (state_of p) = cfg s /\
  startup_check (state_of p) = startup_check s.
Proof.
  intros Hc H. destruct d as [bar|].
  2: { simpl in H. injection H as <-. auto. }
  unfold OnData in H.
  destruct (update_indicators s bar) as [[s1 ind]|] eqn:HU; simpl in H;
    [| discriminate].
  destruct (Williams2_Facts.update_indicators_frame s bar s1 ind HU)
    as [C1 [S1 [P1 _]]].
  assert (Hc1 : position_consistent s1 = true)
    by (rewrite (consistent_position s1 s P1); exact Hc).
  destruct ind as [[[[hl2 jv] tv] lv]|].
  2: { injection H as <-. simpl. auto. }
  assert (Hmid : exists s2,
             (if negb (invested s1)
              then check_entry np s1 bar hl2 jv tv lv
              else if (cooldown_days_remaining s1 =? 0)%Z
                   then check_exit s1 bar jv tv lv
                   else Ok s1) = Ok s2 /\
             position_consistent s2 = true /\
             cfg s2 = cfg s1 /\ startup_check s2 = startup_check s1).
  { destruct (if negb (invested s1) then _ else _) as [s2|] eqn:HM;
      simpl in H; [| discriminate].
    exists s2. split; [reflexivity |].
    destruct (invested s1) eqn:Hinv; simpl in HM.
    - destruct (cooldown_days_remaining s1 =? 0)%Z.
      + destruct (Williams2_Facts.check_exit_cases s1 bar jv tv lv s2 HM)
          as [C2 [S2 [_ [_ Cases]]]].
        split; [| split; assumption].
        unfold position_consistent in *.
        destruct Cases as [[_ [I2 [E2 [_ Hi2]]]]
                          | [r [_ [I2 [E2 [Hi2 _]]]]]].
        * rewrite I2, E2, Hi2, Hinv in *.
          destruct (entryPrice s1); [reflexivity | discriminate].
        * rewrite I2, E2, Hi2. reflexivity.
      + injection HM as <-. auto.
    - destruct (Williams2_Facts.check_entry_cases np s1 bar hl2 jv tv lv s2 HM)
        as [C2 [S2 [_ Cases]]].
      split; [| split; assumption].
      destruct Cases as [P2 | [evs [_ [_ [I2 [_ [E2 Hi2]]]]]]].
      + rewrite (consistent_position s2 s1 P2). exact Hc1.
      + unfold position_consistent. rewrite I2, E2, Hi2. reflexivity. }
  destruct Hmid as [s2 [HM [Hc2 [C2 S2]]]].
  rewrite HM in H. simpl in H.
  destruct (update_performance s2 bar) as [s3|] eqn:HP; simpl in H;
    [| discriminate].
  destruct (Williams2_Facts.update_performance_frame s2 bar s3 HP)
    as [C3 [S3 [_ [P3 _]]]].
  injection H as <-. simpl.
  match goal with
  | |- context [decrement_cooldown ?x] =>
      destruct (Williams2_Facts.decrement_cooldown_frame x)
        as [C4 [S4 [_ [_ [I4 [E4 [Hi4 _]]]]]]]
  end.
  simpl in C4, S4, I4, E4, Hi4.
  split; [| split; congruence].
  unfold position in P3. injection P3 as I3 E3 Hi3 _ _.
  unfold position_consistent in *.
  rewrite I4, E4, Hi4, I3, E3, Hi3. exact Hc2.
Qed.

Lemma run_consistent stream : forall s s',
  position_consistent s = true ->
  run np s stream = Ok s' ->
  position_consistent s' = true /\ cfg s' = cfg s /\
  startup_check s' = startup_check s.
Proof.
  induction stream as [|d rest IH]; intros s s' Hc H; simpl in H.
  - injection H as <-. auto.
  - destruct (OnData np s d) as [p|] eqn:HD; simpl in H; [| discriminate].
    destruct (OnData_consistent s d p Hc HD) as [Hc1 [C1 S1]].
    destruct (IH _ _ Hc1 H) as [Hc2 [C2 S2]].
    repeat split; congruence.
Qed.

End WithNumpy.

End Williams2_Invariants.

(** ** What the handler of Williams2 calls, and on which state *)

Module Williams2_Handler.
Import Williams2.

Section WithNumpy.

Variable np : Numpy.

(** On an open position with the counter at 0 the handler evaluates
    [check_exit] on the state [update_indicators] returned, and the
    position it ends with is the one [check_exit] left. *)
Lemma OnData_exit_run s bar s' :
  invested s = true -> cooldown_days_remaining s = 0%Z ->
  OnData np s (Some bar) = Ok (Processed s') ->
  exists s1 hl2 j t l s2,
    update_indicators s bar = Ok (s1, Some (hl2, j, t, l)) /\
    check_exit s1 bar j t l = Ok s2 /\
    log s' = log s2 /\ invested s' = invested s2 /\
    entryPrice s' = entryPrice s2 /\ highestPrice s' = highestPrice s2.
Proof.
  intros Hinv Hcd H. unfold OnData in H.
  destruct (update_indicators s bar) as [[s1 ind]|] eqn:HU; simpl in H;
    [| discriminate].
  destruct (Williams2_Facts.update_indicators_frame s bar s1 ind HU)
    as [_ [_ [P1 _]]].
  unfold position in P1. injection P1 as I1 _ _ C1 _.
  destruct ind as [[[[hl2 jv] tv] lv]|]; [| discriminate].
  rewrite I1, Hinv, C1, Hcd in H. simpl in H.
  destruct (check_exit s1 bar jv tv lv) as [s2|] eqn:HX; simpl in H;
    [| discriminate].
  destruct (update_performance s2 bar) as [s3|] eqn:HP; simpl in H;
    [| discriminate].
  destruct (Williams2_Facts.update_performance_frame s2 bar s3 HP)
    as [_ [_ [_ [P3 _]]]].
  unfold position in P3. injection P3 as I3 E3 Hi3 _ L3.
  injection H as <-.
  match goal with
  | |- context [decrement_cooldown ?x] =>
      destruct (Williams2_Facts.decrement_cooldown_frame x)
        as [_ [_ [_ [L4 [I4 [E4 [Hi4 _]]]]]]]
  end.
  simpl in L4, I4, E4, Hi4.
  exists s1, hl2, jv, tv, lv, s2.
  split; [reflexivity |]. split; [exact HX |].
  repeat split; congruence.
Qed.

(** With the counter above 0 the handler leaves the open position as it
    was, whatever the bar. *)
Lemma OnData_exit_skipped s bar s' :
  invested s = true -> cooldown_days_remaining s <> 0%Z ->
  OnData np s (Some bar) = Ok (Processed s') ->
  log s' = log s /\ invested s' = true /\
  entryPrice s' = entryPrice s /\ highestPrice s' = highestPrice s.
Proof.
  intros Hinv Hcd H.
  destruct (Williams2_Facts.OnData_invested np s bar (Processed s') Hinv H)
    as [_ [_ [_ [_ [[L [I [E Hi]]] | [r [_ [_ [Hz _]]]]]]]]].
  - destruct (Z.eqb_spec (cooldown_days_remaining s) 0);
      [contradiction | auto].
  - contradiction.
Qed.




(** What [check_exit] does to the recorded high when no rule sells. *)
Lemma check_exit_raises_high s bar j t l s' h :
  entryPrice s <> None -> highestPrice s = Some h ->
  check_exit s bar j t l = Ok s' -> log s' = log s ->
  highestPrice s' = Some (if fgt (Close bar) h then Close bar else h).
Proof.
  intros Hopen Hh Hexit Hlog.
  destruct (Williams2_Facts.check_exit_cases s bar j t l s' Hexit)
    as [_ [_ [_ [_ [[_ [_ [_ [_ Hi]]]] | [r [Lr _]]]]]]].
  - destruct (entryPrice s); [| contradiction].
    rewrite Hi, Hh. reflexivity.
  - rewrite Hlog in Lr. rewrite <- (app_nil_r (log s)) in Lr at 1.
    apply app_inv_head in Lr. discriminate.
Qed.

End WithNumpy.

End Williams2_Handler.

(** ** Cooldown, running high and exits in Williams2 *)

Section Williams2_Claims.
Import Williams2.

Variable np : Numpy.

(** C3 (amended): after a BUY, which sets the counter to the configured
    length N >= 0, the handler decrements the counter at the end of every
    processed bar, the BUY bar included and whatever the position state;
    so while the position stays open (no order logged) the counter is
    max(0, N - 1 - k) after k further bars. On the bar after those k bars
    the handler calls [check_exit] exactly when k >= N - 1, and the
    position it ends with is then the one [check_exit] left; when
    k < N - 1 it leaves the position as it was, whatever the bar. So the
    exit rules are skipped on the first N - 1 bars after the BUY bar and
    run on every later one. *)
Theorem cooldown_after_buy
    (s s1 s2 s3 : Algo) (bar bar' : TradeBar) (next : list TradeBar) :
  (0 <= cooldown_days (cfg s))%Z ->
  invested s = false ->
  OnData np s (Some bar) = Ok (Processed s1) ->
  invested s1 = true ->
  run np s1 (map Some next) = Ok s2 ->
  log s2 = log s1 ->
  OnData np s2 (Some bar') = Ok (Processed s3) ->
  cooldown_days_remaining s1 = tick_down (cooldown_days (cfg s)) /\
  cooldown_days_remaining s2
  = Z.max 0 (cooldown_days (cfg s) - 1 - len next) /\
  (if (cooldown_days (cfg s) - 1 <=? len next)%Z
   then exists s2a hl2 j t l s2b,
          update_indicators s2 bar' = Ok (s2a, Some (hl2, j, t, l)) /\
          check_exit s2a bar' j t l = Ok s2b /\
          log s3 = log s2b /\ invested s3 = invested s2b /\
          entryPrice s3 = entryPrice s2b /\
          highestPrice s3 = highestPrice s2b
   else log s3 = log s2 /\ invested s3 = true /\
        entryPrice s3 = entryPrice s2 /\
        highestPrice s3 = highestPrice s2) /\
  (forall s0 bar0 s0',
      OnData np s0 (Some bar0) = Ok (Processed s0') ->
      cooldown_days_remaining s0' = tick_down (cooldown_days_remaining s0) \/
      cooldown_days_remaining s0' = tick_down (cooldown_days (cfg s0))).
Proof.
  intros HN Hflat Hbuy Hinv Hrun Hlog Hnext.
  assert (Hcount :
    cooldown_days_remaining s1 = tick_down (cooldown_days (cfg s)) /\
    cooldown_days_remaining s2
    = Z.max 0 (cooldown_days (cfg s) - 1 - len next) /\
    invested s2 = true).
  { destruct (Williams2_Facts.OnData_flat np s bar (Processed s1) Hflat Hbuy)
      as [C [_ [_ [Hlen [[_ [Hno _]] | [evs [_ [_ [_ [Cd _]]]]]]]]]].
    { congruence. }
    simpl in C.
    assert (Hc1 : (0 <= cooldown_days_remaining s1)%Z).
    { rewrite Cd. unfold tick_down.
      destruct (Z.ltb_spec 0 (cooldown_days (cfg s))); lia. }
    destruct (Williams2_Facts.run_open_position np next s1 s2 Hinv)
      as [I2 [C2 Cd2]]; try assumption.
    { rewrite C. exact Hlen. }
    split; [exact Cd |].
    assert (Hk : (0 <= len next)%Z) by (unfold len; lia).
    split; [| exact I2].
    rewrite Cd2, Cd. unfold tick_down.
    destruct (Z.ltb_spec 0 (cooldown_days (cfg s))); lia. }
  destruct Hcount as [A [B I2]].
  split; [exact A |]. split; [exact B |]. split.
  - assert (Hk : (0 <= len next)%Z) by (unfold len; lia).
    destruct (Z.leb_spec (cooldown_days (cfg s) - 1) (len next)) as [Hle|Hgt].
    + apply (Williams2_Handler.OnData_exit_run np s2 bar' s3 I2);
        [rewrite B; lia | exact Hnext].
    + apply (Williams2_Handler.OnData_exit_skipped np s2 bar' s3 I2);
        [rewrite B; lia | exact Hnext].
  - intros s0 bar0 s0'. apply Williams2_Facts.OnData_ticks_down.
Qed.


(** C10 (amended): every SELL issued by [check_exit] sets
    wait_peak_check and leaves the reference price and the day counter as
    they were; an evaluation of the entry filter that starts with the flag
    set and gets past the cheap test takes the already-waiting branch; but
    the startup rule of [check_entry], whose flag is never cleared, buys
    on the next flat bar with a passing trend check, before any filter
    evaluation. *)
Theorem sell_sets_waiting_flag
    (s s' : Algo) (bar bar' : TradeBar) (j t l hl2 j' t' l' : float) :
  check_exit s bar j t l = Ok s' ->
  log s' <> log s ->
  (wait_peak_check s' = true /\ invested s' = false /\
   peak_day_hl2 s' = peak_day_hl2 s /\
   peak_check_days s' = peak_check_days s) /\
  (let window := slice_last (price_filter_lookback (cfg s')) (hl2s s') in
   use_entry_price_filter (cfg s') = true ->
   (price_filter_lookback (cfg s') <= len (hl2s s'))%Z ->
   PrimFloat.eqb (np_std np window) 0 = false ->
   flt ((hl2 - np_mean np window) / np_std np window)
       (- price_filter_k (cfg s')) = false ->
   entry_price_filter np s' bar' hl2 =
     let s1 := set_peak_check_days (peak_check_days s' + 1) s' in
     if match peak_day_hl2 s' with
        | Some pk => flt hl2 pk
        | None => false
        end
     then (set_peak false None 0 s1, false)
     else if (max_peak_days (cfg s') <=? peak_check_days s' + 1)%Z
          then (set_peak false None 0 s1, true)
          else (s1, false)) /\
  (startup_check s' = true ->
   compute_trend_flag np s' = Ok true ->
   exists s'' rest,
     check_entry np s' bar' hl2 j' t' l' = Ok s'' /\
     log s'' = log s' ++ BUY startup_trending_condition (Close bar') :: rest).
Proof.
  intros Hexit Hsold.
  destruct (Williams2_Facts.check_exit_cases s bar j t l s' Hexit)
    as [_ [_ [_ [_ [[Lg _] | [r [_ [I [_ [_ [W [Pk [Dy _]]]]]]]]]]]]].
  { contradiction. }
  split; [auto |]. split.
  - intros window Huse Hlen Hstd Hcheap. unfold entry_price_filter.
    rewrite Huse. simpl.
    destruct (Z.ltb_spec (len (hl2s s')) (price_filter_lookback (cfg s')));
      [lia |].
    fold window. rewrite Hstd, Hcheap, W. simpl.
    rewrite andb_false_r. reflexivity.
  - intros Hsc Htr.
    destruct (Williams2_Facts.check_entry_startup np s' bar' hl2 j' t' l'
                Hsc I Htr) as [s'' [rest [Hce [Hl _]]]].
    exists s'', rest. split; assumption.
Qed.

End Williams2_Claims.

(** ** The startup rule in the ATR stop-loss variant *)

Module AlligatorATR_Facts.
Import AlligatorATR.

Lemma startup_buys_app l e :
  startup_buys (l ++ [e])
  = (startup_buys l + startup_buys [e])%nat.
Proof.
  induction l as [|x l IH]; simpl.
  - destruct e as [[] ?|]; reflexivity.
  - destruct x as [[] ?|]; simpl; rewrite IH; reflexivity.
Qed.

Lemma atr_update_performance_frame a bar a' :
  update_performance a bar = Ok a' ->
  log a' = log a /\ startup_check a' = startup_check a /\
  invested a' = invested a /\
  cooldown_days_remaining a' = cooldown_days_remaining a.
Proof.
  unfold update_performance. intros H.
  destruct (initial_symbol_price a) as [p0|].
  - destruct (PrimFloat.eqb p0 0); [discriminate |].
    injection H as <-. repeat split; reflexivity.
  - injection H as <-. repeat split; reflexivity.
Qed.

(** No method raises the number of startup buys still possible. *)
Lemma check_entry_potential a bar j t l a' :
  check_entry a bar j t l = Ok a' ->
  (startup_buys (log a') + armed a' <= startup_buys (log a) + armed a)%nat.
Proof.
  unfold check_entry. intros H.
  destruct (len (hl2s a) <? 20)%Z; [injection H as <-; lia |].
  destruct (Williams2.is_trending_ema _ _ _ _ _ _) as [[|]|]; simpl in H;
    try discriminate.
  2: { injection H as <-. lia. }
  unfold armed.
  destruct (startup_check a) eqn:Hsc.
  - destruct (invested a) eqn:Hinv; simpl in H; injection H as <-.
    + rewrite Hsc. lia.
    + unfold buy. rewrite Hinv. simpl. rewrite startup_buys_app. simpl. lia.
  - match type of H with
    | (if ?c then _ else _) = _ => destruct c
    end; injection H as <-.
    + unfold buy. destruct (invested a); simpl.
      * rewrite Hsc. lia.
      * rewrite Hsc, startup_buys_app. simpl. lia.
    + rewrite Hsc. lia.
Qed.

Lemma check_exit_potential a bar atr j t l :
  let a' := check_exit a bar atr j t l in
  startup_buys (log a') = startup_buys (log a) /\
  startup_check a' = startup_check a.
Proof.
  unfold check_exit.
  destruct (entryPrice a); [| split; reflexivity].
  repeat match goal with
         | |- context [if ?c then _ else _] => destruct c
         end; simpl; rewrite ?startup_buys_app; simpl; split;
    try reflexivity; lia.
Qed.

Lemma OnData_potential a d a' :
  OnData a d = Ok a' ->
  (startup_buys (log a') + armed a' <= startup_buys (log a) + armed a)%nat.
Proof.
  unfold OnData. intros H.
  destruct (bar_of d) as [bar|]; [| injection H as <-; lia].
  match type of H with
  | (if ?c then _ else _) = _ => destruct c
  end; [injection H as <-; lia |].
  destruct (Williams2.SMMA_Update (jaw a) _) as [[j1 jv]|]; simpl in H;
    [| discriminate].
  destruct (Williams2.SMMA_Update (teeth a) _) as [[t1 tv]|]; simpl in H;
    [| discriminate].
  destruct (Williams2.SMMA_Update (lips a) _) as [[l1 lv]|]; simpl in H;
    [| discriminate].
  match type of H with
  | context [update_performance ?x bar] =>
      destruct (update_performance x bar) as [a2|] eqn:HP; simpl in H;
      [| discriminate];
      destruct (atr_update_performance_frame x bar a2 HP) as [L2 [S2 [I2 C2]]]
  end.
  simpl in L2, S2, I2, C2.
  assert (P2 : (startup_buys (log a2) + armed a2
                = startup_buys (log a) + armed a)%nat).
  { unfold armed. rewrite L2, S2. reflexivity. }
  destruct (invested a2).
  - destruct (cooldown_days_remaining a2 =? 0)%Z; simpl in H;
      injection H as <-; simpl; [| unfold armed in *; simpl; lia].
    destruct (check_exit_potential a2 bar (atr_value d) jv tv lv) as [E1 E2].
    cbv zeta in E1, E2. unfold armed in *. simpl. rewrite E1, E2. lia.
  - destruct (0 <? cooldown_days_remaining a2)%Z; simpl in H.
    + injection H as <-. unfold armed in *. simpl. lia.
    + destruct (check_entry a2 bar jv tv lv) as [a3|] eqn:HE; simpl in H;
        [| discriminate].
      injection H as <-.
      pose proof (check_entry_potential a2 bar jv tv lv a3 HE) as P3.
      unfold armed in *. simpl. lia.
Qed.

Lemma run_potential stream : forall a a',
  run a stream = Ok a' ->
  (startup_buys (log a') + armed a' <= startup_buys (log a) + armed a)%nat.
Proof.
  induction stream as [|d rest IH]; intros a a' H; simpl in H.
  - injection H as <-. lia.
  - destruct (OnData a d) as [a1|] eqn:HD; simpl in H; [| discriminate].
    pose proof (OnData_potential a d a1 HD).
    pose proof (IH a1 a' H). lia.
Qed.

(** In this variant the counter is decremented only while flat: on an open
    position with a positive counter the handler changes neither the
    counter nor the position. *)
Lemma cooldown_frozen_while_invested a d a' :
  invested a = true -> cooldown_days_remaining a <> 0%Z ->
  OnData a d = Ok a' ->
  invested a' = true /\ log a' = log a /\
  cooldown_days_remaining a' = cooldown_days_remaining a.
Proof.
  unfold OnData. intros Hinv Hcd H.
  destruct (bar_of d) as [bar|]; [| injection H as <-; auto].
  match type of H with
  | (if ?c then _ else _) = _ => destruct c
  end; [injection H as <-; auto |].
  destruct (Williams2.SMMA_Update (jaw a) _) as [[j1 jv]|]; simpl in H;
    [| discriminate].
  destruct (Williams2.SMMA_Update (teeth a) _) as [[t1 tv]|]; simpl in H;
    [| discriminate].
  destruct (Williams2.SMMA_Update (lips a) _) as [[l1 lv]|]; simpl in H;
    [| discriminate].
  match type of H with
  | context [update_performance ?x bar] =>
      destruct (update_performance x bar) as [a2|] eqn:HP; simpl in H;
      [| discriminate];
      destruct (atr_update_performance_frame x bar a2 HP) as [L2 [S2 [I2 C2]]]
  end.
  simpl in L2, S2, I2, C2. rewrite I2, Hinv in H.
  destruct (Z.eqb_spec (cooldown_days_remaining a2) 0) as [Hz|_];
    [congruence |].
  simpl in H. injection H as <-. simpl. repeat split; congruence.
Qed.

End AlligatorATR_Facts.

Section Startup.

Variable np : Numpy.

(** C8 (amended): the startup rule fires at most once over a run only in
    the variant that clears startup_check when it fires (the ATR stop-loss
    file); in Williams2 the flag is never cleared, so on every flat bar
    whose trend check passes the rule logs a BUY with the startup reason
    and stays armed. *)
Theorem startup_rule_once_only_where_cleared
    (a a' : AlligatorATR.Algo) (stream : list AlligatorATR.Slice)
    (s : Williams2.Algo) (bar : Williams2.TradeBar) (hl2 j t l : float) :
  AlligatorATR.log a = [] ->
  AlligatorATR.run a stream = Ok a' ->
  Williams2.startup_check s = true ->
  Williams2.invested s = false ->
  Williams2.compute_trend_flag np s = Ok true ->
  (AlligatorATR.startup_buys (AlligatorATR.log a') <= 1)%nat /\
  exists s' rest,
    Williams2.check_entry np s bar hl2 j t l = Ok s' /\
    Williams2.log s'
    = Williams2.log s
      ++ Williams2.BUY Williams2.startup_trending_condition
                       (Williams2.Close bar) :: rest /\
    Williams2.startup_check s' = true.
Proof.
  intros Hlog Hrun Hsc Hflat Htrend. split.
  - pose proof (AlligatorATR_Facts.run_potential stream a a' Hrun) as P.
    rewrite Hlog in P. unfold AlligatorATR.armed in P. simpl in P.
    destruct (AlligatorATR.startup_check a), (AlligatorATR.startup_check a');
      lia.
  - destruct (Williams2_Facts.check_entry_startup np s bar hl2 j t l
                Hsc Hflat Htrend) as [s' [rest [H1 [H2 [H3 _]]]]].
    exists s', rest. auto.
Qed.

End Startup.

(** ** The Hurst persistence test *)

Module Hurst_Facts.
Import Williams2.

Lemma select_length {A B} (f : A -> B -> bool) :
  forall (a : list A) (b : list B),
    List.length (select (map2 f a b) a)
    = List.length (filter (fun x => x) (map2 f a b)) /\
    List.length (select (map2 f a b) b)
    = List.length (filter (fun x => x) (map2 f a b)).
Proof.
  induction a as [|x a IH]; intros [|y b]; simpl; auto.
  destruct (IH b) as [Ha Hb].
  destruct (f x y); simpl; auto.
Qed.

Lemma polyfit_slope_ok np (x y : list float) :
  x <> [] -> List.length x = List.length y ->
  polyfit_slope np x y = Ok (np_polyfit1 np x y).
Proof.
  intros Hx Hl. unfold polyfit_slope.
  destruct x as [|x0 x']; [contradiction |].
  unfold len. rewrite Hl, Z.eqb_refl. reflexivity.
Qed.

Lemma hurst_exponent_total np ts max_lag :
  exists H, hurst_exponent np ts max_lag = Ok H.
Proof.
  unfold hurst_exponent.
  destruct (hurst_max_lag (len ts) max_lag) as [m|]; [| eexists; reflexivity].
  cbv zeta.
  set (lagsf := map float_cast (arange 2 m)).
  set (tau := hurst_tau np ts (arange 2 m)).
  destruct (Z.ltb_spec (mask_sum (hurst_mask lagsf tau)) 2) as [Hlt|Hge];
    [eexists; reflexivity |].
  unfold mask_sum, len, hurst_mask in *.
  destruct (select_length (fun l t => fgt l 0 && fgt t 0) lagsf tau)
    as [Ha Hb].
  rewrite polyfit_slope_ok.
  - eexists; reflexivity.
  - intros Hnil. apply (f_equal (@List.length float)) in Hnil.
    rewrite length_map, Ha in Hnil. simpl in Hnil. lia.
  - rewrite !length_map, Ha, Hb. reflexivity.
Qed.

(** The entries a mask built pointwise keeps, read off the paired lists. *)
Lemma select_filter {A B} (f : A -> B -> bool) :
  forall (a : list A) (b : list B),
    select (map2 f a b) a
    = map fst (filter (fun p => f (fst p) (snd p)) (combine a b)) /\
    select (map2 f a b) b
    = map snd (filter (fun p => f (fst p) (snd p)) (combine a b)) /\
    mask_sum (map2 f a b)
    = len (filter (fun p => f (fst p) (snd p)) (combine a b)).
Proof.
  induction a as [|x a IH]; intros [|y b]; cbn [map2 select combine filter];
    try (repeat split; reflexivity).
  destruct (IH b) as [Ha [Hb Hm]]. cbn [fst snd].
  unfold mask_sum, len in *. cbn [filter].
  destruct (f x y); cbn [map fst snd List.length];
    rewrite ?Ha, ?Hb; repeat split; try reflexivity; lia.
Qed.

(** On ten values or more the lag bound is the requested one, capped. *)
Lemma hurst_max_lag_from_ten n max_lag :
  (10 <= n)%Z ->
  hurst_max_lag n max_lag
  = Some (Z.min (match max_lag with
                 | None => n / 2
                 | Some m => m
                 end) (n - 2)).
Proof.
  intros Hn. unfold hurst_max_lag.
  destruct (Z.ltb_spec n 10) as [Hlt|_]; [lia |].
  cbv zeta.
  assert (Hhalf : (5 <= n / 2)%Z) by (apply Z.div_le_lower_bound; lia).
  replace (match max_lag with
           | Some m => m
           | None => Z.max 2 (n / 2)
           end)
    with (match max_lag with
          | None => (n / 2)%Z
          | Some m => m
          end)
    by (destruct max_lag; [reflexivity | lia]).
  match goal with
  | |- context [(n <? ?b)%Z] =>
      destruct (Z.ltb_spec n b) as [Hlt|_]; [lia | reflexivity]
  end.
Qed.

Lemma polyfit_slope_not_ValueError np x y :
  polyfit_slope np x y <> Raise ValueError.
Proof.
  unfold polyfit_slope. destruct x; [discriminate |].
  destruct (_ =? _)%Z; discriminate.
Qed.

End Hurst_Facts.

Section Hurst.

Variable np : Numpy.

(** C6 (amended): the Hurst routine of Williams2 returns a value for
    every series and every lag bound (the numpy routines taken as total):
    the neutral 0.5 when the series has fewer than 10 elements; from 10
    elements on, with the lags 2 .. min(max_lag, n - 2) - 1 (max_lag being
    n // 2 by default) and tau the square root of the deviation of the
    lagged differences, 0.5 again when fewer than two (lag, tau) pairs have
    lag > 0 and tau > 0, and the slope fitted through the logarithms of
    those pairs otherwise; the trend decision is H > threshold. The
    routine of WilliamsAlligator raises ValueError exactly when the series
    is shorter than max_lag + 2, max(2, n // 2) being the default bound,
    which makes it shorter than 4. *)
Theorem hurst_neutral_or_raises
    (ts : list float) (max_lag : option Z) (threshold : float) :
  (exists H, Williams2.hurst_exponent np ts max_lag = Ok H) /\
  ((len ts < 10)%Z -> Williams2.hurst_exponent np ts max_lag = Ok 0.5%float)
  /\
  ((10 <= len ts)%Z ->
   let m := Z.min (match max_lag with
                   | None => len ts / 2
                   | Some m => m
                   end) (len ts - 2) in
   let lags := Williams2.arange 2 m in
   let tau :=
     map (fun lag =>
            PrimFloat.sqrt
              (np_std np
                 (Williams2.map2 PrimFloat.sub
                    (skipn (Z.to_nat lag) ts)
                    (firstn (Z.to_nat (len ts - lag)) ts)))) lags in
   let kept :=
     filter (fun lt => fgt (fst lt) 0 && fgt (snd lt) 0)
            (combine (map float_cast lags) tau) in
   Williams2.hurst_exponent np ts max_lag
   = if (len kept <? 2)%Z then Ok 0.5%float
     else Ok (np_polyfit1 np (map (fun lt => np_log np (fst lt)) kept)
                             (map (fun lt => np_log np (snd lt)) kept)))
  /\
  (exists H,
      Williams2.hurst_exponent np ts None = Ok H /\
      Williams2.is_trending np ts threshold = Ok (fgt H threshold)) /\
  (WilliamsAlligator.hurst_exponent np ts max_lag = Raise ValueError <->
   (len ts < match max_lag with
             | None => Z.max 2 (len ts / 2)
             | Some m => m
             end + 2)%Z) /\
  (WilliamsAlligator.hurst_exponent np ts None = Raise ValueError <->
   (len ts < 4)%Z).
Proof.
  assert (HWA : forall ml,
    WilliamsAlligator.hurst_exponent np ts ml = Raise ValueError <->
    (len ts < match ml with
              | None => Z.max 2 (len ts / 2)
              | Some m => m
              end + 2)%Z).
  { intros ml. unfold WilliamsAlligator.hurst_exponent. cbv zeta.
    match goal with
    | |- context [(len ts <? ?b)%Z] =>
        destruct (Z.ltb_spec (len ts) b) as [Hlt|Hge]
    end.
    - split; [intros _; exact Hlt | reflexivity].
    - split; [| lia]. intros H.
      exfalso. exact (Hurst_Facts.polyfit_slope_not_ValueError _ _ _ H). }
  split; [apply Hurst_Facts.hurst_exponent_total |].
  split; [| split; [| split; [| split]]].
  - intros Hshort. unfold Williams2.hurst_exponent, Williams2.hurst_max_lag.
    destruct (Z.ltb_spec (len ts) 10) as [_|Hge]; [reflexivity | lia].
  - intros Hn m lags tau kept. unfold Williams2.hurst_exponent.
    rewrite (Hurst_Facts.hurst_max_lag_from_ten (len ts) max_lag Hn).
    fold m. cbv zeta. fold lags.
    change (Williams2.hurst_tau np ts lags) with tau.
    unfold Williams2.hurst_mask.
    destruct (Hurst_Facts.select_filter
                (fun l t : float => fgt l 0 && fgt t 0)
                (map float_cast lags) tau) as [Ha [Hb Hm]].
    fold kept in Ha, Hb, Hm. rewrite Ha, Hb, Hm.
    destruct (Z.ltb_spec (len kept) 2) as [_|Hge]; [reflexivity |].
    rewrite !map_map.
    apply Hurst_Facts.polyfit_slope_ok.
    + intros Hnil. apply (f_equal (@List.length float)) in Hnil.
      rewrite length_map in Hnil. unfold len in Hge. simpl in Hnil. lia.
    + rewrite !length_map. reflexivity.
  - destruct (Hurst_Facts.hurst_exponent_total np ts None) as [H HH].
    exists H. split; [exact HH |].
    unfold Williams2.is_trending. rewrite HH. reflexivity.
  - apply HWA.
  - rewrite (HWA None).
    assert (0 <= len ts)%Z by (unfold len; lia).
    split; intros Hlt.
    + destruct (Z.lt_ge_cases (len ts) 4) as [|Hge]; [assumption |].
      exfalso.
      assert (len ts / 2 <= len ts - 2)%Z
        by (apply Z.div_le_upper_bound; lia).
      lia.
    + assert (len ts / 2 <= 1)%Z
        by (apply Z.lt_succ_r, Z.div_lt_upper_bound; lia).
      lia.
Qed.

End Hurst.

Lemma hurst_neutral_or_raises_witness :
  Williams2.hurst_exponent Samples.plain_numpy (repeat 7%float 12) None
  = Ok 0.5%float
  /\ Williams2.hurst_exponent Samples.plain_numpy [1; 2; 3]%float (Some 5%Z)
     = Ok 0.5%float
  /\ WilliamsAlligator.hurst_exponent Samples.plain_numpy
       (repeat 7%float 12) (Some 11%Z) = Raise ValueError
  /\ WilliamsAlligator.hurst_exponent Samples.plain_numpy [1; 2; 3]%float
       None = Raise ValueError.
Proof.
  split; [| split; [| split]].
  - pose proof (proj1 (proj2 (proj2
                  (hurst_neutral_or_raises Samples.plain_numpy
                     (repeat 7%float 12) None 0.5%float)))) as W.
    assert (Hn : (10 <= len (repeat 7%float 12))%Z)
      by (vm_compute; discriminate).
    specialize (W Hn). cbv zeta in W. rewrite W.
    vm_compute. reflexivity.
  - apply (proj1 (proj2 (hurst_neutral_or_raises Samples.plain_numpy
                           [1; 2; 3]%float (Some 5%Z) 0.5%float))).
    vm_compute. reflexivity.
  - apply (proj1 (proj2 (proj2 (proj2 (proj2
             (hurst_neutral_or_raises Samples.plain_numpy
                (repeat 7%float 12) (Some 11%Z) 0.5%float)))))).
    vm_compute. reflexivity.
  - apply (proj2 (proj2 (proj2 (proj2 (proj2
             (hurst_neutral_or_raises Samples.plain_numpy
                [1; 2; 3]%float None 0.5%float)))))).
    vm_compute. reflexivity.
Defined.

(** C6 (as stated) fails: on a series of three values the Hurst routine of
    WilliamsAlligator raises where the one of Williams2 returns 0.5, and
    the trend decision built on it raises with it. *)
Lemma short_series_raises_ValueError :
  WilliamsAlligator.hurst_exponent Samples.plain_numpy [1; 2; 3]%float None
  = Raise ValueError
  /\ WilliamsAlligator.is_trending Samples.plain_numpy [1; 2; 3]%float
       0.5%float
     = Raise ValueError
  /\ Williams2.hurst_exponent Samples.plain_numpy [1; 2; 3]%float None
     = Ok 0.5%float.
Proof. repeat split. Qed.

(** ** The sample run of Williams2 *)

Section Sample_Run.
Import Williams2 Samples.

Lemma cooldown_after_buy_witness :
  cooldown_days_remaining (state_after 21) = 2%Z /\
  cooldown_days_remaining (state_after 23) = 0%Z /\
  exists s2a hl2 j t l s2b,
    update_indicators (state_after 23) (level_bar 143 145)
    = Ok (s2a, Some (hl2, j, t, l)) /\
    check_exit s2a (level_bar 143 145) j t l = Ok s2b /\
    log (state_after 24) = log s2b /\
    highestPrice (state_after 24) = highestPrice s2b.
Proof.
  assert (H1 : (0 <= cooldown_days (cfg (state_after 20)))%Z)
    by (vm_compute; discriminate).
  assert (H2 : invested (state_after 20) = false)
    by (vm_compute; reflexivity).
  assert (H3 : OnData plain_numpy (state_after 20) (Some (level_bar 140 140))
               = Ok (Processed (state_after 21)))
    by (vm_compute; reflexivity).
  assert (H4 : invested (state_after 21) = true)
    by (vm_compute; reflexivity).
  assert (H5 : run plain_numpy (state_after 21)
                   (map Some [level_bar 141 200; level_bar 142 150])
               = Ok (state_after 23))
    by (vm_compute; reflexivity).
  assert (H6 : log (state_after 23) = log (state_after 21))
    by (vm_compute; reflexivity).
  assert (H7 : OnData plain_numpy (state_after 23)
                 (Some (level_bar 143 145))
               = Ok (Processed (state_after 24)))
    by (vm_compute; reflexivity).
  pose proof (cooldown_after_buy plain_numpy _ _ _ _ _ _ _
                H1 H2 H3 H4 H5 H6 H7) as [W1 [W2 [W3 _]]].
  assert (E : (cooldown_days (cfg (state_after 20)) - 1
               <=? len [level_bar 141 200; level_bar 142 150])%Z = true)
    by (vm_compute; reflexivity).
  rewrite E in W3.
  destruct W3 as [s2a [hl2 [j [t [l [s2b [U [X [L [_ [_ Hi]]]]]]]]]]].
  split; [vm_compute in W1; vm_compute; exact W1 |].
  split; [vm_compute in W2; vm_compute; exact W2 |].
  exists s2a, hl2, j, t, l, s2b. repeat split; assumption.
Defined.

(** C3 (as stated) fails: with the cooldown length 3 of the source, the BUY
    is made on slice 21 and the exit rules are already evaluated on the
    third bar after it (slice 24), where [check_exit] raises the running
    high from 140 to 145; they are skipped on two bars, not three. *)
Lemma exit_evaluated_on_third_bar_after_buy :
  cooldown_days (cfg (state_after 20)) = 3%Z
  /\ log (state_after 20) = []
  /\ log (state_after 21) = [BUY startup_trending_condition 140]
  /\ invested (state_after 21) = true
  /\ cooldown_days_remaining (state_after 21) = 2%Z
  /\ cooldown_days_remaining (state_after 22) = 1%Z
  /\ cooldown_days_remaining (state_after 23) = 0%Z
  /\ invested (state_after 23) = true
  /\ highestPrice (state_after 23) = Some 140%float
  /\ OnData plain_numpy (state_after 23) (slice 24)
     = Ok (Processed (state_after 24))
  /\ highestPrice (state_after 24) = Some 145%float.
Proof. vm_compute. repeat split. Qed.

(** C4: the recorded high is not the highest price since entry. After the
    BUY at 140 on slice 21 of the sample run, a bar with the range 80..202
    closes at 200 inside the cooldown: the handler does not call
    [check_exit] on it and the recorded high is still 140 afterwards, as it
    is after the next bar, closing at 150. On the third bar, the first on
    which the exit rules run, the close 145 is more than 0.3% under that
    200, yet the trailing stop, which trails from the recorded high (now
    145), does not sell: the position stays open. *)
Lemma high_not_raised_during_cooldown :
  Initialize source_params history = Ok (state_after 0)
  /\ run plain_numpy (state_after 0) (firstn 21 stream)
     = Ok (state_after 21)
  /\ log (state_after 21) = [BUY startup_trending_condition 140]
  /\ highestPrice (state_after 21) = Some 140%float
  /\ OnData plain_numpy (state_after 21)
       (Some (Samples_More.range_bar 202 80 200))
     = Ok (Processed (Samples_More.spike_after 1))
  /\ fgt 200 140 = true
  /\ highestPrice (Samples_More.spike_after 1) = Some 140%float
  /\ OnData plain_numpy (Samples_More.spike_after 1)
       (Some (Samples_More.range_bar 160 124 150))
     = Ok (Processed (Samples_More.spike_after 2))
  /\ highestPrice (Samples_More.spike_after 2) = Some 140%float
  /\ cooldown_days_remaining (Samples_More.spike_after 2) = 0%Z
  /\ OnData plain_numpy (Samples_More.spike_after 2)
       (Some (Samples_More.range_bar 146 140 145))
     = Ok (Processed (Samples_More.spike_after 3))
  /\ fle 145 (200 * (1 - trailingStopPct
                           (cfg (Samples_More.spike_after 2))))%float
     = true
  /\ highestPrice (Samples_More.spike_after 3) = Some 145%float
  /\ invested (Samples_More.spike_after 3) = true
  /\ log (Samples_More.spike_after 3)
     = [BUY startup_trending_condition 140].
Proof. vm_compute. repeat split. Qed.


Lemma sell_sets_waiting_flag_witness :
  let sold :=
    set_wait_peak_check true
      (sell (set_highestPrice (Some 145%float) (state_after 24))
            (level_bar 144 130) trailing_stop) in
  wait_peak_check sold = true /\ invested sold = false /\
  peak_day_hl2 sold = peak_day_hl2 (state_after 24) /\
  peak_check_days sold = peak_check_days (state_after 24).
Proof.
  intros sold.
  assert (H1 : check_exit (state_after 24) (level_bar 144 130) 1 1 1
               = Ok sold)
    by (vm_compute; reflexivity).
  assert (H2 : log sold <> log (state_after 24)).
  { vm_compute. intros H.
    apply (f_equal (@List.length event)) in H. discriminate. }
  pose proof (sell_sets_waiting_flag plain_numpy _ _ _ (level_bar 145 145)
                _ _ _ 145 1 1 1 H1 H2) as [W _].
  exact W.
Defined.

(** C10 (as stated) fails: slice 25 sells and leaves the waiting flag set
    without a reference price, yet slice 26, the next entry signal, is
    bought at once by the startup rule; the waiting branch of the filter
    has not run (the day counter is still 0) and the flag is cleared. *)
Lemma entry_after_exit_not_blocked :
  log (state_after 25)
  = [BUY startup_trending_condition 140; SELL trailing_stop 130]
  /\ peak_state (state_after 25) = (true, None, 0%Z)
  /\ OnData plain_numpy (state_after 25) (slice 26)
     = Ok (Processed (state_after 26))
  /\ log (state_after 26)
     = log (state_after 25) ++ [BUY startup_trending_condition 145]
  /\ peak_state (state_after 26) = (false, None, 0%Z).
Proof. vm_compute. repeat split. Qed.

Lemma startup_rule_once_only_where_cleared_witness :
  (AlligatorATR.startup_buys (AlligatorATR.log atr_end) <= 1)%nat /\
  exists s' rest,
    check_entry plain_numpy (state_after 25) (level_bar 145 145) 145 1 1 1
    = Ok s' /\
    log s'
    = log (state_after 25)
      ++ BUY startup_trending_condition (Close (level_bar 145 145)) :: rest /\
    startup_check s' = true.
Proof.
  assert (H1 : AlligatorATR.log atr_start = []) by reflexivity.
  assert (H2 : AlligatorATR.run atr_start atr_stream = Ok atr_end)
    by (vm_compute; reflexivity).
  assert (H3 : startup_check (state_after 25) = true)
    by (vm_compute; reflexivity).
  assert (H4 : invested (state_after 25) = false)
    by (vm_compute; reflexivity).
  assert (H5 : compute_trend_flag plain_numpy (state_after 25) = Ok true)
    by (vm_compute; reflexivity).
  exact (startup_rule_once_only_where_cleared plain_numpy _ _ _ _
           (level_bar 145 145) 145 1 1 1 H1 H2 H3 H4 H5).
Defined.

(** C8 (as stated) fails: the sample run of Williams2 logs two BUY
    decisions with the startup reason, one before and one after the
    SELL. *)
Lemma two_startup_buys_in_one_run :
  exists self,
    after 26 = Ok self /\
    log self
    = [BUY startup_trending_condition 140; SELL trailing_stop 130;
       BUY startup_trending_condition 145] /\
    startup_check self = true.
Proof. eexists. split; [vm_compute; reflexivity |]. split; reflexivity. Qed.

(** The ATR stop-loss variant decrements its counter only while flat: in
    its sample run the position bought on the first slice is still open,
    with the counter still at 1, after two closes far below the stop. *)
Lemma atr_variant_never_leaves_cooldown :
  AlligatorATR.log atr_end
  = [AlligatorATR.BUY AlligatorATR.startup_trending_condition 120]
  /\ AlligatorATR.invested atr_end = true
  /\ AlligatorATR.cooldown_days_remaining atr_end = 1%Z.
Proof. vm_compute. repeat split. Qed.

End Sample_Run.

(** ** More on the lagged smoother of ATR1 *)

Module ATR1_Lag.
Import ATR1 ATR1_Runs.

Lemma tl_skipn {A} (k : nat) (l : list A) : tl (skipn k l) = skipn (S k) l.
Proof.
  revert l. induction k as [|k IH]; intros [|x l]; simpl; auto.
Qed.

Lemma last_opt_cons {A} (a b : A) l : last_opt (a :: b :: l) = last_opt (b :: l).
Proof.
  unfold last_opt. change (rev (a :: b :: l)) with (rev (b :: l) ++ [a]).
  apply nth_error_app1. rewrite length_rev. simpl. lia.
Qed.

Lemma last_opt_nth {A} (l : list A) : forall a tail,
  last_opt (a :: l) = nth_error ((a :: l) ++ tail) (List.length l).
Proof.
  induction l as [|b l IH]; intros a tail.
  - reflexivity.
  - rewrite last_opt_cons, (IH b tail). reflexivity.
Qed.

(** What one update of the smoother returns and leaves behind. *)
Lemma SMMA_Update_shape self x self1 cur pv :
  SMMA_Update self x = Ok (self1, (cur, pv)) ->
  current self1 = Some cur /\
  pv = match current self with None => prev self | Some c => Some c end.
Proof.
  unfold SMMA_Update. destruct (current self) as [c|].
  - destruct (float_of_int (length self - 1)); simpl; [| discriminate].
    destruct (float_of_int (length self)); simpl; [| discriminate].
    destruct (length self =? 0)%Z; [discriminate |].
    intros H; injection H as <- <- <-. split; reflexivity.
  - intros H; injection H as <- <- <-. split; reflexivity.
Qed.

(** The buffer keeps the last [cap] smoothed values. *)
Lemma deque_append_window d cur (hist : list float) cap :
  (1 <= cap)%nat ->
  maxlen d = Z.of_nat cap ->
  items d = skipn (List.length hist - cap) hist ->
  maxlen (deque_append d cur) = Z.of_nat cap /\
  items (deque_append d cur)
  = skipn (List.length (hist ++ [cur]) - cap) (hist ++ [cur]).
Proof.
  intros Hcap Hm Hit. unfold deque_append. rewrite Hm.
  destruct (Z.eqb_spec (Z.of_nat cap) 0) as [H0|_]; [lia |].
  assert (Hlen : List.length (items d) = Nat.min (List.length hist) cap).
  { rewrite Hit, length_skipn. lia. }
  rewrite length_app. simpl List.length.
  unfold len. rewrite Hlen.
  destruct (Z.eqb_spec (Z.of_nat (Nat.min (List.length hist) cap))
                       (Z.of_nat cap)) as [Hfull|Hnot]; simpl.
  - split; [reflexivity |].
    rewrite Hit, tl_skipn, skipn_app.
    replace (List.length hist + 1 - cap)%nat
      with (S (List.length hist - cap)) by lia.
    replace (S (List.length hist - cap) - List.length hist)%nat with O by lia.
    reflexivity.
  - split; [reflexivity |].
    rewrite Hit.
    replace (List.length hist - cap)%nat with O by lia.
    replace (List.length hist + 1 - cap)%nat with O by lia.
    reflexivity.
Qed.

Lemma lagged_run xs : forall self hist outs s,
  maxlen (buf self) = Z.of_nat (S s) ->
  items (buf self) = skipn (List.length hist - S s) hist ->
  match hist with
  | [] => current (smma self) = None /\ prev (smma self) = None
  | _ :: _ => current (smma self) = last_opt hist
  end ->
  smma_outputs (smma self) xs = Ok outs ->
  shifted_outputs self xs
  = Ok (map (lagged_pair s (hist ++ map fst outs))
            (seq (List.length hist) (List.length xs))).
Proof.
  induction xs as [|x rest IH]; intros self hist outs s Hm Hit Hcur Hout.
  - reflexivity.
  - cbn [smma_outputs] in Hout.
    destruct (SMMA_Update (smma self) x) as [[smma1 [cur pv]]|] eqn:HU;
      simpl in Hout; [| discriminate].
    destruct (smma_outputs smma1 rest) as [outs'|] eqn:HR; simpl in Hout;
      [| discriminate].
    injection Hout as <-.
    destruct (SMMA_Update_shape _ _ _ _ _ HU) as [Hc1 Hpv].
    destruct (deque_append_window (buf self) cur hist (S s)
                ltac:(lia) Hm Hit) as [Hm1 Hit1].
    cbn [shifted_outputs]. unfold ShiftedLine_Update. rewrite HU.
    cbn [bind].
    set (buf1 := deque_append (buf self) cur) in *.
    assert (Hlen1 : List.length (items buf1)
                    = Nat.min (S (List.length hist)) (S s)).
    { rewrite Hit1, length_skipn, length_app. simpl. lia. }
    assert (Hhead : hd_error (items buf1)
                    = nth_error (hist ++ [cur]) (S (List.length hist) - S s)).
    { rewrite Hit1, hd_error_skipn, length_app. simpl.
      f_equal. lia. }
    assert (Hshift :
      (if (len (items buf1) =? maxlen buf1)%Z
       then match items buf1 with
            | x0 :: _ => Ok (Some x0)
            | [] => Raise IndexError
            end
       else Ok None)
      = Ok (if (List.length hist <? s)%nat then None
            else nth_error (hist ++ map fst ((cur, pv) :: outs'))
                           (List.length hist - s))).
    { unfold len. rewrite Hm1, Hlen1.
      destruct (Nat.ltb_spec (List.length hist) s) as [Hlt|Hge].
      - destruct (Z.eqb_spec (Z.of_nat (Nat.min (S (List.length hist)) (S s)))
                             (Z.of_nat (S s))); [lia | reflexivity].
      - destruct (Z.eqb_spec (Z.of_nat (Nat.min (S (List.length hist)) (S s)))
                             (Z.of_nat (S s))); [| lia].
        destruct (items buf1) as [|y r] eqn:E.
        + simpl in Hlen1. lia.
        + simpl in Hhead. f_equal.
          replace (S (List.length hist) - S s)%nat
            with (List.length hist - s)%nat in Hhead by lia.
          rewrite Hhead. simpl map.
          rewrite !nth_error_app.
          destruct (Nat.ltb_spec (List.length hist - s) (List.length hist));
            [reflexivity |].
          replace (List.length hist - s - List.length hist)%nat with O by lia.
          reflexivity. }
    rewrite Hshift. cbn [bind].
    rewrite (IH {| smma := smma1; buf := buf1; shift := shift self |}
                (hist ++ [cur]) outs' s).
    + cbn [bind]. rewrite length_app. simpl List.length.
      replace (List.length hist + 1)%nat with (S (List.length hist)) by lia.
      simpl map. rewrite <- app_assoc. simpl app.
      f_equal. f_equal. unfold lagged_pair at 1. f_equal.
      rewrite Hpv. destruct hist as [|h0 hist'].
      * destruct Hcur as [Hc Hp]. rewrite Hc, Hp. reflexivity.
      * rewrite Hcur, (last_opt_nth hist' h0 (cur :: map fst outs')).
        cbn [List.length].
        destruct (nth_error ((h0 :: hist') ++ cur :: map fst outs')
                            (List.length hist')) eqn:E; [reflexivity |].
        apply nth_error_None in E. rewrite length_app in E.
        simpl in E. lia.
    + exact Hm1.
    + simpl. exact Hit1.
    + simpl. destruct (hist ++ [cur]) as [|h0 r] eqn:E.
      * destruct hist; discriminate.
      * rewrite <- E, Hc1. unfold last_opt. rewrite rev_app_distr.
        reflexivity.
    + exact HR.
Qed.

End ATR1_Lag.

Module ATR1_Totals.
Import ATR1 ATR1_Runs.

Lemma smma_outputs_ok xs : forall self,
  (1 <= length self < float_max_int)%Z ->
  exists outs, smma_outputs self xs = Ok outs.
Proof.
  induction xs as [|x rest IH]; intros self Hp.
  - exists []. reflexivity.
  - destruct (ATR1_Smoother.SMMA_Update_ok self x Hp)
      as [s1 [out [HU [HL _]]]].
    destruct (IH s1) as [outs HR]; [rewrite HL; exact Hp |].
    exists (out :: outs). simpl. rewrite HU. simpl. rewrite HR. reflexivity.
Qed.

End ATR1_Totals.

Section Lagged_Output.
Import ATR1 ATR1_Runs.

(** X1: for a period p >= 1 and a shift s >= 0, the k-th call of
    [ShiftedLine.Update] (counting from 0) returns as its first component
    the smoothed value computed s calls earlier, and None during the first
    s calls; its second component is the smoothed value of the call just
    before, not shifted (None on the first call). *)
Theorem ShiftedLine_returns_lagged_values (p s : Z) (xs : list float) :
  (1 <= p < float_max_int)%Z ->
  (0 <= s < ssize_max)%Z ->
  exists self outs,
    ShiftedLine_init p s = Ok self /\
    smma_outputs (SMMAIndicator_init p) xs = Ok outs /\
    shifted_outputs self xs
    = Ok (map (lagged_pair (Z.to_nat s) (map fst outs))
              (seq 0 (List.length xs))).
Proof.
  intros Hp Hs.
  destruct (ATR1_Totals.smma_outputs_ok xs (SMMAIndicator_init p) Hp)
    as [outs Hout].
  unfold ShiftedLine_init, deque_init.
  destruct (Z.ltb_spec ssize_max (s + 1)) as [Hbig|_]; [lia |].
  destruct (Z.ltb_spec (s + 1) (- ssize_max - 1)) as [Hneg|_];
    [unfold ssize_max in *; lia |].
  destruct (Z.ltb_spec (s + 1) 0) as [Hneg|_]; [lia |].
  simpl. eexists _, outs. split; [reflexivity |]. split; [exact Hout |].
  apply (ATR1_Lag.lagged_run xs _ [] outs (Z.to_nat s)).
  - simpl. lia.
  - reflexivity.
  - split; reflexivity.
  - exact Hout.
Qed.

Lemma ShiftedLine_returns_lagged_values_witness :
  exists self outs,
    ShiftedLine_init 5 3 = Ok self /\
    smma_outputs (SMMAIndicator_init 5) [10; 20; 30; 40; 50]%float = Ok outs /\
    shifted_outputs self [10; 20; 30; 40; 50]%float
    = Ok (map (lagged_pair (Z.to_nat 3) (map fst outs)) (seq 0 5)).
Proof.
  apply (ShiftedLine_returns_lagged_values 5 3 [10; 20; 30; 40; 50]%float).
  - vm_compute. split; [discriminate | reflexivity].
  - vm_compute. split; [discriminate | reflexivity].
Defined.

(** X2: a line built with shift -1, which the constructor accepts, cannot
    be used: its buffer has capacity 0, and the first call of [Update]
    raises IndexError on [self.buf[0]], whatever the period and the
    price. *)
Theorem negative_shift_raises_on_first_update
    (p : Z) (x : float) (rest : list float) :
  after_updates p (-1) (x :: rest) = Raise IndexError.
Proof. reflexivity. Qed.

(** X3: a line built with period 0, which the constructor accepts, takes
    its first price and raises ZeroDivisionError on the second update. *)
Theorem zero_period_raises_on_second_update
    (s : Z) (x y : float) (rest : list float) :
  (0 <= s < ssize_max)%Z ->
  (exists self, after_updates 0 s [x] = Ok self) /\
  after_updates 0 s (x :: y :: rest) = Raise ZeroDivisionError.
Proof.
  intros Hs. unfold after_updates, ShiftedLine_init, deque_init.
  destruct (Z.ltb_spec ssize_max (s + 1)) as [Hbig|_]; [lia |].
  destruct (Z.ltb_spec (s + 1) (- ssize_max - 1)) as [Hneg|_];
    [unfold ssize_max in *; lia |].
  destruct (Z.ltb_spec (s + 1) 0) as [Hneg|_]; [lia |].
  cbn [bind orb].
  assert (Hfirst : exists self1 out,
             ShiftedLine_Update
               {| smma := SMMAIndicator_init 0;
                  buf := {| items := []; maxlen := s + 1 |};
                  shift := s |} x = Ok (self1, out) /\
             current (smma self1) = Some x /\ length (smma self1) = 0%Z).
  { destruct (s + 1)%Z as [|m|m] eqn:Hm; try lia.
    unfold ShiftedLine_Update, deque_append, len. simpl.
    destruct (Pos.eqb 1 m); simpl;
      eexists _, _; (split; [reflexivity |]); split; reflexivity. }
  destruct Hfirst as [self1 [out [HU [Hc Hl]]]].
  split.
  - exists self1. cbn [update_all]. rewrite HU. reflexivity.
  - cbn [update_all]. rewrite HU. cbn [bind].
    unfold ShiftedLine_Update, SMMA_Update. rewrite Hc, Hl. reflexivity.
Qed.

Lemma zero_period_raises_on_second_update_witness :
  after_updates 0 3 [1; 2; 3]%float = Raise ZeroDivisionError.
Proof.
  apply (zero_period_raises_on_second_update 3 1 2 [3]%float).
  vm_compute. split; [discriminate | reflexivity].
Defined.

End Lagged_Output.

(** ** More on the crossover detector of ATR1 *)

Section Detector_Runs.
Import ATR1 ATR1_Runs.

(** X4: once the detector has fired, it returns false on every bar for as
    long as the three lines stay in bullish order, wherever the price
    goes: it stays in ABOVE_lips. *)
Theorem silent_while_lines_stay_bullish (bars : list tick) :
  Forall (fun tk => bullish_order tk = true) bars ->
  feed_all {| state := ABOVE_lips |} bars
  = Ok ({| state := ABOVE_lips |}, repeat false (List.length bars)).
Proof.
  induction bars as [|tk rest IH]; intros H.
  - reflexivity.
  - inversion H as [|? ? Htk Hrest]; subst.
    unfold bullish_order in Htk.
    destruct (lines3 tk) as [[[j t] l]|] eqn:E; [| discriminate].
    cbn [feed_all].
    rewrite (ATR1_Crossover.feed_present _ tk j t l E).
    cbn [state]. rewrite (ATR1_Silence.step_open_mouth _ j t l Htk).
    cbn [bind fst snd]. rewrite (IH Hrest). reflexivity.
Qed.

Lemma silent_while_lines_stay_bullish_witness :
  feed_all {| state := ABOVE_lips |} [bullish_bar; sideways_bar; bullish_bar]
  = Ok ({| state := ABOVE_lips |}, [false; false; false]).
Proof.
  apply (silent_while_lines_stay_bullish
           [bullish_bar; sideways_bar; bullish_bar]).
  repeat constructor.
Defined.

(** X5: a freshly constructed detector returns false on every bar until
    the first bar with the price below all three lines and the lines in
    bearish order; until then it stays in its initial state, however
    bullish the bars are. *)
Theorem fresh_detector_silent_before_first_reset (bars : list tick) :
  Forall (fun tk => lines3 tk <> None /\ below_and_bearish tk = false) bars ->
  feed_all BelowToLipsCrossover_init bars
  = Ok (BelowToLipsCrossover_init, repeat false (List.length bars)).
Proof.
  induction bars as [|tk rest IH]; intros H.
  - reflexivity.
  - inversion H as [|? ? [Hpres Hno] Hrest]; subst.
    destruct (lines3 tk) as [[[j t] l]|] eqn:E; [| contradiction].
    unfold below_and_bearish in Hno. rewrite E in Hno.
    cbn [feed_all].
    rewrite (ATR1_Crossover.feed_present _ tk j t l E).
    cbn [state BelowToLipsCrossover_init].
    rewrite (ATR1_Silence.step_unknown _ j t l Hno).
    cbn [bind fst snd].
    change {| state := unknown |} with BelowToLipsCrossover_init.
    rewrite (IH Hrest). reflexivity.
Qed.

Lemma fresh_detector_silent_before_first_reset_witness :
  feed_all BelowToLipsCrossover_init [bullish_bar; mouth_shut_bar; bullish_bar]
  = Ok (BelowToLipsCrossover_init, [false; false; false]).
Proof.
  apply (fresh_detector_silent_before_first_reset
           [bullish_bar; mouth_shut_bar; bullish_bar]).
  repeat constructor; discriminate.
Defined.

(** X6: when one of the three shifted line values is still None (its
    buffer is not full), [update_state] never returns true: it raises
    TypeError whenever the lips or the teeth value is the missing one,
    and with only the jaw value missing it raises TypeError or returns
    false. *)
Theorem missing_line_value_never_fires
    (self : BelowToLipsCrossover) (tk : tick) :
  lines3 tk = None ->
  (feed self tk = Raise TypeError \/
   exists self', feed self tk = Ok (self', false)) /\
  (fst (lips tk) = None \/ fst (teeth tk) = None ->
   feed self tk = Raise TypeError).
Proof.
  destruct tk as [p [j0 pj] [t0 pt] [l0 pl]], self as [s].
  unfold lines3, feed, update_state, py_gt, py_and, py_lt, bind, fgt, flt;
    simpl.
  destruct l0 as [l|], t0 as [t|], j0 as [j|]; intros H; try discriminate.
  - split.
    + destruct (PrimFloat.ltb p l), (PrimFloat.ltb p t),
        (PrimFloat.ltb l t), (PrimFloat.ltb t l), (PrimFloat.ltb l p), s;
        simpl; auto; right; eexists; reflexivity.
    + intros [Hn | Hn]; discriminate.
  - split; [left |]; destruct (PrimFloat.ltb p l); reflexivity.
  - split; [left |]; destruct (PrimFloat.ltb p l); reflexivity.
  - split; [left |]; reflexivity.
  - split; [left |]; reflexivity.
  - split; [left |]; reflexivity.
  - split; [left |]; reflexivity.
Qed.

Lemma missing_line_value_never_fires_witness :
  feed {| state := BELOW_ALL |}
       {| price := 10; jaw := (Some 7%float, None);
          teeth := (None, None); lips := (Some 9%float, None) |}
  = Raise TypeError.
Proof.
  apply (missing_line_value_never_fires {| state := BELOW_ALL |}
           {| price := 10; jaw := (Some 7%float, None);
              teeth := (None, None); lips := (Some 9%float, None) |}).
  - reflexivity.
  - right. reflexivity.
Defined.

End Detector_Runs.

(** ** More on the Williams2 engine *)

Module Williams2_More.
Import Williams2 Williams2_Runs.

Section WithNumpy.

Variable np : Numpy.

(** A bar that arrives while [hl2s] is still short is only recorded. *)
Lemma OnData_warm_up s bar :
  (len (hl2s s) + 1 < min_len (cfg s))%Z ->
  OnData np s (Some bar)
  = Ok (Skipped (set_hl2s (hl2s s ++ [((High bar + Low bar) / 2)%float]) s)).
Proof.
  intros H. unfold OnData, update_indicators.
  destruct (Z.ltb_spec (len (hl2s s ++ [((High bar + Low bar) / 2)%float]))
                       (min_len (cfg s))) as [_|Hge].
  - reflexivity.
  - unfold len in *. rewrite length_app in Hge. simpl in Hge. lia.
Qed.

End WithNumpy.

End Williams2_More.

Section Warm_Up.
Import Williams2 Williams2_Runs.

Variable np : Numpy.

(** X7: while [hl2s] holds fewer than max(jawLength, teethLength,
    lipsLength) + 1 values, the handler only records the bar's hl2: the
    three smoothers are not updated with it, no decision is taken, and the
    cooldown counter is not decremented. After [Initialize], which leaves
    [hl2s] empty, this discards the first max(...) bars of the stream
    whatever the length of the history. *)
Theorem warm_up_bars_only_recorded (s : Algo) (bars : list TradeBar) :
  (len (hl2s s) + len bars < min_len (cfg s))%Z ->
  exists s',
    run np s (map Some bars) = Ok s' /\
    position s' = position s /\
    jaw s' = jaw s /\ teeth s' = teeth s /\ lips s' = lips s /\
    lips_list s' = lips_list s /\ teeth_list s' = teeth_list s /\
    len (hl2s s') = (len (hl2s s) + len bars)%Z.
Proof.
  revert s. induction bars as [|bar rest IH]; intros s H.
  - exists s. unfold len. simpl. repeat split; try reflexivity. lia.
  - assert (Hl : len (bar :: rest) = (1 + len rest)%Z)
      by (unfold len; cbn [List.length]; lia).
    assert (0 <= len rest)%Z by (unfold len; lia).
    rewrite Hl in H.
    cbn [map run]. rewrite (Williams2_More.OnData_warm_up np s bar) by lia.
    cbn [bind state_of].
    destruct (IH (set_hl2s (hl2s s ++ [((High bar + Low bar) / 2)%float]) s))
      as [s' [HR [P [J [T [L [LL [TL HL]]]]]]]].
    { simpl. unfold len in *. rewrite length_app. simpl. lia. }
    exists s'. split; [exact HR |].
    simpl in P, J, T, L, LL, TL.
    cbn [hl2s set_hl2s set_series] in HL.
    repeat split; try assumption.
    rewrite HL, Hl. unfold len. rewrite length_app.
    cbn [List.length]. lia.
Qed.

End Warm_Up.

Lemma warm_up_bars_only_recorded_witness :
  exists s',
    Williams2.run Samples.plain_numpy Samples.fresh
                  (map Some (Samples.rising 120 20)) = Ok s' /\
    Williams2.position s' = Williams2.position Samples.fresh /\
    Williams2.jaw s' = Williams2.jaw Samples.fresh /\
    Williams2.teeth s' = Williams2.teeth Samples.fresh /\
    Williams2.lips s' = Williams2.lips Samples.fresh /\
    Williams2.lips_list s' = Williams2.lips_list Samples.fresh /\
    Williams2.teeth_list s' = Williams2.teeth_list Samples.fresh /\
    len (Williams2.hl2s s')
    = (len (Williams2.hl2s Samples.fresh) + len (Samples.rising 120 20))%Z.
Proof.
  apply (warm_up_bars_only_recorded Samples.plain_numpy Samples.fresh
           (Samples.rising 120 20)).
  vm_compute. reflexivity.
Defined.

(** ** The slope trend test *)

Module Trend_Facts.
Import Williams2.

Lemma ema_loop_floats alpha (rest : list float) : forall last,
  exists out,
    ema_loop alpha (PFloat last) (map PFloat rest) = Ok (map PFloat out) /\
    List.length out = List.length rest.
Proof.
  induction rest as [|x rest IH]; intros last.
  - exists []. split; reflexivity.
  - cbn [map ema_loop as_float bind].
    destruct (IH (alpha * x + (1 - alpha) * last)%float) as [out [HE HL]].
    rewrite HE. cbn [bind].
    exists ((alpha * x + (1 - alpha) * last)%float :: out).
    split; [reflexivity | simpl; rewrite HL; reflexivity].
Qed.

Lemma alpha_of_ok period :
  period <> (-1)%Z ->
  exists a, alpha_of period = Ok a.
Proof.
  intros H. unfold alpha_of.
  destruct (Z.eqb_spec (period + 1) 0) as [H0|_]; [lia |].
  eexists. reflexivity.
Qed.

(** Beyond the range of floats the true division still returns: the
    quotient 2/(2^1024 + 1) is the float 2^-1023. *)
Lemma alpha_of_beyond_float_range :
  alpha_of (2 ^ 1024) = Ok 1.1125369292536007e-308%float /\
  alpha_of 5 = Ok (2 / 6)%float /\ alpha_of 20 = Ok (2 / 21)%float.
Proof. vm_compute. repeat split. Qed.

Lemma ema_floats (fs : list float) period :
  period <> (-1)%Z ->
  fs <> [] ->
  exists out, ema (map PFloat fs) period = Ok (map PFloat out) /\ out <> [].
Proof.
  intros Hp Hne. unfold ema.
  destruct (alpha_of_ok period Hp) as [a Ha]. rewrite Ha. cbn [bind].
  destruct fs as [|f0 rest]; [contradiction |].
  cbn [map]. destruct (ema_loop_floats a rest f0) as [out [HE _]].
  rewrite HE. cbn [bind]. exists (f0 :: out). split; [reflexivity |].
  discriminate.
Qed.

Lemma item_first_floats (fs : list float) :
  fs <> [] -> exists v, item_first (map PFloat fs) = Ok v.
Proof.
  destruct fs as [|f rest]; [contradiction |]. intros _.
  exists f. reflexivity.
Qed.

Lemma item_last_floats (fs : list float) :
  fs <> [] -> exists v, item_last (map PFloat fs) = Ok v.
Proof.
  intros Hne. unfold item_last, last_opt.
  rewrite <- map_rev.
  destruct (rev fs) as [|f rest] eqn:E.
  - apply (f_equal (@rev float)) in E. rewrite rev_involutive in E.
    contradiction.
  - exists f. reflexivity.
Qed.

Lemma slice_last_map {A B} (f : A -> B) k (l : list A) :
  slice_last k (map f l) = map f (slice_last k l).
Proof.
  unfold slice_last. rewrite length_map. apply skipn_map.
Qed.

Lemma slice_last_nonempty {A} k (l : list A) :
  (1 <= k)%Z -> l <> [] -> slice_last k l <> [].
Proof.
  intros Hk Hne. unfold slice_last.
  destruct (Z.ltb_spec 0 k) as [_|Hle]; [| lia].
  intros Hnil. apply skipn_all_iff in Hnil.
  destruct l as [|x l]; [contradiction |]. simpl List.length in *. lia.
Qed.

Lemma slice_last_short {A} k (l : list A) :
  (len l <= k)%Z -> (1 <= k)%Z -> slice_last k l = l.
Proof.
  intros Hl Hk. unfold slice_last, len in *.
  destruct (Z.ltb_spec 0 k) as [_|Hle]; [| lia].
  replace (Z.to_nat (Z.max 0 (Z.of_nat (List.length l) - k))) with O by lia.
  reflexivity.
Qed.

Lemma slice_last_len {A} k (l : list A) :
  (1 <= k)%Z -> len (slice_last k l) = Z.min k (len l).
Proof.
  intros Hk. unfold slice_last, len.
  destruct (Z.ltb_spec 0 k) as [_|Hle]; [| lia].
  rewrite length_skipn. lia.
Qed.

(** On a non-empty series of floats the per-series step succeeds. *)
Lemma ema_with_slope_floats (fs : list float) short long :
  short <> (-1)%Z ->
  (1 <= long)%Z ->
  fs <> [] ->
  exists r, ema_with_slope (map PFloat fs) short long = Ok r.
Proof.
  intros Hs Hl Hne. unfold ema_with_slope.
  rewrite slice_last_map.
  assert (Hw : slice_last long fs <> [])
    by (apply slice_last_nonempty; [lia | exact Hne]).
  destruct (ema_floats (slice_last long fs) short Hs Hw) as [s1 [E1 N1]].
  destruct (ema_floats (slice_last long fs) long ltac:(lia) Hw)
    as [l1 [E2 N2]].
  rewrite E1, E2. cbn [bind].
  destruct (item_last_floats s1 N1) as [a Ha].
  destruct (item_first_floats s1 N1) as [b Hb].
  destruct (item_last_floats l1 N2) as [c Hc].
  rewrite Ha, Hb, Hc. cbn [bind]. eexists. reflexivity.
Qed.

(** A window that starts with the indicator object makes it raise. *)
Lemma ema_with_slope_object (ls : list pyval) :
  (len (PObj :: ls) <= 20)%Z ->
  ema_with_slope (PObj :: ls) 5 20 = Raise TypeError.
Proof.
  intros Hl. unfold ema_with_slope.
  rewrite (slice_last_short 20 (PObj :: ls) Hl) by lia.
  unfold ema.
  destruct (alpha_of 5) as [a5|] eqn:E5; [| discriminate E5].
  destruct (alpha_of 20) as [a20|] eqn:E20; [| discriminate E20].
  cbn [bind].
  destruct ls as [|x r].
  - reflexivity.
  - cbn [ema_loop]. destruct x; reflexivity.
Qed.

End Trend_Facts.

Section Trend.
Import Williams2.

Variable np : Numpy.

(** X8: [is_trending_ema] answers False, without computing anything and
    whatever the series hold, when the first series has fewer than [long]
    values; on three series of floats, the second and the third non-empty,
    with [long >= 1] and [short] other than -1, it returns a boolean and
    never raises. *)
Theorem is_trending_ema_on_floats
    (f1 f2 f3 : list float) (short long : Z) (threshold : float) :
  (forall ts1 ts2 ts3 : list pyval,
      (len ts1 < long)%Z ->
      is_trending_ema ts1 ts2 ts3 short long threshold = Ok false) /\
  (short <> (-1)%Z -> (1 <= long)%Z -> f2 <> [] -> f3 <> [] ->
   exists b,
     is_trending_ema (map PFloat f1) (map PFloat f2) (map PFloat f3)
                     short long threshold = Ok b).
Proof.
  split.
  - intros ts1 ts2 ts3 Hlt. unfold is_trending_ema.
    destruct (Z.ltb_spec (len ts1) long) as [_|Hge]; [reflexivity | lia].
  - intros Hs Hl H2 H3. unfold is_trending_ema.
    replace (len (map PFloat f1)) with (len f1)
      by (unfold len; rewrite length_map; reflexivity).
    destruct (Z.ltb_spec (len f1) long) as [Hlt|Hge];
      [eexists; reflexivity |].
    assert (H1 : f1 <> []).
    { intros ->. unfold len in Hge. simpl in Hge. lia. }
    destruct (Trend_Facts.ema_with_slope_floats f1 short long Hs Hl H1)
      as [[t1 s1] E1].
    destruct (Trend_Facts.ema_with_slope_floats f2 short long Hs Hl H2)
      as [[t2 s2] E2].
    destruct (Trend_Facts.ema_with_slope_floats f3 short long Hs Hl H3)
      as [[t3 s3] E3].
    rewrite E1, E2, E3. cbn [bind]. eexists. reflexivity.
Qed.

(** X9: with the slope trend test selected, and at least 20 values in
    [hl2s], [compute_trend_flag] raises TypeError as long as [lips_list]
    still begins, within its last 20 entries, with the indicator object
    [Initialize] appends to it: [check_entry] raises with it, so a flat
    engine cannot complete such a bar. *)
Theorem trend_check_raises_on_short_line_history
    (s : Algo) (ls : list pyval) (bar : TradeBar) (hl2 j t l : float) :
  check_Hurst_exponent (cfg s) = false ->
  (20 <= len (hl2s s))%Z ->
  lips_list s = PObj :: ls ->
  (len ls < 20)%Z ->
  compute_trend_flag np s = Raise TypeError /\
  check_entry np s bar hl2 j t l = Raise TypeError.
Proof.
  intros Hmode Hlen Hlist Hshort.
  assert (Htrend : compute_trend_flag np s = Raise TypeError).
  { unfold compute_trend_flag. rewrite Hmode. unfold is_trending_ema.
    replace (len (map PFloat (slice_last 20 (hl2s s)))) with 20%Z.
    2: { unfold len. rewrite length_map.
         change (Z.of_nat (List.length (slice_last 20 (hl2s s))))
           with (len (slice_last 20 (hl2s s))).
         rewrite Trend_Facts.slice_last_len by lia. lia. }
    cbn [Z.ltb Z.compare Pos.compare Pos.compare_cont].
    assert (Hne : slice_last 20 (hl2s s) <> []).
    { apply Trend_Facts.slice_last_nonempty; [lia |].
      intros E. rewrite E in Hlen. unfold len in Hlen. simpl in Hlen. lia. }
    destruct (Trend_Facts.ema_with_slope_floats (slice_last 20 (hl2s s))
                5 20) as [[t1 s1] E1]; try exact Hne; try lia.
    rewrite E1. cbn [bind].
    rewrite Hlist.
    assert (Hl20 : (len (PObj :: ls) <= 20)%Z)
      by (unfold len in *; cbn [List.length]; lia).
    rewrite (Trend_Facts.slice_last_short 20 (PObj :: ls) Hl20) by lia.
    rewrite (Trend_Facts.ema_with_slope_object ls Hl20). reflexivity. }
  split; [exact Htrend |].
  unfold check_entry. rewrite Htrend. reflexivity.
Qed.

End Trend.

Lemma is_trending_ema_on_floats_witness :
  Williams2.is_trending_ema
    (map Williams2.PFloat [1; 2]%float) [Williams2.PObj] []
    5 20 0.01%float = Ok false
  /\ exists b,
       Williams2.is_trending_ema
         (map Williams2.PFloat
              (map float_cast (Williams2.arange_from 100 20)))
         (map Williams2.PFloat [1; 2]%float)
         (map Williams2.PFloat [3]%float) (2 ^ 1024) 20 0.01%float = Ok b.
Proof.
  split.
  - apply (proj1 (is_trending_ema_on_floats [] [] [] 5 20 0.01%float)).
    vm_compute. reflexivity.
  - apply (proj2 (is_trending_ema_on_floats
                    (map float_cast (Williams2.arange_from 100 20))
                    [1; 2]%float [3]%float (2 ^ 1024) 20 0.01%float)).
    + discriminate.
    + lia.
    + discriminate.
    + discriminate.
Defined.

Lemma trend_check_raises_on_short_line_history_witness :
  Williams2.compute_trend_flag Samples.plain_numpy
    Samples_More.short_history_state = Raise TypeError /\
  Williams2.check_entry Samples.plain_numpy Samples_More.short_history_state
    (Samples.level_bar 140 140) 140 1 1 1 = Raise TypeError.
Proof.
  assert (H1 : Williams2.check_Hurst_exponent
                 (Williams2.cfg Samples_More.short_history_state) = false)
    by (vm_compute; reflexivity).
  assert (H2 : (20 <= len (Williams2.hl2s Samples_More.short_history_state))%Z)
    by (vm_compute; discriminate).
  assert (H3 : Williams2.lips_list Samples_More.short_history_state
               = Williams2.PObj
                 :: tl (Williams2.lips_list Samples_More.short_history_state))
    by (vm_compute; reflexivity).
  assert (H4 : (len (tl (Williams2.lips_list
                           Samples_More.short_history_state)) < 20)%Z)
    by (vm_compute; reflexivity).
  exact (trend_check_raises_on_short_line_history Samples.plain_numpy
           _ _ (Samples.level_bar 140 140) 140 1 1 1 H1 H2 H3 H4).
Defined.

(** ** Invariants of the Williams2 handler *)

Section Run_Invariants.
Import Williams2 Williams2_Runs.

Variable np : Numpy.

(** X10: in every state a run of the handler reaches from [Initialize],
    the position attributes agree (the engine is invested exactly when an
    entry price is recorded, and exactly when a running high is recorded),
    the parameters are those given to [Initialize], and the startup flag
    is still set. *)
Theorem position_attributes_agree
    (p : Params) (history : list TradeBar)
    (stream : list (option TradeBar)) (s0 s : Algo) :
  Initialize p history = Ok s0 ->
  run np s0 stream = Ok s ->
  position_consistent s = true /\ cfg s = p /\ startup_check s = true.
Proof.
  intros Hinit Hrun. unfold Initialize in Hinit.
  destruct (warm_up (initial_state p) history) as [s1|] eqn:HW;
    simpl in Hinit; [| discriminate].
  injection Hinit as <-.
  destruct (Williams2_Invariants.warm_up_frame history _ _ HW)
    as [C1 [S1 [P1 _]]].
  unfold position in P1. simpl in P1. injection P1 as I1 E1 Hi1 _ _.
  assert (Hc0 : position_consistent
                  (set_prev (current (jaw s1)) (current (teeth s1))
                     (current (lips s1)) s1) = true).
  { unfold position_consistent. simpl. rewrite I1, E1, Hi1. reflexivity. }
  destruct (Williams2_Invariants.run_consistent np stream _ s Hc0 Hrun)
    as [Hc [C S]].
  simpl in C, S, C1, S1. repeat split; try assumption; congruence.
Qed.

End Run_Invariants.

Lemma position_attributes_agree_witness :
  Williams2_Runs.position_consistent (Samples.state_after 26) = true /\
  Williams2.cfg (Samples.state_after 26) = Williams2.source_params /\
  Williams2.startup_check (Samples.state_after 26) = true.
Proof.
  assert (H1 : Williams2.Initialize Williams2.source_params Samples.history
               = Ok (Samples.state_after 0))
    by (vm_compute; reflexivity).
  assert (H2 : Williams2.run Samples.plain_numpy (Samples.state_after 0)
                 (firstn 26 Samples.stream)
               = Ok (Samples.state_after 26))
    by (vm_compute; reflexivity).
  exact (position_attributes_agree Samples.plain_numpy _ _ _ _ _ H1 H2).
Defined.

(** ** The two Hurst estimators *)

Module Hurst_More.
Import Williams2.

Lemma arange_from_length k : forall lo,
  List.length (arange_from lo k) = k.
Proof. induction k as [|k IH]; intros lo; simpl; [| rewrite IH]; reflexivity. Qed.

Lemma arange_length lo hi :
  List.length (arange lo hi) = Z.to_nat (hi - lo).
Proof. apply arange_from_length. Qed.

Lemma map2_length_le {A B C} (f : A -> B -> C) : forall (a : list A) (b : list B),
  (List.length (map2 f a b) <= List.length a)%nat.
Proof.
  induction a as [|x a IH]; intros [|y b]; simpl; try lia.
  specialize (IH b). lia.
Qed.

Lemma mask_sum_le (lags tau : list float) :
  (mask_sum (hurst_mask lags tau) <= len lags)%Z.
Proof.
  unfold mask_sum, hurst_mask, len.
  pose proof (filter_length_le (fun b : bool => b)
                (map2 (fun l t => fgt l 0 && fgt t 0) lags tau)).
  pose proof (map2_length_le (fun l t => fgt l 0 && fgt t 0) lags tau).
  lia.
Qed.

End Hurst_More.

Section Hurst_Bounds.

Variable np : Numpy.

(** X11: in [hurst_exponent] of Williams2/main.py, on a series of at least
    ten values the lag bound is always the requested bound (half the length
    by default) capped at the length minus two, so the branch that shrinks
    it to a third of the length is never taken; and an explicit bound of at
    most 3 leaves fewer than two lags, so the neutral value 0.5 is
    returned. *)
Theorem hurst_lag_bound_never_shrunk
    (ts : list float) (max_lag : option Z) :
  (10 <= len ts)%Z ->
  Williams2.hurst_max_lag (len ts) max_lag
  = Some (Z.min (match max_lag with
                 | None => len ts / 2
                 | Some m => m
                 end) (len ts - 2))
  /\ (forall m, max_lag = Some m -> (m <= 3)%Z ->
        Williams2.hurst_exponent np ts max_lag = Ok 0.5%float).
Proof.
  intros Hn.
  assert (Hbound :
    Williams2.hurst_max_lag (len ts) max_lag
    = Some (Z.min (match max_lag with
                   | None => len ts / 2
                   | Some m => m
                   end) (len ts - 2))).
  { unfold Williams2.hurst_max_lag.
    destruct (Z.ltb_spec (len ts) 10) as [Hlt|_]; [lia |].
    cbv zeta.
    assert (Hhalf : (5 <= len ts / 2)%Z)
      by (apply Z.div_le_lower_bound; lia).
    replace (match max_lag with
             | Some m => m
             | None => Z.max 2 (len ts / 2)
             end)
      with (match max_lag with
            | None => (len ts / 2)%Z
            | Some m => m
            end)
      by (destruct max_lag; [reflexivity | lia]).
    match goal with
    | |- context [(len ts <? ?b)%Z] =>
        destruct (Z.ltb_spec (len ts) b) as [Hlt|_]; [lia | reflexivity]
    end. }
  split; [exact Hbound |].
  intros m -> Hm. unfold Williams2.hurst_exponent. rewrite Hbound.
  cbv zeta.
  match goal with
  | |- context [Williams2.mask_sum (Williams2.hurst_mask ?l ?t)] =>
      pose proof (Hurst_More.mask_sum_le l t) as Hle;
      destruct (Z.ltb_spec (Williams2.mask_sum (Williams2.hurst_mask l t)) 2)
        as [_|Hge]; [reflexivity |]
  end.
  exfalso. unfold len in Hle, Hge.
  rewrite length_map, Hurst_More.arange_length in Hle. lia.
Qed.

(** X12: [hurst_exponent] of WilliamsAlligator/main.py, called without a
    lag bound as [is_trending] calls it, has no lag to regress on when the
    series has four or five values, and the fit raises [TypeError]; from
    six values on it returns the fitted slope. *)
Theorem hurst_fit_needs_six_values (ts : list float) (threshold : float) :
  ((4 <= len ts <= 5)%Z ->
     WilliamsAlligator.hurst_exponent np ts None = Raise TypeError /\
     WilliamsAlligator.is_trending np ts threshold = Raise TypeError)
  /\ ((6 <= len ts)%Z ->
        exists H,
          WilliamsAlligator.hurst_exponent np ts None = Ok H /\
          WilliamsAlligator.is_trending np ts threshold
          = Ok (fgt H threshold)).
Proof.
  split.
  - intros Hn.
    assert (HH : WilliamsAlligator.hurst_exponent np ts None
                 = Raise TypeError).
    { unfold WilliamsAlligator.hurst_exponent. cbv zeta.
      assert (Hd : (len ts / 2 = 2)%Z).
      { assert (Hc : len ts = 4%Z \/ len ts = 5%Z) by lia.
        destruct Hc as [-> | ->]; reflexivity. }
      rewrite Hd. change (Z.max 2 2) with 2%Z.
      destruct (Z.ltb_spec (len ts) (2 + 2)) as [Hlt|_]; [lia |].
      rewrite Z.min_l by lia. reflexivity. }
    split; [exact HH |].
    unfold WilliamsAlligator.is_trending. rewrite HH. reflexivity.
  - intros Hn.
    assert (HH : exists H,
               WilliamsAlligator.hurst_exponent np ts None = Ok H).
    { unfold WilliamsAlligator.hurst_exponent. cbv zeta.
      assert (Hhalf : (3 <= len ts / 2)%Z)
        by (apply Z.div_le_lower_bound; lia).
      assert (Hup : (len ts / 2 <= len ts - 1)%Z).
      { assert (len ts / 2 < len ts)%Z
          by (apply Z.div_lt_upper_bound; lia).
        lia. }
      assert (Hup2 : (len ts / 2 <= len ts - 2)%Z)
        by (apply Z.div_le_upper_bound; lia).
      rewrite Z.max_r by lia.
      destruct (Z.ltb_spec (len ts) (len ts / 2 + 2)) as [Hlt|_]; [lia |].
      rewrite Z.min_l by lia.
      rewrite Hurst_Facts.polyfit_slope_ok.
      - eexists; reflexivity.
      - intros Hnil. apply (f_equal (@List.length float)) in Hnil.
        rewrite !length_map, Hurst_More.arange_length in Hnil.
        simpl in Hnil. lia.
      - rewrite !length_map. reflexivity. }
    destruct HH as [H HH]. exists H. split; [exact HH |].
    unfold WilliamsAlligator.is_trending. rewrite HH. reflexivity.
Qed.

End Hurst_Bounds.

Lemma hurst_lag_bound_never_shrunk_witness :
  Williams2.hurst_max_lag 12 (Some 30%Z) = Some 10%Z /\
  Williams2.hurst_exponent Samples.plain_numpy
    (map float_cast (Williams2.arange_from 1 12)) (Some 3%Z) = Ok 0.5%float.
Proof.
  assert (Hn : (10 <= len (map float_cast (Williams2.arange_from 1 12)))%Z)
    by (vm_compute; discriminate).
  split.
  - exact (proj1 (hurst_lag_bound_never_shrunk Samples.plain_numpy
                    _ (Some 30%Z) Hn)).
  - apply (proj2 (hurst_lag_bound_never_shrunk Samples.plain_numpy
                    _ (Some 3%Z) Hn) 3%Z); [reflexivity | lia].
Defined.

Lemma hurst_fit_needs_six_values_witness :
  WilliamsAlligator.is_trending Samples.plain_numpy
    (map float_cast (Williams2.arange_from 1 5)) 0.5%float = Raise TypeError
  /\ exists H,
       WilliamsAlligator.hurst_exponent Samples.plain_numpy
         (map float_cast (Williams2.arange_from 1 6)) None = Ok H.
Proof.
  split.
  - apply (proj1 (hurst_fit_needs_six_values Samples.plain_numpy
                    (map float_cast (Williams2.arange_from 1 5)) 0.5%float)).
    vm_compute. split; discriminate.
  - destruct (proj2 (hurst_fit_needs_six_values Samples.plain_numpy
                       (map float_cast (Williams2.arange_from 1 6))
                       0.5%float)) as [H [HH _]].
    + vm_compute. discriminate.
    + exists H. exact HH.
Defined.

(** ** The cool-down counter of the ATR stop-loss variant *)

Module AlligatorATR_More.
Import AlligatorATR AlligatorATR_Runs.

Lemma update_performance_days a bar a' :
  update_performance a bar = Ok a' ->
  cooldown_days a' = cooldown_days a.
Proof.
  unfold update_performance. intros H.
  destruct (initial_symbol_price a) as [p0|].
  - destruct (PrimFloat.eqb p0 0); [discriminate |].
    injection H as <-. reflexivity.
  - injection H as <-. reflexivity.
Qed.

Lemma check_entry_flat a bar j t l a' :
  invested a = false ->
  check_entry a bar j t l = Ok a' ->
  cooldown_days a' = cooldown_days a /\
  ((invested a' = false /\ log a' = log a /\
    cooldown_days_remaining a' = cooldown_days_remaining a)
   \/ (exists r, invested a' = true /\
         log a' = log a ++ [BUY r (Williams2.Close bar)] /\
         cooldown_days_remaining a' = cooldown_days a)).
Proof.
  unfold check_entry. intros Hinv H.
  destruct (len (hl2s a) <? 20)%Z; [injection H as <-; auto |].
  destruct (Williams2.is_trending_ema _ _ _ _ _ _) as [[|]|]; simpl in H;
    try discriminate.
  2: { injection H as <-. auto. }
  destruct (startup_check a).
  - rewrite Hinv in H. simpl in H. injection H as <-.
    unfold buy. rewrite Hinv. simpl. split; [reflexivity |].
    right. eexists. repeat split.
  - match type of H with
    | (if ?c then _ else _) = _ => destruct c
    end; injection H as <-; [| auto].
    unfold buy. rewrite Hinv. simpl. split; [reflexivity |].
    right. eexists. repeat split.
Qed.

Lemma check_exit_shape a bar atr j t l :
  let a' := check_exit a bar atr j t l in
  cooldown_days a' = cooldown_days a /\
  ((invested a' = invested a /\ log a' = log a /\
    cooldown_days_remaining a' = cooldown_days_remaining a)
   \/ (invested a' = false /\
       cooldown_days_remaining a' = cooldown_days a)).
Proof.
  unfold check_exit.
  destruct (entryPrice a); [| auto].
  repeat match goal with
         | |- context [if ?c then _ else _] => destruct c
         end; simpl; auto.
Qed.

(** One call of the handler on a flat engine whose counter is 0. *)
Lemma OnData_flat_idle a d a' :
  invested a = false -> cooldown_days_remaining a = 0%Z ->
  OnData a d = Ok a' ->
  cooldown_days a' = cooldown_days a /\
  ((invested a' = false /\ log a' = log a /\
    cooldown_days_remaining a' = 0%Z)
   \/ (exists r c, invested a' = true /\ log a' = log a ++ [BUY r c] /\
         cooldown_days_remaining a' = cooldown_days a)).
Proof.
  unfold OnData. intros Hinv Hcd H.
  destruct (bar_of d) as [bar|]; [| injection H as <-; auto].
  match type of H with
  | (if ?c then _ else _) = _ => destruct c
  end; [injection H as <-; auto |].
  destruct (Williams2.SMMA_Update (jaw a) _) as [[j1 jv]|]; simpl in H;
    [| discriminate].
  destruct (Williams2.SMMA_Update (teeth a) _) as [[t1 tv]|]; simpl in H;
    [| discriminate].
  destruct (Williams2.SMMA_Update (lips a) _) as [[l1 lv]|]; simpl in H;
    [| discriminate].
  match type of H with
  | context [update_performance ?x bar] =>
      destruct (update_performance x bar) as [a2|] eqn:HP; simpl in H;
      [| discriminate];
      destruct (AlligatorATR_Facts.atr_update_performance_frame x bar a2 HP)
        as [L2 [S2 [I2 C2]]];
      pose proof (update_performance_days x bar a2 HP) as D2
  end.
  simpl in L2, S2, I2, C2, D2. rewrite I2, Hinv in H.
  rewrite C2, Hcd in H. simpl in H.
  destruct (check_entry a2 bar jv tv lv) as [a3|] eqn:HE; simpl in H;
    [| discriminate].
  injection H as <-. simpl.
  assert (Hinv2 : invested a2 = false) by congruence.
  destruct (check_entry_flat a2 bar jv tv lv a3 Hinv2 HE)
    as [D3 [[I3 [L3 C3]] | [r [I3 [L3 C3]]]]].
  - split; [congruence |]. left. repeat split; congruence.
  - split; [congruence |]. right. exists r, (Williams2.Close bar).
    repeat split; congruence.
Qed.

Lemma OnData_days a d a' :
  OnData a d = Ok a' -> cooldown_days a' = cooldown_days a.
Proof.
  unfold OnData. intros H.
  destruct (bar_of d) as [bar|]; [| injection H as <-; auto].
  match type of H with
  | (if ?c then _ else _) = _ => destruct c
  end; [injection H as <-; auto |].
  destruct (Williams2.SMMA_Update (jaw a) _) as [[j1 jv]|]; simpl in H;
    [| discriminate].
  destruct (Williams2.SMMA_Update (teeth a) _) as [[t1 tv]|]; simpl in H;
    [| discriminate].
  destruct (Williams2.SMMA_Update (lips a) _) as [[l1 lv]|]; simpl in H;
    [| discriminate].
  match type of H with
  | context [update_performance ?x bar] =>
      destruct (update_performance x bar) as [a2|] eqn:HP; simpl in H;
      [| discriminate];
      pose proof (update_performance_days x bar a2 HP) as D2
  end.
  simpl in D2.
  destruct (invested a2) eqn:I2.
  - destruct (cooldown_days_remaining a2 =? 0)%Z; simpl in H;
      injection H as <-; simpl; [| exact D2].
    destruct (check_exit_shape a2 bar (atr_value d) jv tv lv) as [D3 _].
    congruence.
  - destruct (0 <? cooldown_days_remaining a2)%Z; simpl in H.
    + injection H as <-. simpl. exact D2.
    + destruct (check_entry a2 bar jv tv lv) as [a3|] eqn:HE; simpl in H;
        [| discriminate].
      injection H as <-. simpl.
      destruct (check_entry_flat a2 bar jv tv lv a3 I2 HE) as [D3 _].
      congruence.
Qed.

(** An open position with a non-zero counter survives any run. *)
Lemma run_frozen stream : forall a a',
  invested a = true -> cooldown_days_remaining a <> 0%Z ->
  run a stream = Ok a' ->
  invested a' = true /\ log a' = log a /\
  cooldown_days_remaining a' = cooldown_days_remaining a /\
  cooldown_days a' = cooldown_days a.
Proof.
  induction stream as [|d rest IH]; intros a a' Hinv Hcd H; simpl in H.
  - injection H as <-. auto.
  - destruct (OnData a d) as [a1|] eqn:HD; simpl in H; [| discriminate].
    destruct (AlligatorATR_Facts.cooldown_frozen_while_invested
                a d a1 Hinv Hcd HD) as [I1 [L1 C1]].
    pose proof (OnData_days a d a1 HD) as D1.
    assert (Hcd1 : cooldown_days_remaining a1 <> 0%Z) by congruence.
    destruct (IH a1 a' I1 Hcd1 H) as [I2 [L2 [C2 D2]]].
    repeat split; congruence.
Qed.

(** One call of the handler keeps the counter in step with the position. *)
Lemma OnData_counter a d a' :
  counter_follows_position a = true ->
  OnData a d = Ok a' ->
  counter_follows_position a' = true.
Proof.
  unfold counter_follows_position. intros HJ H.
  apply Z.eqb_eq in HJ. apply Z.eqb_eq.
  destruct (invested a) eqn:Hinv.
  - destruct (Z.eq_dec (cooldown_days_remaining a) 0) as [Hz|Hnz].
    + (* cooldown_days is 0: the counter is 0 in every later state *)
      revert H. unfold OnData.
      destruct (bar_of d) as [bar|];
        [| intros H; injection H as <-; rewrite Hinv; exact HJ].
      match goal with
      | |- (if ?c then _ else _) = _ -> _ => destruct c
      end; [intros H; injection H as <-; rewrite Hinv; exact HJ |].
      destruct (Williams2.SMMA_Update (jaw a) _) as [[j1 jv]|]; simpl;
        [| discriminate].
      destruct (Williams2.SMMA_Update (teeth a) _) as [[t1 tv]|]; simpl;
        [| discriminate].
      destruct (Williams2.SMMA_Update (lips a) _) as [[l1 lv]|]; simpl;
        [| discriminate].
      match goal with
      | |- context [update_performance ?x bar] =>
          destruct (update_performance x bar) as [a2|] eqn:HP; simpl;
          [| discriminate];
          destruct (AlligatorATR_Facts.atr_update_performance_frame
                      x bar a2 HP) as [L2 [S2 [I2 C2]]];
          pose proof (update_performance_days x bar a2 HP) as D2
      end.
      simpl in L2, S2, I2, C2, D2. rewrite I2, Hinv, C2, Hz. simpl.
      intros H. injection H as <-. simpl.
      destruct (check_exit_shape a2 bar (atr_value d) jv tv lv)
        as [D3 [[I3 [L3 C3]] | [I3 C3]]].
      * rewrite I3, I2, Hinv, C3, D3. congruence.
      * rewrite I3, C3. congruence.
    + destruct (AlligatorATR_Facts.cooldown_frozen_while_invested
                  a d a' Hinv Hnz H) as [I1 [L1 C1]].
      pose proof (OnData_days a d a' H) as D1.
      rewrite I1. congruence.
  - destruct (OnData_flat_idle a d a' Hinv HJ H)
      as [D1 [[I1 [L1 C1]] | [r [c [I1 [L1 C1]]]]]].
    + rewrite I1. exact C1.
    + rewrite I1. congruence.
Qed.

End AlligatorATR_More.

Section Cooldown_Counter.
Import AlligatorATR AlligatorATR_Runs.

(** X13: in the ATR stop-loss variant, with a non-zero [cooldown_days], a
    run that starts flat with the counter at 0 (as [Initialize] leaves the
    engine) logs at most one decision, a BUY: once bought, the counter
    holds [cooldown_days], is never counted down while invested, and the
    exit rules are never evaluated. *)
Theorem position_once_opened_never_closed
    (a a' : Algo) (stream : list Slice) :
  cooldown_days a <> 0%Z ->
  invested a = false -> cooldown_days_remaining a = 0%Z ->
  run a stream = Ok a' ->
  (invested a' = false /\ log a' = log a /\
   cooldown_days_remaining a' = 0%Z)
  \/ (exists r c, invested a' = true /\ log a' = log a ++ [BUY r c] /\
        cooldown_days_remaining a' = cooldown_days a).
Proof.
  revert a. induction stream as [|d rest IH]; intros a Hd Hinv Hcd H;
    simpl in H.
  - injection H as <-. auto.
  - destruct (OnData a d) as [a1|] eqn:HD; simpl in H; [| discriminate].
    destruct (AlligatorATR_More.OnData_flat_idle a d a1 Hinv Hcd HD)
      as [D1 [[I1 [L1 C1]] | [r [c [I1 [L1 C1]]]]]].
    + assert (Hd1 : cooldown_days a1 <> 0%Z) by congruence.
      destruct (IH a1 Hd1 I1 C1 H)
        as [[I2 [L2 C2]] | [r [c [I2 [L2 C2]]]]].
      * left. repeat split; congruence.
      * right. exists r, c. repeat split; congruence.
    + assert (Hnz : cooldown_days_remaining a1 <> 0%Z) by congruence.
      destruct (AlligatorATR_More.run_frozen rest a1 a' I1 Hnz H)
        as [I2 [L2 [C2 D2]]].
      right. exists r, c. repeat split; congruence.
Qed.

(** X14: the handler of the ATR stop-loss variant keeps the counter in
    step with the position: if the counter is [cooldown_days] while
    invested and 0 while flat, the same holds after any run, with
    [cooldown_days] unchanged. So the branch that counts the cool-down
    down while flat never finds a positive counter. *)
Theorem counter_in_step_with_position
    (a a' : Algo) (stream : list Slice) :
  counter_follows_position a = true ->
  run a stream = Ok a' ->
  counter_follows_position a' = true /\
  cooldown_days a' = cooldown_days a /\
  (invested a' = false -> cooldown_days_remaining a' = 0%Z).
Proof.
  revert a. induction stream as [|d rest IH]; intros a HJ H; simpl in H.
  - injection H as <-. split; [exact HJ |]. split; [reflexivity |].
    intros Hinv. unfold counter_follows_position in HJ.
    rewrite Hinv in HJ. apply Z.eqb_eq in HJ. exact HJ.
  - destruct (OnData a d) as [a1|] eqn:HD; simpl in H; [| discriminate].
    pose proof (AlligatorATR_More.OnData_counter a d a1 HJ HD) as HJ1.
    pose proof (AlligatorATR_More.OnData_days a d a1 HD) as D1.
    destruct (IH a1 HJ1 H) as [HJ2 [D2 F2]].
    repeat split; try assumption. congruence.
Qed.

End Cooldown_Counter.

Lemma position_once_opened_never_closed_witness :
  (AlligatorATR.invested Samples.atr_end = false /\
   AlligatorATR.log Samples.atr_end = AlligatorATR.log Samples.atr_start /\
   AlligatorATR.cooldown_days_remaining Samples.atr_end = 0%Z)
  \/ (exists r c,
        AlligatorATR.invested Samples.atr_end = true /\
        AlligatorATR.log Samples.atr_end
        = AlligatorATR.log Samples.atr_start ++ [AlligatorATR.BUY r c] /\
        AlligatorATR.cooldown_days_remaining Samples.atr_end
        = AlligatorATR.cooldown_days Samples.atr_start).
Proof.
  assert (H1 : AlligatorATR.cooldown_days Samples.atr_start <> 0%Z)
    by (vm_compute; discriminate).
  assert (H4 : AlligatorATR.run Samples.atr_start Samples.atr_stream
               = Ok Samples.atr_end)
    by (vm_compute; reflexivity).
  exact (position_once_opened_never_closed Samples.atr_start Samples.atr_end
           Samples.atr_stream H1 eq_refl eq_refl H4).
Defined.

Lemma counter_in_step_with_position_witness :
  AlligatorATR_Runs.counter_follows_position Samples.atr_end = true /\
  AlligatorATR.cooldown_days Samples.atr_end
  = AlligatorATR.cooldown_days Samples_ATR.atr_bought /\
  (AlligatorATR.invested Samples.atr_end = false ->
   AlligatorATR.cooldown_days_remaining Samples.atr_end = 0%Z).
Proof.
  assert (H1 : AlligatorATR_Runs.counter_follows_position
                 Samples_ATR.atr_bought = true)
    by (vm_compute; reflexivity).
  assert (H2 : AlligatorATR.run Samples_ATR.atr_bought
                 (skipn 1 Samples.atr_stream) = Ok Samples.atr_end)
    by (vm_compute; reflexivity).
  exact (counter_in_step_with_position Samples_ATR.atr_bought
           Samples.atr_end (skipn 1 Samples.atr_stream) H1 H2).
Defined.

(** ** The waiting protocol of the entry price filter *)

Module Williams2_Wait.
Import Williams2 Williams2_Runs Williams2_Filter.

Section WithNumpy.

Variable np : Numpy.

Lemma filter_all_app a : forall s b,
  filter_all np s (a ++ b)
  = (fst (filter_all np (fst (filter_all np s a)) b),
     snd (filter_all np s a)
     ++ snd (filter_all np (fst (filter_all np s a)) b)).
Proof.
  induction a as [|o a IH]; intros s b; simpl.
  - destruct (filter_all np s b); reflexivity.
  - destruct (entry_price_filter np _ _ _) as [s1 v].
    rewrite IH.
    destruct (filter_all np s1 a) as [s2 vs]. simpl. reflexivity.
Qed.

(** The first expensive observation starts the wait. *)
Lemma step_wait_begin s o :
  use_entry_price_filter (cfg s) = true ->
  wait_peak_check s = false ->
  starts_wait np (cfg s) o = true ->
  entry_price_filter np (set_hl2s (series o) s) (obs_bar o) (obs_hl2 o)
  = (set_peak true (Some (obs_hl2 o)) 0 (set_hl2s (series o) s), false).
Proof.
  intros Huse Hwait Hst.
  unfold starts_wait, scored, cheap, expensive, z_of, window_of in Hst.
  apply andb_true_iff in Hst. destruct Hst as [Hst Hexp].
  apply andb_true_iff in Hst. destruct Hst as [Hsc Hch].
  apply andb_true_iff in Hsc. destruct Hsc as [Hlen Hstd].
  apply negb_true_iff in Hch. apply negb_true_iff in Hstd.
  apply Z.leb_le in Hlen.
  unfold entry_price_filter.
  cbn [cfg hl2s wait_peak_check set_hl2s set_series].
  rewrite Huse. cbn [negb].
  destruct (Z.ltb_spec (len (series o)) (price_filter_lookback (cfg s)));
    [lia |].
  rewrite Hstd, Hch, Hexp, Hwait. reflexivity.
Qed.

(** An evaluation that starts with the flag set and gets past the cheap
    test. *)
Lemma step_waiting s o pk :
  use_entry_price_filter (cfg s) = true ->
  wait_peak_check s = true ->
  peak_day_hl2 s = Some pk ->
  past_cheap np (cfg s) o = true ->
  entry_price_filter np (set_hl2s (series o) s) (obs_bar o) (obs_hl2 o)
  = let s1 := set_peak_check_days (peak_check_days s + 1)
                                  (set_hl2s (series o) s) in
    if flt (obs_hl2 o) pk then (set_peak false None 0 s1, false)
    else if (max_peak_days (cfg s) <=? peak_check_days s + 1)%Z
         then (set_peak false None 0 s1, true)
         else (s1, false).
Proof.
  intros Huse Hwait Hpk Hst.
  unfold past_cheap, scored, cheap, z_of, window_of in Hst.
  apply andb_true_iff in Hst. destruct Hst as [Hsc Hch].
  apply andb_true_iff in Hsc. destruct Hsc as [Hlen Hstd].
  apply negb_true_iff in Hch. apply negb_true_iff in Hstd.
  apply Z.leb_le in Hlen.
  unfold entry_price_filter.
  cbn [cfg hl2s wait_peak_check peak_day_hl2 peak_check_days
       set_hl2s set_series set_peak_check_days set_peak].
  rewrite Huse. cbn [negb].
  destruct (Z.ltb_spec (len (series o)) (price_filter_lookback (cfg s)));
    [lia |].
  rewrite Hstd, Hch, Hwait, Hpk. cbn [negb].
  rewrite andb_false_r. reflexivity.
Qed.

(** While fewer than [max_peak_days] evaluations have been counted, the
    wait goes on and every verdict is a refusal. *)
Lemma waiting_run pk os : forall s,
  use_entry_price_filter (cfg s) = true ->
  wait_peak_check s = true ->
  peak_day_hl2 s = Some pk ->
  (0 <= peak_check_days s)%Z ->
  Forall (fun o => holds_above np (cfg s) pk o = true) os ->
  (peak_check_days s + len os < Z.max 1 (max_peak_days (cfg s)))%Z ->
  snd (filter_all np s os) = repeat false (List.length os) /\
  cfg (fst (filter_all np s os)) = cfg s /\
  peak_state (fst (filter_all np s os))
  = (true, Some pk, (peak_check_days s + len os)%Z).
Proof.
  induction os as [|o os IH]; intros s Huse Hwait Hpk Hd Hall Hlt.
  - simpl. unfold peak_state, len. simpl.
    rewrite Hwait, Hpk, Z.add_0_r. auto.
  - inversion Hall as [|o' os' Ho Hos]; subst.
    unfold holds_above in Ho. apply andb_true_iff in Ho.
    destruct Ho as [Hpast Hnb]. apply negb_true_iff in Hnb.
    assert (Hlen : len (o :: os) = (len os + 1)%Z)
      by (unfold len; cbn [List.length]; lia).
    assert (Hnn : (0 <= len os)%Z) by (unfold len; lia).
    cbn [filter_all].
    rewrite (step_waiting s o pk Huse Hwait Hpk Hpast). cbv zeta.
    rewrite Hnb.
    destruct (Z.leb_spec (max_peak_days (cfg s)) (peak_check_days s + 1))
      as [Hle|Hgt]; [lia |].
    match goal with
    | |- context [filter_all np ?x os] =>
        destruct (IH x) as [V [C P]];
        [exact Huse | exact Hwait | exact Hpk
         | cbn [peak_check_days set_peak_check_days set_peak]; lia
         | exact Hos
         | cbn [peak_check_days set_peak_check_days set_peak cfg
                set_hl2s set_series]; lia
         | destruct (filter_all np x os) as [s2 vs] eqn:HF]
    end.
    cbn [fst snd] in *. cbn [List.length repeat].
    split; [rewrite V; reflexivity |].
    split; [exact C |].
    rewrite P. cbn [peak_check_days set_peak_check_days set_peak].
    rewrite Hlen. f_equal. lia.
Qed.

End WithNumpy.

End Williams2_Wait.

Section Filter_Wait.
Import Williams2 Williams2_Runs Williams2_Filter.

Variable np : Numpy.

(** X15: when [entry_price_filter] (filter enabled, not yet waiting) meets
    an expensive observation it refuses and starts waiting on that value;
    while the following evaluations get past the cheap test without falling
    below it, they are refused and counted, until the evaluation numbered
    max(1, max_peak_days), which passes and ends the wait; an evaluation
    below the reference value before that is refused and ends the wait. *)
Theorem expensive_entry_waits_max_peak_days
    (s : Algo) (o0 : observation) (os : list observation) :
  use_entry_price_filter (cfg s) = true ->
  wait_peak_check s = false ->
  starts_wait np (cfg s) o0 = true ->
  Forall (fun o => holds_above np (cfg s) (obs_hl2 o0) o = true) os ->
  let n := Z.max 1 (max_peak_days (cfg s)) in
  ((len os < n)%Z ->
     snd (filter_all np s (o0 :: os)) = repeat false (S (List.length os)) /\
     peak_state (fst (filter_all np s (o0 :: os)))
     = (true, Some (obs_hl2 o0), len os))
  /\ (forall o,
        (len os + 1 = n)%Z ->
        holds_above np (cfg s) (obs_hl2 o0) o = true ->
        snd (filter_all np s (o0 :: os ++ [o]))
        = repeat false (S (List.length os)) ++ [true] /\
        peak_state (fst (filter_all np s (o0 :: os ++ [o])))
        = (false, None, 0%Z))
  /\ (forall r,
        (len os < n)%Z ->
        past_cheap np (cfg s) r = true ->
        flt (obs_hl2 r) (obs_hl2 o0) = true ->
        snd (filter_all np s (o0 :: os ++ [r]))
        = repeat false (S (List.length os)) ++ [false] /\
        peak_state (fst (filter_all np s (o0 :: os ++ [r])))
        = (false, None, 0%Z)).
Proof.
  intros Huse Hwait Hst Hall n.
  assert (Hnn : (0 <= len os)%Z) by (unfold len; lia).
  set (s1 := set_peak true (Some (obs_hl2 o0)) 0 (set_hl2s (series o0) s)).
  assert (Hhead : forall rest,
             filter_all np s (o0 :: rest)
             = (fst (filter_all np s1 rest),
                false :: snd (filter_all np s1 rest))).
  { intros rest. cbn [filter_all].
    rewrite (Williams2_Wait.step_wait_begin np s o0 Huse Hwait Hst).
    fold s1. destruct (filter_all np s1 rest); reflexivity. }
  assert (Hrun : (len os < n)%Z ->
             snd (filter_all np s1 os) = repeat false (List.length os) /\
             cfg (fst (filter_all np s1 os)) = cfg s /\
             peak_state (fst (filter_all np s1 os))
             = (true, Some (obs_hl2 o0), len os)).
  { intros Hlt.
    destruct (Williams2_Wait.waiting_run np (obs_hl2 o0) os s1)
      as [V [C P]]; try reflexivity; try exact Huse; try exact Hall.
    - change (0 + len os < n)%Z. lia.
    - split; [exact V |]. split; [exact C |]. exact P. }
  split; [| split].
  - intros Hlt. destruct (Hrun Hlt) as [V [C P]].
    rewrite Hhead. cbn [fst snd repeat]. rewrite V. auto.
  - intros o Hlen Ho.
    assert (Hlt : (len os < n)%Z) by lia.
    destruct (Hrun Hlt) as [V [C P]].
    rewrite Hhead, Williams2_Wait.filter_all_app. cbn [fst snd].
    destruct (filter_all np s1 os) as [s2 vs]. cbn [fst snd] in *.
    unfold peak_state in P. injection P as Pw Pk Pd.
    unfold holds_above in Ho. apply andb_true_iff in Ho.
    destruct Ho as [Hpast Hnb]. apply negb_true_iff in Hnb.
    rewrite <- C in Huse, Hpast.
    cbn [filter_all].
    rewrite (Williams2_Wait.step_waiting np s2 o (obs_hl2 o0)
               Huse Pw Pk Hpast).
    cbv zeta. rewrite Hnb, Pd, C.
    destruct (Z.leb_spec (max_peak_days (cfg s)) (len os + 1)) as [_|Hgt];
      [| lia].
    cbn [fst snd repeat]. rewrite V. split; reflexivity.
  - intros r Hlt Hpast Hrev.
    destruct (Hrun Hlt) as [V [C P]].
    rewrite Hhead, Williams2_Wait.filter_all_app. cbn [fst snd].
    destruct (filter_all np s1 os) as [s2 vs]. cbn [fst snd] in *.
    unfold peak_state in P. injection P as Pw Pk Pd.
    rewrite <- C in Huse, Hpast.
    cbn [filter_all].
    rewrite (Williams2_Wait.step_waiting np s2 r (obs_hl2 o0)
               Huse Pw Pk Hpast).
    cbv zeta. rewrite Hrev.
    cbn [fst snd repeat]. rewrite V. split; reflexivity.
Qed.

End Filter_Wait.

Lemma expensive_entry_waits_max_peak_days_witness :
  (snd (Williams2_Runs.filter_all Samples.plain_numpy Samples.fresh
          [Samples_Filter.obs_at 120; Samples_Filter.obs_at 121])
   = [false; false])
  /\ (snd (Williams2_Runs.filter_all Samples.plain_numpy Samples.fresh
             [Samples_Filter.obs_at 120; Samples_Filter.obs_at 121;
              Samples_Filter.obs_at 122])
      = [false; false; true])
  /\ (snd (Williams2_Runs.filter_all Samples.plain_numpy Samples.fresh
             [Samples_Filter.obs_at 120; Samples_Filter.obs_at 121;
              Samples_Filter.obs_at 119])
      = [false; false; false]).
Proof.
  assert (H1 : Williams2.use_entry_price_filter
                 (Williams2.cfg Samples.fresh) = true) by reflexivity.
  assert (H2 : Williams2.wait_peak_check Samples.fresh = false)
    by reflexivity.
  assert (H3 : Williams2_Filter.starts_wait Samples.plain_numpy
                 (Williams2.cfg Samples.fresh) (Samples_Filter.obs_at 120)
               = true) by (vm_compute; reflexivity).
  assert (H4 : Forall
                 (fun o => Williams2_Filter.holds_above Samples.plain_numpy
                             (Williams2.cfg Samples.fresh)
                             (Williams2_Runs.obs_hl2
                                (Samples_Filter.obs_at 120)) o = true)
                 [Samples_Filter.obs_at 121]).
  { constructor; [vm_compute; reflexivity | constructor]. }
  destruct (expensive_entry_waits_max_peak_days Samples.plain_numpy
              Samples.fresh (Samples_Filter.obs_at 120)
              [Samples_Filter.obs_at 121] H1 H2 H3 H4) as [A [B C]].
  split; [| split].
  - apply A. vm_compute. reflexivity.
  - apply (B (Samples_Filter.obs_at 122)).
    + vm_compute. reflexivity.
    + vm_compute. reflexivity.
  - apply (C (Samples_Filter.obs_at 119)).
    + vm_compute. reflexivity.
    + vm_compute. reflexivity.
    + vm_compute. reflexivity.
Defined.

(** ** The order log of the Williams2 engine *)

Module Williams2_Log.
Import Williams2 Williams2_Orders.

Lemma track_app l1 : forall open l2,
  track open (l1 ++ l2)
  = match track open l1 with
    | Some o => track o l2
    | None => None
    end.
Proof.
  induction l1 as [|e l1 IH]; intros open l2; simpl; [reflexivity |].
  destruct e; [apply IH |].
  destruct open; [apply IH | reflexivity].
Qed.

Section WithNumpy.

Variable np : Numpy.

Lemma check_entry_track s bar hl2 j t l s' :
  check_entry np s bar hl2 j t l = Ok s' ->
  exists evs, log s' = log s ++ evs /\
              track (invested s) evs = Some (invested s').
Proof.
  unfold check_entry. intros H.
  destruct (compute_trend_flag np s) as [[|]|]; simpl in H;
    try discriminate.
  2: { injection H as <-. exists []. rewrite app_nil_r. auto. }
  remember (if startup_check s
            then if negb (invested s)
                 then set_wait_peak_check false
                        (buy s bar startup_trending_condition)
                 else s
            else s) as s1 eqn:Hs1.
  assert (F1 : exists evs, log s1 = log s ++ evs /\
                           track (invested s) evs = Some (invested s1)).
  { subst s1. destruct (startup_check s), (invested s) eqn:Hinv; simpl;
      try (exists []; rewrite app_nil_r; rewrite ?Hinv; auto; fail).
    eexists. split; reflexivity. }
  clear Hs1. destruct F1 as [evs1 [L1 T1]].
  match type of H with
  | (if ?c then _ else _) = _ => destruct c
  end.
  2: { injection H as <-. exists evs1. auto. }
  destruct (lips_price_gap_ok s1 l hl2).
  2: { injection H as <-. exists evs1. auto. }
  pose proof (Williams2_Facts.entry_price_filter_frame np s1 bar hl2) as F2.
  cbv zeta in F2.
  destruct (entry_price_filter np s1 bar hl2) as [s2 pass].
  simpl in F2. destruct F2 as [_ [_ [_ [P2 _]]]].
  unfold position in P2. injection P2 as I2 _ _ _ L2.
  destruct pass; injection H as <-; simpl.
  - exists (evs1 ++ [BUY cross_filter (Close bar)]).
    split; [rewrite L2, L1, app_assoc; reflexivity |].
    rewrite track_app, T1. reflexivity.
  - exists evs1. split; congruence.
Qed.

Lemma OnData_track s d p :
  OnData np s d = Ok p ->
  exists evs, log (state_of p) = log s ++ evs /\
              track (invested s) evs = Some (invested (state_of p)).
Proof.
  intros H. destruct d as [bar|].
  2: { simpl in H. injection H as <-. exists []. rewrite app_nil_r. auto. }
  unfold OnData in H.
  destruct (update_indicators s bar) as [[s1 ind]|] eqn:HU; simpl in H;
    [| discriminate].
  destruct (Williams2_Facts.update_indicators_frame s bar s1 ind HU)
    as [_ [_ [P1 _]]].
  unfold position in P1. injection P1 as I1 _ _ _ L1.
  destruct ind as [[[[hl2 jv] tv] lv]|].
  2: { injection H as <-. simpl. exists []. rewrite app_nil_r.
       simpl. split; congruence. }
  assert (Hmid : exists s2 evs,
             (if negb (invested s1)
              then check_entry np s1 bar hl2 jv tv lv
              else if (cooldown_days_remaining s1 =? 0)%Z
                   then check_exit s1 bar jv tv lv
                   else Ok s1) = Ok s2 /\
             log s2 = log s1 ++ evs /\
             track (invested s1) evs = Some (invested s2)).
  { destruct (if negb (invested s1) then _ else _) as [s2|] eqn:HM;
      simpl in H; [| discriminate].
    exists s2.
    destruct (invested s1) eqn:Hinv; simpl in HM.
    - destruct (cooldown_days_remaining s1 =? 0)%Z.
      + destruct (Williams2_Facts.check_exit_cases s1 bar jv tv lv s2 HM)
          as [_ [_ [_ [_ Cases]]]].
        destruct Cases as [[L2 [I2 _]] | [r [L2 [I2 _]]]].
        * exists []. rewrite app_nil_r. simpl.
          split; [reflexivity |]. split; congruence.
        * exists [SELL r (Close bar)].
          split; [reflexivity |]. split; [exact L2 |].
          simpl. congruence.
      + injection HM as <-. exists []. rewrite app_nil_r. simpl.
        split; [reflexivity |]. split; congruence.
    - destruct (check_entry_track s1 bar hl2 jv tv lv s2 HM)
        as [evs [L2 T2]].
      exists evs. rewrite Hinv in T2.
      split; [reflexivity |]. split; assumption. }
  destruct Hmid as [s2 [evs [HM [L2 T2]]]].
  rewrite HM in H. simpl in H.
  destruct (update_performance s2 bar) as [s3|] eqn:HP; simpl in H;
    [| discriminate].
  destruct (Williams2_Facts.update_performance_frame s2 bar s3 HP)
    as [_ [_ [_ [P3 _]]]].
  unfold position in P3. injection P3 as I3 _ _ _ L3.
  injection H as <-. simpl.
  match goal with
  | |- context [decrement_cooldown ?x] =>
      destruct (Williams2_Facts.decrement_cooldown_frame x)
        as [_ [_ [_ [L4 [I4 _]]]]]
  end.
  simpl in L4, I4.
  exists evs. split; congruence.
Qed.

Lemma run_track stream : forall s s',
  run np s stream = Ok s' ->
  exists evs, log s' = log s ++ evs /\
              track (invested s) evs = Some (invested s').
Proof.
  induction stream as [|d rest IH]; intros s s' H; simpl in H.
  - injection H as <-. exists []. rewrite app_nil_r. auto.
  - destruct (OnData np s d) as [p|] eqn:HD; simpl in H; [| discriminate].
    destruct (OnData_track s d p HD) as [e1 [L1 T1]].
    destruct (IH _ _ H) as [e2 [L2 T2]].
    exists (e1 ++ e2). split.
    + rewrite L2, L1, app_assoc. reflexivity.
    + rewrite track_app, T1. exact T2.
Qed.

End WithNumpy.

End Williams2_Log.

Section Order_Log.
Import Williams2 Williams2_Orders.

Variable np : Numpy.

(** X16: the order log of a run of the Williams2 handler from [Initialize]
    follows the position: read from a flat start, every SELL in it comes
    while a position is open (so no SELL opens the log and no SELL follows
    a SELL), and the log ends with a BUY exactly when the engine is
    invested. *)
Theorem orders_follow_position
    (p : Params) (history : list TradeBar)
    (stream : list (option TradeBar)) (s0 s : Algo) :
  Initialize p history = Ok s0 ->
  run np s0 stream = Ok s ->
  track false (log s) = Some (invested s).
Proof.
  intros Hinit Hrun. unfold Initialize in Hinit.
  destruct (warm_up (initial_state p) history) as [s1|] eqn:HW;
    simpl in Hinit; [| discriminate].
  injection Hinit as <-.
  destruct (Williams2_Invariants.warm_up_frame history _ _ HW)
    as [_ [_ [P1 _]]].
  unfold position in P1. simpl in P1. injection P1 as I1 _ _ _ L1.
  destruct (Williams2_Log.run_track np stream _ s Hrun) as [evs [L T]].
  simpl in L, T. rewrite L1 in L. rewrite I1 in T. simpl in L.
  rewrite L. exact T.
Qed.

End Order_Log.

Lemma orders_follow_position_witness :
  Williams2_Orders.track false (Williams2.log (Samples.state_after 26))
  = Some (Williams2.invested (Samples.state_after 26)).
Proof.
  assert (H1 : Williams2.Initialize Williams2.source_params Samples.history
               = Ok (Samples.state_after 0))
    by (vm_compute; reflexivity).
  assert (H2 : Williams2.run Samples.plain_numpy (Samples.state_after 0)
                 (firstn 26 Samples.stream)
               = Ok (Samples.state_after 26))
    by (vm_compute; reflexivity).
  exact (orders_follow_position Samples.plain_numpy _ _ _ _ _ H1 H2).
Defined.

(** ** The methods of the ATR1 engine *)

Module ATR1_Engine_Facts.
Import ATR1_Engine.

Lemma atr1_check_exit_cases self bar atr j t l s' :
  check_exit self bar atr j t l = Ok s' ->
  s' = self \/ (entryPrice self <> None /\ exists r, s' = sell_act self bar r).
Proof.
  unfold check_exit. intros H.
  destruct (entryPrice self) as [e|] eqn:He;
    [| injection H as <-; left; reflexivity].
  match type of H with
  | bind ?c _ = _ => destruct c as [[|]|]; cbn [bind] in H;
                     try discriminate
  end.
  - injection H as <-.
    right; (split; [discriminate | eexists; reflexivity]).
  - destruct (py_lt (Some (Williams2.Close bar)) (fst l)) as [[|]|];
      cbn [bind] in H; try discriminate;
      [injection H as <-; right;
       (split; [discriminate | eexists; reflexivity]) |].
    destruct (py_lt (Some (Williams2.Close bar)) (fst t)) as [[|]|];
      cbn [bind] in H; try discriminate;
      [injection H as <-; right;
       (split; [discriminate | eexists; reflexivity]) |].
    destruct (py_lt (fst l) (fst t)) as [[|]|];
      cbn [bind] in H; try discriminate; injection H as <-;
      [right; (split; [discriminate | eexists; reflexivity])
      | left; reflexivity].
Qed.

Ltac step H :=
  match type of H with
  | bind ?c _ = _ =>
      let E := fresh "E" in
      destruct c eqn:E; cbn [bind] in H; [| discriminate H]
  end.

Lemma atr1_check_entry_cases self bar atr hl2 j t l s' r :
  check_entry self bar atr hl2 j t l = Ok (s', r) ->
  (s' = buy_act self bar Early_trend_following_entry /\ r = Some true)
  \/ (exists sc b,
        ATR1.update_state (start_climb self) (Williams2.Close bar) j t l
        = Ok (sc, b) /\
        ((s' = set_start_climb sc self /\ r = Some false)
         \/ (exists rs, s' = buy_act (set_start_climb sc self) bar rs /\
                        r = None))).
Proof.
  unfold check_entry. intros H. cbv zeta in H.
  step H. destruct a.
  { injection H as <- <-. left. split; reflexivity. }
  step H. step H. step H. step H.
  destruct a2 as [sc b]. step H. step H.
  right. exists sc, b. split; [reflexivity |].
  destruct (_ && _ && _ && _) in H.
  - injection H as <- <-. right. eexists. split; reflexivity.
  - destruct (_ && _) in H; injection H as <- <-.
    + right. eexists. split; reflexivity.
    + left. split; reflexivity.
Qed.

(** The position attributes after each action. *)
Lemma buy_act_inv self bar r :
  no_running_high (buy_act self bar r) <-> highestLips self = None.
Proof.
  unfold no_running_high, buy_act. simpl. split.
  - intros [_ [_ H]]. exact H.
  - intros H. split; [split; [discriminate | reflexivity] |].
    split; [reflexivity | exact H].
Qed.

Lemma sell_act_inv self bar r : no_running_high (sell_act self bar r).
Proof.
  unfold no_running_high, sell_act. simpl.
  split; [split; [discriminate | intros H; contradiction H; reflexivity] |].
  split; reflexivity.
Qed.

Lemma atr1_update_performance_frame self bar s' :
  update_performance self bar = Ok s' ->
  invested s' = invested self /\ entryPrice s' = entryPrice self /\
  highestPrice s' = highestPrice self /\ highestLips s' = highestLips self /\
  cooldown_days s' = cooldown_days self /\
  cooldown_days_remaining s' = cooldown_days_remaining self /\
  log s' = log self.
Proof.
  unfold update_performance. intros H.
  destruct (initial_symbol_price self) as [p0|] eqn:Hp; cbv zeta in H.
  - rewrite Hp in H. destruct (PrimFloat.eqb p0 0); [discriminate |].
    injection H as <-. repeat split; reflexivity.
  - cbn [initial_symbol_price set_initial_symbol_price] in H.
    destruct (PrimFloat.eqb (Williams2.Close bar) 0); [discriminate |].
    injection H as <-. repeat split; reflexivity.
Qed.

Lemma atr1_update_indicators_frame self bar s' ind :
  update_indicators self bar = Ok (s', ind) ->
  invested s' = invested self /\ entryPrice s' = entryPrice self /\
  highestPrice s' = highestPrice self /\ highestLips s' = highestLips self /\
  cooldown_days s' = cooldown_days self /\
  cooldown_days_remaining s' = cooldown_days_remaining self /\
  log s' = log self.
Proof.
  unfold update_indicators. intros H. cbv zeta in H.
  destruct (_ <? _)%Z in H.
  - injection H as <- <-. repeat split; reflexivity.
  - step H. destruct a as [j1 jv]. step H. destruct a as [t1 tv].
    step H. destruct a as [l1 lv].
    injection H as <- <-. repeat split; reflexivity.
Qed.

Lemma settled_ext a b :
  invested b = invested a -> entryPrice b = entryPrice a ->
  highestPrice b = highestPrice a -> highestLips b = highestLips a ->
  cooldown_days b = cooldown_days a ->
  cooldown_days_remaining b = cooldown_days_remaining a ->
  settled a -> settled b.
Proof.
  unfold settled, no_running_high.
  intros -> -> -> -> -> ->. auto.
Qed.

Lemma OnData_settled self d s' :
  settled self -> OnData self d = Ok s' -> settled s'.
Proof.
  intros HS H. unfold OnData in H.
  destruct (bar_of d) as [bar|]; [| injection H as <-; exact HS].
  destruct (negb (atr_ready d)); [injection H as <-; exact HS |].
  step H. destruct a as [s1 ind].
  destruct (atr1_update_indicators_frame self bar s1 ind E)
    as [I1 [E1 [H1 [L1 [D1 [C1 _]]]]]].
  assert (HS1 : settled s1) by (apply (settled_ext self); assumption).
  destruct ind as [[[[hl2 jv] tv] lv]|]; [| injection H as <-; exact HS1].
  cbv zeta in H.
  set (s2 := match initial_symbol_price s1 with
             | Some _ => s1
             | None => set_initial_symbol_price
                         (Some (Williams2.Close bar)) s1
             end) in H.
  assert (HS2 : settled s2).
  { apply (settled_ext s1); try exact HS1; unfold s2;
      destruct (initial_symbol_price s1); reflexivity. }
  clearbody s2.
  step H.
  assert (HS3 : settled a).
  { destruct (invested s2) eqn:Hinv; cbn [negb] in E0.
    - destruct HS2 as [N2 [D2 C2]]. rewrite C2 in E0. simpl in E0.
      destruct (atr1_check_exit_cases s2 bar _ jv tv lv a E0)
        as [-> | [_ [r ->]]].
      + exact (conj N2 (conj D2 C2)).
      + split; [apply sell_act_inv |]. simpl. split; assumption.
    - step E0. destruct a0 as [s3 r]. injection E0 as <-.
      destruct HS2 as [N2 [D2 C2]].
      match goal with
      | HE : check_entry _ _ _ _ _ _ _ = Ok _ |- _ =>
          destruct (atr1_check_entry_cases _ _ _ _ _ _ _ _ _ HE)
            as [[-> _] | [sc [b [_ [[-> _] | [rs [-> _]]]]]]]
      end.
      + split; [apply buy_act_inv; apply N2 |]. simpl. auto.
      + exact (conj N2 (conj D2 C2)).
      + split; [apply buy_act_inv; apply N2 |]. simpl. auto. }
  step H.
  match goal with
  | HP : update_performance _ _ = Ok _ |- _ =>
      destruct (atr1_update_performance_frame _ _ _ HP)
        as [I4 [E4 [H4 [L4 [D4 [C4 _]]]]]]
  end.
  assert (HS4 : settled a0) by (apply (settled_ext a); assumption).
  destruct HS4 as [N4 [D5 C5]]. rewrite C5 in H. simpl in H.
  injection H as <-. exact (conj N4 (conj D5 C5)).
Qed.

End ATR1_Engine_Facts.

Module ATR1_Engine_Runs.
Import ATR1_Engine.

Lemma warm_up_settled history : forall self s',
  settled self -> warm_up self history = Ok s' -> settled s'.
Proof.
  induction history as [|bar rest IH]; intros self s' HS H; simpl in H.
  - injection H as <-. exact HS.
  - ATR1_Engine_Facts.step H. destruct a as [j1 jv].
    ATR1_Engine_Facts.step H. destruct a as [t1 tv].
    ATR1_Engine_Facts.step H. destruct a as [l1 lv].
    refine (IH _ s' _ H).
    apply (ATR1_Engine_Facts.settled_ext self); try reflexivity. exact HS.
Qed.

Lemma run_settled stream : forall self s',
  settled self -> run self stream = Ok s' -> settled s'.
Proof.
  induction stream as [|d rest IH]; intros self s' HS H; simpl in H.
  - injection H as <-. exact HS.
  - ATR1_Engine_Facts.step H.
    apply (IH a s'); [| exact H].
    apply (ATR1_Engine_Facts.OnData_settled self d a HS E).
Qed.

End ATR1_Engine_Runs.

Section ATR1_Engine_Properties.
Import ATR1_Engine.

(** X17: every sale made by [check_exit] of ATR1 closes the position,
    clears the entry price and leaves the crossover detector re-armed, so
    the detector fires on the next bar whose price is above the lips with
    the lines in bullish order, with no visit below the lines in
    between. *)
Theorem sale_rearms_detector
    (self s' : Algo) (bar : TradeBar) (atr : float) (j t l : line) :
  check_exit self bar atr j t l = Ok s' ->
  log s' <> log self ->
  invested s' = false /\ entryPrice s' = None /\
  ATR1.state (start_climb s') = ATR1.ReArmed /\
  (exists r, log s' = log self ++ [SELL r (Williams2.Close bar)]) /\
  forall tk,
    ATR1.above_and_bullish tk = true ->
    ATR1.feed (start_climb s') tk
    = Ok ({| ATR1.state := ATR1.ABOVE_lips |}, true).
Proof.
  intros H Hlog.
  destruct (ATR1_Engine_Facts.atr1_check_exit_cases self bar atr j t l s' H)
    as [-> | [_ [r ->]]]; [contradiction Hlog; reflexivity |].
  simpl. repeat split.
  - exists r. reflexivity.
  - intros tk Hb. unfold ATR1.above_and_bullish in Hb.
    destruct (ATR1.lines3 tk) as [[[jv tv] lv]|] eqn:E; [| discriminate].
    rewrite (ATR1_Crossover.feed_present _ tk jv tv lv E).
    cbn [ATR1.state ATR1.rearm].
    assert (Hf : snd (ATR1.step_present ATR1.ReArmed (ATR1.price tk)
                        jv tv lv) = true)
      by (apply ATR1_Crossover.step_fires; split; [reflexivity | exact Hb]).
    rewrite Hf, (ATR1_Crossover.step_fires_state _ _ _ _ _ Hf).
    reflexivity.
Qed.

(** X18: in every state a run of the ATR1 handler reaches from
    [Initialize], a position is open exactly when an entry price is
    recorded, the recorded high is still the entry price (nothing ever
    raises it, so there is no trailing stop), no high of the lips line is
    recorded, and the cool-down counter is 0, so the exit rules are
    evaluated on every processed bar of an open position. *)
Theorem no_running_high_in_any_run
    (history : list TradeBar) (stream : list Slice) (s0 s : Algo) :
  Initialize history = Ok s0 ->
  run s0 stream = Ok s ->
  no_running_high s /\ cooldown_days_remaining s = 0%Z.
Proof.
  intros Hinit Hrun. unfold Initialize, initial_state in Hinit.
  simpl in Hinit.
  assert (HS : settled s0).
  { eapply ATR1_Engine_Runs.warm_up_settled; [| exact Hinit].
    unfold settled, no_running_high. simpl.
    split; [| split; reflexivity].
    split; [| split; reflexivity].
    split; [discriminate | intros H; contradiction H; reflexivity]. }
  destruct (ATR1_Engine_Runs.run_settled stream s0 s HS Hrun)
    as [N [_ C]].
  split; assumption.
Qed.

(** X19: [buy_condition] of ATR1 returns False, without looking at the
    current values, as soon as one previous value is missing; with all
    previous values present and the current lips value missing it raises
    [TypeError]; and when it returns True the three current values are
    present and the price is above each of them, so the same bar cannot
    reset the crossover detector. *)
Theorem buy_condition_cases (tk : ATR1.tick) :
  let r := buy_condition (ATR1.price tk) (ATR1.jaw tk) (ATR1.teeth tk)
                         (ATR1.lips tk) in
  ((snd (ATR1.lips tk) = None \/ snd (ATR1.teeth tk) = None \/
    snd (ATR1.jaw tk) = None) -> r = Ok false)
  /\ (_has_prev [ATR1.lips tk; ATR1.teeth tk; ATR1.jaw tk] = true ->
      fst (ATR1.lips tk) = None -> r = Raise TypeError)
  /\ (r = Ok true ->
      ATR1.below_and_bearish tk = false /\
      exists j t l,
        ATR1.lines3 tk = Some (j, t, l) /\
        fgt (ATR1.price tk) l = true /\ fgt (ATR1.price tk) t = true /\
        fgt (ATR1.price tk) j = true).
Proof.
  destruct tk as [p [j pj] [t pt] [l pl]]. cbv zeta. cbn [ATR1.price
    ATR1.jaw ATR1.teeth ATR1.lips fst snd].
  split; [| split].
  - unfold buy_condition, _has_prev. cbn [forallb snd].
    intros [-> | [-> | ->]]; [reflexivity | |].
    + destruct pl; reflexivity.
    + destruct pl, pt; reflexivity.
  - unfold buy_condition. intros Hp ->.
    destruct pl, pt, pj; try discriminate Hp; reflexivity.
  - unfold buy_condition, ATR1.below_and_bearish, ATR1.lines3.
    cbn [ATR1.price ATR1.jaw ATR1.teeth ATR1.lips fst snd].
    destruct (negb _); [discriminate |].
    destruct j as [jv|], t as [tv|], l as [lv|], pj as [pjv|],
      pt as [ptv|], pl as [plv|];
      unfold py_gt, py_lt, py_and, bind; cbn [fst snd];
      repeat match goal with
             | |- context [if ?c then _ else _] => destruct c eqn:?
             end; try discriminate.
    intros _.
    match goal with
    | Hl : flt lv p = true |- _ =>
        rewrite (flt_asym lv p Hl)
    end.
    split; [reflexivity |].
    exists jv, tv, lv. unfold fgt. repeat split; assumption.
Qed.

End ATR1_Engine_Properties.

Lemma sale_rearms_detector_witness :
  ATR1_Engine.invested (Samples_ATR1.sold) = false /\
  ATR1.state (ATR1_Engine.start_climb Samples_ATR1.sold) = ATR1.ReArmed /\
  ATR1.feed (ATR1_Engine.start_climb Samples_ATR1.sold) ATR1.bullish_bar
  = Ok ({| ATR1.state := ATR1.ABOVE_lips |}, true).
Proof.
  assert (H1 : ATR1_Engine.check_exit (Samples_ATR1.engine_after 22)
                 (Samples.level_bar 130 130) 2
                 (Some 131%float, None) (Some 132%float, None)
                 (Some 133%float, None)
               = Ok Samples_ATR1.sold)
    by (vm_compute; reflexivity).
  assert (H2 : ATR1_Engine.log Samples_ATR1.sold
               <> ATR1_Engine.log (Samples_ATR1.engine_after 22)).
  { vm_compute. intros H.
    apply (f_equal (@List.length ATR1_Engine.event)) in H. discriminate. }
  pose proof (sale_rearms_detector _ _ _ _ _ _ _ H1 H2)
    as [A [_ [B [_ C]]]].
  assert (H3 : ATR1.above_and_bullish ATR1.bullish_bar = true)
    by reflexivity.
  pose proof (C ATR1.bullish_bar H3) as W.
  split; [exact A |]. split; [exact B | exact W].
Defined.

Lemma no_running_high_in_any_run_witness :
  ATR1_Engine.no_running_high (Samples_ATR1.engine_after 25) /\
  ATR1_Engine.cooldown_days_remaining (Samples_ATR1.engine_after 25) = 0%Z.
Proof.
  assert (H1 : ATR1_Engine.Initialize (Samples.rising 100 20)
               = Ok Samples_ATR1.engine_start)
    by (vm_compute; reflexivity).
  assert (H2 : ATR1_Engine.run Samples_ATR1.engine_start
                 (firstn 25 Samples_ATR1.engine_stream)
               = Ok (Samples_ATR1.engine_after 25))
    by (vm_compute; reflexivity).
  exact (no_running_high_in_any_run _ _ _ _ H1 H2).
Defined.

Lemma buy_condition_cases_witness :
  ATR1_Engine.buy_condition 10 (None, None) (Some 8%float, Some 7%float)
                            (Some 9%float, Some 8%float) = Ok false
  /\ ATR1_Engine.buy_condition 10 (Some 7%float, Some 6%float)
                               (Some 8%float, Some 7%float)
                               (None, Some 8%float) = Raise TypeError
  /\ ATR1.below_and_bearish
       {| ATR1.price := 10; ATR1.jaw := (Some 7%float, Some 6%float);
          ATR1.teeth := (Some 8%float, Some 7%float);
          ATR1.lips := (Some 9%float, Some 8%float) |} = false.
Proof.
  split; [| split].
  - apply (proj1 (buy_condition_cases
                    {| ATR1.price := 10; ATR1.jaw := (None, None);
                       ATR1.teeth := (Some 8%float, Some 7%float);
                       ATR1.lips := (Some 9%float, Some 8%float) |})).
    right. right. reflexivity.
  - apply (proj1 (proj2 (buy_condition_cases
                    {| ATR1.price := 10;
                       ATR1.jaw := (Some 7%float, Some 6%float);
                       ATR1.teeth := (Some 8%float, Some 7%float);
                       ATR1.lips := (None, Some 8%float) |})));
      reflexivity.
  - apply (proj2 (proj2 (buy_condition_cases
                    {| ATR1.price := 10;
                       ATR1.jaw := (Some 7%float, Some 6%float);
                       ATR1.teeth := (Some 8%float, Some 7%float);
                       ATR1.lips := (Some 9%float, Some 8%float) |}))).
    vm_compute. reflexivity.
Defined.

(** ** Missing line values in the ATR1 engine *)

Module ATR1_Missing.
Import ATR1_Engine.

Lemma from_end_ok {A} (k : nat) (l : list A) :
  (1 <= k <= List.length l)%nat -> exists x, from_end k l = Ok x /\ In x l.
Proof.
  intros Hk. unfold from_end.
  destruct (nth_error (rev l) (k - 1)) as [x|] eqn:E.
  - exists x. split; [reflexivity |].
    apply in_rev. eapply nth_error_In. exact E.
  - apply nth_error_None in E. rewrite length_rev in E. lia.
Qed.

Lemma from_end_present (k : nat) (l : list (option float)) :
  Forall (fun v => v <> None) l ->
  (1 <= k <= List.length l)%nat ->
  exists x, from_end k l = Ok (Some x).
Proof.
  intros Hall Hk. destruct (from_end_ok k l Hk) as [[x|] [E Hin]].
  - exists x. exact E.
  - rewrite Forall_forall in Hall. contradiction (Hall None Hin).
    reflexivity.
Qed.

(** The price-trend test of [check_entry] never raises. *)
Lemma price_trend_ok (cl : list float) (close : float) :
  exists b,
    (if (3 <=? len cl)%Z
     then (c2 <- from_end 2 cl ;; Ok (fgt close c2))
          and (c2 <- from_end 2 cl ;;
               c3 <- from_end 3 cl ;;
               Ok (fgt c2 c3))
     else Ok true) = Ok b.
Proof.
  destruct (Z.leb_spec 3 (len cl)) as [H|_]; [| eexists; reflexivity].
  unfold len in H.
  destruct (from_end_ok 2 cl) as [c2 [E2 _]]; [lia |].
  destruct (from_end_ok 3 cl) as [c3 [E3 _]]; [lia |].
  rewrite E2, E3. unfold py_and, bind.
  destruct (fgt close c2); eexists; reflexivity.
Qed.

Lemma mouth_open_missing self bar l t j :
  ATR1.lines3 (tick_of (Williams2.Close bar) j t l) = None ->
  mouth_open self bar l t j = Raise TypeError.
Proof.
  unfold ATR1.lines3, mouth_open, tick_of. simpl.
  destruct (fst j), (fst t), (fst l); try discriminate; reflexivity.
Qed.

Lemma check_entry_missing self bar atr hl2 j t l :
  ATR1.lines3 (tick_of (Williams2.Close bar) j t l) = None ->
  check_entry self bar atr hl2 j t l = Raise TypeError.
Proof.
  intros Hm. unfold check_entry. cbv zeta.
  assert (Hs : (if (20 <=? len (closes self))%Z
                   && (len (closes self) <? warm_up_period self)%Z
                then py_gt (fst l) (fst t) and py_gt (fst t) (fst j)
                     and py_gt (Some (Williams2.Close bar)) (fst l)
                else Ok false) = Ok false
               \/ (if (20 <=? len (closes self))%Z
                      && (len (closes self) <? warm_up_period self)%Z
                   then py_gt (fst l) (fst t) and py_gt (fst t) (fst j)
                        and py_gt (Some (Williams2.Close bar)) (fst l)
                   else Ok false) = Raise TypeError).
  { destruct (_ && _); [| left; reflexivity].
    unfold ATR1.lines3, tick_of in Hm. simpl in Hm.
    destruct (fst j), (fst t), (fst l); try discriminate;
      unfold py_gt, py_lt, py_and, bind;
      repeat match goal with
             | |- context [if ?c then _ else _] => destruct c
             end; auto. }
  destruct Hs as [-> | ->]; [| reflexivity].
  cbn [bind].
  destruct (price_trend_ok (closes self) (Williams2.Close bar)) as [b ->].
  cbn [bind]. rewrite (mouth_open_missing self bar l t j Hm). reflexivity.
Qed.

Lemma buy_condition_present p j t l jv tv lv :
  fst j = Some jv -> fst t = Some tv -> fst l = Some lv ->
  exists b, buy_condition p j t l = Ok b.
Proof.
  destruct j as [j0 pj], t as [t0 pt], l as [l0 pl]. simpl.
  intros -> -> ->. unfold buy_condition, _has_prev. cbn [forallb snd].
  destruct pl, pt, pj; cbn [negb andb]; try (eexists; reflexivity).
  unfold py_gt, py_lt, py_and, bind; cbn [fst snd].
  repeat match goal with
         | |- context [if ?c then _ else _] => destruct c
         end; eexists; reflexivity.
Qed.

Lemma check_entry_present self bar atr hl2 j t l :
  ATR1.lines3 (tick_of (Williams2.Close bar) j t l) <> None ->
  Forall (fun v => v <> None) (lips_list self) ->
  exists res, check_entry self bar atr hl2 j t l = Ok res.
Proof.
  intros Hp Hall.
  destruct (ATR1.lines3 (tick_of (Williams2.Close bar) j t l))
    as [[[jv tv] lv]|] eqn:E3; [clear Hp | contradiction Hp; reflexivity].
  assert (Hj : fst j = Some jv /\ fst t = Some tv /\ fst l = Some lv).
  { unfold ATR1.lines3, tick_of in E3. simpl in E3.
    destruct (fst j), (fst t), (fst l); try discriminate.
    injection E3 as -> -> ->. auto. }
  destruct Hj as [Hj [Ht Hl]].
  unfold check_entry. cbv zeta.
  assert (Hs : exists b,
             (if (20 <=? len (closes self))%Z
                 && (len (closes self) <? warm_up_period self)%Z
              then py_gt (fst l) (fst t) and py_gt (fst t) (fst j)
                   and py_gt (Some (Williams2.Close bar)) (fst l)
              else Ok false) = Ok b).
  { destruct (_ && _); [| eexists; reflexivity].
    rewrite Hj, Ht, Hl. unfold py_gt, py_lt, py_and, bind.
    repeat match goal with
           | |- context [if ?c then _ else _] => destruct c
           end; eexists; reflexivity. }
  destruct Hs as [b ->]. cbn [bind].
  destruct b; [eexists; reflexivity |].
  destruct (price_trend_ok (closes self) (Williams2.Close bar)) as [pt ->].
  cbn [bind].
  unfold mouth_open. rewrite Hj, Ht, Hl. cbn [bind].
  destruct (buy_condition_present (Williams2.Close bar) j t l jv tv lv
              Hj Ht Hl) as [bc ->].
  cbn [bind].
  pose proof (ATR1_Crossover.feed_present (start_climb self)
                (tick_of (Williams2.Close bar) j t l) jv tv lv E3) as Hf.
  unfold ATR1.feed, tick_of in Hf.
  cbn [ATR1.price ATR1.jaw ATR1.teeth ATR1.lips] in Hf.
  rewrite Hf. cbn [bind].
  unfold py_sub. cbn [bind].
  cbn [lips_list set_start_climb set_position].
  assert (Hd : exists b,
             (if (3 <? len (lips_list self))%Z
              then py_or (a <- from_end 2 (lips_list self) ;;
                          b <- from_end 1 (lips_list self) ;;
                          py_gt a b)
                         (a <- from_end 3 (lips_list self) ;;
                          b <- from_end 2 (lips_list self) ;;
                          py_gt a b)
              else Ok false) = Ok b).
  { destruct (Z.ltb_spec 3 (len (lips_list self))) as [H|_];
      [| eexists; reflexivity].
    unfold len in H.
    destruct (from_end_present 1 (lips_list self) Hall) as [x1 E1]; [lia |].
    destruct (from_end_present 2 (lips_list self) Hall) as [x2 E2]; [lia |].
    destruct (from_end_present 3 (lips_list self) Hall) as [x3 E4]; [lia |].
    rewrite E1, E2, E4. unfold py_or, py_gt, py_lt, bind.
    destruct (flt x1 x2); eexists; reflexivity. }
  destruct Hd as [d ->]. cbn [bind].
  destruct (_ && _ && _ && _); [eexists; reflexivity |].
  destruct (_ && _); eexists; reflexivity.
Qed.

End ATR1_Missing.

Section ATR1_Missing_Values.
Import ATR1_Engine.

(** X20: [check_entry] of ATR1 raises [TypeError] whenever one of the
    three current line values is missing (a line whose shift buffer is not
    full yet), whatever the engine state; with the three values present
    and no missing value in [lips_list] it returns. *)
Theorem check_entry_raises_iff_line_missing
    (self : Algo) (bar : TradeBar) (atr hl2 : float) (j t l : line) :
  (ATR1.lines3 (tick_of (Williams2.Close bar) j t l) = None ->
   check_entry self bar atr hl2 j t l = Raise TypeError)
  /\ (ATR1.lines3 (tick_of (Williams2.Close bar) j t l) <> None ->
      Forall (fun v => v <> None) (lips_list self) ->
      exists res, check_entry self bar atr hl2 j t l = Ok res).
Proof.
  split.
  - apply ATR1_Missing.check_entry_missing.
  - apply ATR1_Missing.check_entry_present.
Qed.

End ATR1_Missing_Values.

Lemma check_entry_raises_iff_line_missing_witness :
  ATR1_Engine.check_entry Samples_ATR1.engine_start
    (Samples.level_bar 120 120) 2 120
    (None, Some 109%float) (Some 112%float, Some 111%float)
    (Some 115%float, Some 114%float) = Raise TypeError
  /\ exists res,
       ATR1_Engine.check_entry Samples_ATR1.engine_start
         (Samples.level_bar 120 120) 2 120
         (Some 110%float, Some 109%float) (Some 112%float, Some 111%float)
         (Some 115%float, Some 114%float) = Ok res.
Proof.
  split.
  - apply (proj1 (check_entry_raises_iff_line_missing
                    Samples_ATR1.engine_start (Samples.level_bar 120 120)
                    2 120 (None, Some 109%float)
                    (Some 112%float, Some 111%float)
                    (Some 115%float, Some 114%float))).
    reflexivity.
  - apply (proj2 (check_entry_raises_iff_line_missing
                    Samples_ATR1.engine_start (Samples.level_bar 120 120)
                    2 120 (Some 110%float, Some 109%float)
                    (Some 112%float, Some 111%float)
                    (Some 115%float, Some 114%float))).
    + discriminate.
    + vm_compute. constructor.
Defined.

(** ** The ATR1 engine started on a short history *)

Module ATR1_Short_History.
Import ATR1_Engine.

Lemma ShiftedLine_Update_fed p m n sl x :
  fed p m n sl ->
  (1 <= p < float_max_int)%Z -> (0 < m)%Z -> (0 <= n)%Z ->
  exists sl' out,
    ATR1.ShiftedLine_Update sl x = Ok (sl', out) /\
    fed p m (n + 1) sl' /\
    ((n + 1 < m)%Z -> fst out = None).
Proof.
  intros [HL [HM [HC HB]]] Hp Hm Hn. unfold ATR1.ShiftedLine_Update.
  rewrite <- HL in Hp. rewrite <- HM in Hm.
  destruct (ATR1_Smoother.SMMA_Update_ok (ATR1.smma sl) x Hp)
    as [s1 [[cur pv] [HU [HL1 HC1]]]].
  rewrite HU. cbn [bind].
  rewrite <- HM in HB.
  destruct (ATR1_Smoother.deque_append_len (ATR1.buf sl) cur n Hm Hn HB)
    as [Hm1 Hl1].
  destruct (Z.eqb_spec
              (len (ATR1.items (ATR1.deque_append (ATR1.buf sl) cur)))
              (ATR1.maxlen (ATR1.deque_append (ATR1.buf sl) cur)))
    as [Hfull|Hnot].
  - destruct (ATR1.items (ATR1.deque_append (ATR1.buf sl) cur))
      as [|y r] eqn:Hit.
    + unfold len in Hfull. simpl in Hfull. lia.
    + cbn [bind]. eexists _, _. split; [reflexivity |].
      split.
      * unfold fed. cbn [ATR1.smma ATR1.buf]. rewrite Hit.
        repeat split; try congruence; lia.
      * intros Hlt. rewrite Hfull, Hm1 in Hl1. lia.
  - cbn [bind]. eexists _, _. split; [reflexivity |].
    split.
    + unfold fed. cbn [ATR1.smma ATR1.buf].
      repeat split; try congruence; lia.
    + intros _. reflexivity.
Qed.

Lemma warm_up_awaiting history : forall self h,
  (0 <= h)%Z -> awaiting h self ->
  exists s',
    warm_up self history = Ok s' /\ awaiting (h + len history) s' /\
    hl2s s' = hl2s self.
Proof.
  induction history as [|bar rest IH]; intros self h Hh HA.
  - exists self. unfold len. simpl. rewrite Z.add_0_r. auto.
  - destruct HA as [A1 [A2 [A3 [A4 [A5 [FJ [FT FL]]]]]]].
    cbn [warm_up]. cbv zeta.
    destruct (ShiftedLine_Update_fed 13 9 h (jaw self)
                ((Williams2.High bar + Williams2.Low bar) / 2)%float FJ)
      as [j1 [jv [EJ [FJ1 _]]]];
      [unfold float_max_int; lia | lia | lia |].
    destruct (ShiftedLine_Update_fed 8 6 h (teeth self)
                ((Williams2.High bar + Williams2.Low bar) / 2)%float FT)
      as [t1 [tv [ET [FT1 _]]]];
      [unfold float_max_int; lia | lia | lia |].
    destruct (ShiftedLine_Update_fed 5 4 h (lips self)
                ((Williams2.High bar + Williams2.Low bar) / 2)%float FL)
      as [l1 [lv [EL [FL1 _]]]];
      [unfold float_max_int; lia | lia | lia |].
    rewrite EJ, ET, EL. cbn [bind].
    match goal with
    | |- context [warm_up ?x rest] =>
        destruct (IH x (h + 1)%Z) as [s' [HW [HA' HH]]];
        [lia
        | exact (conj A1 (conj A2 (conj A3 (conj A4 (conj A5
                   (conj FJ1 (conj FT1 FL1)))))))
        |]
    end.
    exists s'. split; [exact HW |]. split; [| exact HH].
    replace (h + len (bar :: rest))%Z with (h + 1 + len rest)%Z
      by (unfold len; cbn [List.length]; lia).
    exact HA'.
Qed.

Lemma update_indicators_skip self bar h :
  awaiting h self ->
  (len (hl2s self) + 1 < 14)%Z ->
  exists s1,
    update_indicators self bar = Ok (s1, None) /\
    awaiting h s1 /\ len (hl2s s1) = (len (hl2s self) + 1)%Z.
Proof.
  intros [A1 [A2 [A3 [A4 [A5 [FJ [FT FL]]]]]]] Hlt.
  unfold update_indicators. cbv zeta.
  cbn [hl2s jawLength teethLength lipsLength set_series].
  rewrite A1, A2, A3, ATR1_Smoother.len_app_one.
  destruct (Z.ltb_spec (len (hl2s self) + 1)
                       (Z.max (Z.max 13 8) 5 + 1)) as [_|Hge];
    [| change (Z.max (Z.max 13 8) 5 + 1)%Z with 14%Z in Hge; lia].
  eexists. split; [reflexivity |].
  split.
  - unfold awaiting. cbn [hl2s closes jawLength teethLength lipsLength
      invested jaw teeth lips set_series].
    rewrite !ATR1_Smoother.len_app_one.
    assert (A5' : (len (closes self) + 1 = len (hl2s self) + 1)%Z) by lia.
    exact (conj A1 (conj A2 (conj A3 (conj A4 (conj A5'
             (conj FJ (conj FT FL))))))).
  - cbn [hl2s set_series]. apply ATR1_Smoother.len_app_one.
Qed.

Lemma OnData_first_processed self d h :
  awaiting h self -> (0 <= h <= 7)%Z ->
  ready d = true ->
  (len (hl2s self) + 1 = 14)%Z ->
  OnData self d = Raise TypeError.
Proof.
  intros [A1 [A2 [A3 [A4 [A5 [FJ [FT FL]]]]]]] Hh Hr Hlen.
  unfold ready in Hr. unfold OnData.
  destruct (bar_of d) as [bar|]; [| discriminate].
  rewrite Hr. cbn [negb].
  unfold update_indicators. cbv zeta.
  cbn [hl2s closes lips_list teeth_list jawLength teethLength lipsLength
       jaw teeth lips set_series].
  rewrite A1, A2, A3, ATR1_Smoother.len_app_one.
  destruct (Z.ltb_spec (len (hl2s self) + 1)
                       (Z.max (Z.max 13 8) 5 + 1)) as [Hlt|_];
    [change (Z.max (Z.max 13 8) 5 + 1)%Z with 14%Z in Hlt; lia |].
  destruct (ShiftedLine_Update_fed 13 9 h (jaw self)
              ((Williams2.High bar + Williams2.Low bar) / 2)%float FJ)
    as [j1 [jv [EJ [_ NJ]]]];
    [unfold float_max_int; lia | lia | lia |].
  destruct (ShiftedLine_Update_fed 8 6 h (teeth self)
              ((Williams2.High bar + Williams2.Low bar) / 2)%float FT)
    as [t1 [tv [ET _]]];
    [unfold float_max_int; lia | lia | lia |].
  destruct (ShiftedLine_Update_fed 5 4 h (lips self)
              ((Williams2.High bar + Williams2.Low bar) / 2)%float FL)
    as [l1 [lv [EL _]]];
    [unfold float_max_int; lia | lia | lia |].
  rewrite EJ, ET, EL. cbn [bind].
  assert (Hnone : fst jv = None) by (apply NJ; lia).
  match goal with
  | |- context [check_entry ?s bar ?a ?h2 jv tv lv] =>
      assert (Hinv : invested s = false)
        by (destruct (initial_symbol_price _); exact A4);
      rewrite Hinv;
      rewrite (ATR1_Missing.check_entry_missing s bar a h2 jv tv lv)
  end.
  - reflexivity.
  - unfold ATR1.lines3, tick_of. cbn [ATR1.jaw]. rewrite Hnone. reflexivity.
Qed.

Lemma run_to_first_processed h rest :
  (0 <= h <= 7)%Z ->
  forall first self,
    awaiting h self ->
    Forall (fun d => ready d = true) first ->
    (len (hl2s self) + len first = 14)%Z ->
    first <> [] ->
    run self (first ++ rest) = Raise TypeError.
Proof.
  intros Hh. induction first as [|d first IH];
    intros self HA Hall Hlen Hne; [contradiction Hne; reflexivity |].
  inversion Hall as [|d' f' Hd Hf]; subst.
  assert (Hl : len (d :: first) = (len first + 1)%Z)
    by (unfold len; cbn [List.length]; lia).
  rewrite Hl in Hlen.
  cbn [app run].
  destruct first as [|d2 first2].
  - rewrite (OnData_first_processed self d h HA Hh Hd);
      [reflexivity | unfold len in *; simpl in *; lia].
  - assert (Hpos : (0 < len (d2 :: first2))%Z)
      by (unfold len; cbn [List.length]; lia).
    assert (Hd' := Hd). unfold ready in Hd'. unfold OnData.
    destruct (bar_of d) as [bar|]; [| discriminate].
    rewrite Hd'. cbn [negb].
    destruct (update_indicators_skip self bar h HA) as [s1 [EU [HA1 HL1]]];
      [lia |].
    rewrite EU. cbn [bind].
    apply IH; try assumption; [lia | discriminate].
Qed.

End ATR1_Short_History.

Section ATR1_Short_History_Run.
Import ATR1_Engine.

(** X21: when [Initialize] of ATR1 finds at most seven bars of history,
    the handler records the first thirteen ready bars and raises
    [TypeError] on the fourteenth, the first it processes: the jaw line,
    which needs nine updates to fill its shift buffer, still returns no
    value there. *)
Theorem short_history_raises_on_first_processed_bar
    (history : list TradeBar) (first rest : list Slice) :
  (len history <= 7)%Z ->
  List.length first = 14%nat ->
  Forall (fun d => ready d = true) first ->
  exists s0,
    Initialize history = Ok s0 /\
    run s0 (first ++ rest) = Raise TypeError.
Proof.
  intros Hh Hlen Hall.
  unfold Initialize, initial_state. simpl bind.
  match goal with
  | |- context [warm_up ?x history] =>
      destruct (ATR1_Short_History.warm_up_awaiting history x 0)
        as [s0 [HW [HA HH]]]
  end.
  - lia.
  - unfold awaiting, fed. simpl. repeat split; reflexivity.
  - exists s0. split; [exact HW |].
    assert (0 <= len history)%Z by (unfold len; lia).
    apply (ATR1_Short_History.run_to_first_processed (0 + len history));
      try assumption.
    + lia.
    + rewrite HH. unfold len. simpl. rewrite Hlen. reflexivity.
    + intros ->. discriminate.
Qed.

End ATR1_Short_History_Run.

Lemma short_history_raises_on_first_processed_bar_witness :
  exists s0,
    ATR1_Engine.Initialize (Samples.rising 100 7) = Ok s0 /\
    ATR1_Engine.run s0
      (Samples_ATR1.ready_slices (Samples.rising 107 14)
       ++ Samples_ATR1.ready_slices (Samples.rising 121 3))
    = Raise TypeError.
Proof.
  apply (short_history_raises_on_first_processed_bar
           (Samples.rising 100 7)
           (Samples_ATR1.ready_slices (Samples.rising 107 14))
           (Samples_ATR1.ready_slices (Samples.rising 121 3))).
  - vm_compute. discriminate.
  - reflexivity.
  - repeat constructor.
Defined.
